(** * GERawConverter: the header-conversion session of ge_to_ismrmrd

    A shallow embedding of [src/GERawConverter.cpp].  The session object
    [GERawConverter] opens a GE raw file (ScanArchive or P-File) through the
    Orchestra SDK, selects a sequence converter by class name, projects the
    raw header into an intermediate XML document through [XMLWriter], and
    transforms that document with an XSLT stylesheet through libxml2/libxslt.

    The SDK, the XML writer, the XSLT engine and the sequence converters are
    external to the translation unit: they appear here as interfaces
    (type classes), and every statement below holds for all their
    implementations.  Where C++ leaves the order of evaluation to the
    compiler (the arguments of a call, the operands of an operator), the
    order is a parameter as well, and every statement holds for each
    choice.  The code of the translation unit itself is embedded
    statement by statement in a small monad that keeps
    - the outcome of a computation (return, C++ exception, [exit],
      undefined behaviour),
    - the ordered trace of what the code does to the outside (console
      output, SDK calls, writer calls, engine calls). *)

From Stdlib Require Import ZArith String Ascii List Bool Lia DecimalString.
Import ListNotations.
Local Open Scope string_scope.
Local Open Scope Z_scope.

(* ------------------------------------------------------------------ *)
(** ** C++ values *)

(** A [boost::shared_ptr] / [std::shared_ptr]: [None] is the null pointer. *)
Definition ptr (T : Type) : Type := option T.

Definition is_null {T : Type} (p : ptr T) : bool :=
  match p with Some _ => false | None => true end.

(** [int] is 32 bits wide; signed overflow is undefined behaviour. *)
Definition INT_MIN : Z := -2147483648.
Definition INT_MAX : Z := 2147483647.

Definition in_int (z : Z) : bool := (INT_MIN <=? z) && (z <=? INT_MAX).

(** Conversion of an integer value to [int] (modular, as every supported
    compiler does it). *)
Definition to_int (z : Z) : Z := (z + 2147483648) mod 4294967296 - 2147483648.

(** [EXIT_FAILURE] of <cstdlib>. *)
Definition EXIT_FAILURE : Z := 1.

(** [s.c_str()] handed to a [%s] conversion: the characters before the
    first NUL. *)
Fixpoint c_str (s : string) : string :=
  match s with
  | EmptyString => EmptyString
  | String c rest => if Ascii.eqb c zero then EmptyString else String c (c_str rest)
  end.

(** [std::string::empty]. *)
Definition empty (s : string) : bool :=
  match s with EmptyString => true | _ => false end.

(** [a.compare(b)]: negative, zero or positive. *)
Definition compare (a b : string) : Z :=
  match String.compare a b with Lt => -1 | Eq => 0 | Gt => 1 end.

(** [needle] occurs in [hay]. *)
Definition contains (needle hay : string) : bool :=
  match String.index 0 needle hay with Some _ => true | None => false end.

(* ------------------------------------------------------------------ *)
(** ** Exceptions, outcomes, traces *)

Inductive exception : Type :=
| std_exception (what : string)       (* derived from std::exception *)
| foreign_exception (tag : string).   (* anything else: only [catch (...)] sees it *)

(** [std::runtime_error(msg)] is a [std::exception] whose [what()] is [msg]. *)
Definition runtime_error (msg : string) : exception := std_exception msg.

(** What a call into an external collaborator does: return or throw. *)
Inductive result (A : Type) : Type :=
| Ok (a : A)
| Raise (e : exception).
Arguments Ok {A} a.
Arguments Raise {A} e.

Definition raised {A : Type} (r : result A) : option exception :=
  match r with Ok _ => None | Raise e => Some e end.

Inductive cxx_type : Type := T_bool | T_int | T_unsigned_int | T_SliceInfoTable.

(** The calls the translation unit makes into the Orchestra SDK. *)
Inductive sdk_call : Type :=
| call_IsArchiveFilePath (path : string)
| call_ScanArchive_Create (path : string)
| call_LoadDownloadData
| call_LxControlSource (null_arg : bool)
| call_CreateOrchestraProcessingControl
| call_Pfile_Create (path : string)
| call_Pfile_DownloadData
| call_Pfile_CreateOrchestraProcessingControl
| call_Value (T : cxx_type) (name : string)
| call_ValueStrict (T : cxx_type) (name : string)
| call_IsCalibration
| call_IsEpi
| call_DicomSeries (null_arg : bool)
| call_Series
| call_Series_GeneralModule
| call_SeriesModule_UID
| call_SeriesDescription
| call_Study
| call_Study_GeneralModule
| call_StudyModule_UID
| call_Patient
| call_Patient_GeneralModule
| call_PatientModule_Name
| call_PatientModule_ID
| call_Equipment
| call_Equipment_GeneralModule
| call_Manufacturer
| call_AcquiredSliceCorners (slice : Z)
| call_SliceOrientation (slice : Z)
| call_ImageCorners
| call_GrayscaleImage (width height : Z)
| call_DicomImage
| call_ImageModule
| call_EchoTime
| call_RepetitionTime
| call_EpiLxControlSource (null_arg : bool)
| call_Epi_CreateOrchestraProcessingControl
| call_ArchiveStorage_Create (null_archive : bool)
| call_AvailableControlCount.

(** The variadic argument of [XMLWriter::formatElement]. *)
Inductive printf_arg : Type :=
| arg_int (z : Z)
| arg_unsigned (z : Z)
| arg_cstr (s : string).

(** The calls on the local [XMLWriter]. *)
Inductive WriterCall : Type :=
| startDocument
| startElement (name : string)
| endElement
| endDocument
| addBooleanElement (name : string) (value : bool)
| formatElement (name format : string) (arg : printf_arg).

(** The calls into libxml2 / libxslt. *)
Inductive engine_call : Type :=
| call_xmlSubstituteEntitiesDefault
| set_xmlLoadExtDtdDefaultValue
| call_xmlParseMemory_stylesheet
| call_xsltParseStylesheetDoc
| call_xmlParseMemory_header
| call_xsltApplyStylesheet
| call_xsltSaveResultToString.

Inductive container_kind : Type := container_scanArchive | container_pfile.

Inductive ConverterClass : Type :=
| GenericConverter
| NIH2dfastConverter
| NIHepiConverter.

Inductive event : Type :=
| ev_cout (line : string)
| ev_cerr (line : string)
| ev_log (line : string)
| ev_sdk (c : sdk_call) (threw : option exception)
| ev_writer_new (threw : option exception)
| ev_writer (c : WriterCall) (threw : option exception)
| ev_writer_getXML (threw : option exception)
| ev_engine (c : engine_call) (failed : bool) (diagnostic : string)
| ev_converter (c : ConverterClass) (k : container_kind) (null_container : bool)
               (view_num : Z) (threw : option exception).

Definition trace : Type := list event.

Inductive outcome (A : Type) : Type :=
| Returns (a : A)
| Throws (e : exception)
| Exits (status : Z)
| Undefined.
Arguments Returns {A} a.
Arguments Throws {A} e.
Arguments Exits {A} status.
Arguments Undefined {A}.

(** A computation over a mutable local state [St]. *)
Definition M (St A : Type) : Type := St -> trace * outcome (A * St).

Definition ret {St A : Type} (a : A) : M St A :=
  fun s => ([], Returns (a, s)).

Definition bind {St A B : Type} (m : M St A) (f : A -> M St B) : M St B :=
  fun s =>
    match m s with
    | (t, Returns (a, s')) => let (t', r) := f a s' in ((t ++ t')%list, r)
    | (t, Throws e) => (t, Throws e)
    | (t, Exits n) => (t, Exits n)
    | (t, Undefined) => (t, Undefined)
    end.

Declare Scope cxx_scope.
Delimit Scope cxx_scope with cxx.
Notation "x <- m ;; k" := (bind m (fun x => k))
  (at level 61, m at next level, right associativity) : cxx_scope.
Notation "m ;; k" := (bind m (fun _ => k))
  (at level 61, right associativity) : cxx_scope.
Local Open Scope cxx_scope.

Definition emit {St : Type} (e : event) : M St unit :=
  fun s => ([e], Returns (tt, s)).

Definition cout {St : Type} (line : string) : M St unit := emit (ev_cout line).
Definition cerr {St : Type} (line : string) : M St unit := emit (ev_cerr line).
Definition log {St : Type} (line : string) : M St unit := emit (ev_log line).

Definition throw {St A : Type} (e : exception) : M St A :=
  fun _ => ([], Throws e).

Definition exit {St A : Type} (status : Z) : M St A :=
  fun _ => ([], Exits status).

Definition undefined {St A : Type} : M St A :=
  fun _ => ([], Undefined).

(** [p->...] on a smart pointer: a null [p] is undefined behaviour. *)
Definition deref {St T : Type} (p : ptr T) : M St T :=
  match p with Some t => ret t | None => undefined end.

(** A call into the SDK, recorded with what it threw. *)
Definition sdk {St A : Type} (c : sdk_call) (r : result A) : M St A :=
  fun s => ([ev_sdk c (raised r)],
            match r with Ok a => Returns (a, s) | Raise e => Throws e end).

(** [try { body } catch ...]: [handler e] is [None] when no clause matches
    [e].  Used where the function has no local state left to unwind. *)
Definition try_catch {A : Type} (body : M unit A)
    (handler : exception -> option (M unit A)) : M unit A :=
  fun s =>
    match body s with
    | (t, Throws e) =>
        match handler e with
        | Some h => let (t', r) := h s in ((t ++ t')%list, r)
        | None => (t, Throws e)
        end
    | other => other
    end.

(** A clause [catch (const std::exception& e)]. *)
Definition catch_std_exception {A : Type} (h : string -> M unit A)
  : exception -> option (M unit A) :=
  fun e => match e with
           | std_exception what => Some (h what)
           | foreign_exception _ => None
           end.

(** Run a computation that has no local state. *)
Definition run {A : Type} (m : M unit A) : trace * outcome A :=
  match m tt with
  | (t, Returns (a, _)) => (t, Returns a)
  | (t, Throws e) => (t, Throws e)
  | (t, Exits n) => (t, Exits n)
  | (t, Undefined) => (t, Undefined)
  end.

(* ------------------------------------------------------------------ *)
(** ** Order of evaluation *)

Inductive evaluation_order : Type :=
| left_to_right
| right_to_left.

(** What the compiler chooses where the language leaves the order of
    evaluation unspecified: among the arguments of one call, and among the
    operands of one arithmetic operator. *)
Class Compiler : Type := {
  argument_order : evaluation_order;
  operand_order : evaluation_order
}.

(** Two evaluations written side by side whose order the compiler chooses.
    The calls of one are not interleaved with the calls of the other, so
    one of the two comes first as a whole. *)
Definition unsequenced {St A B : Type} (order : evaluation_order)
    (first : M St A) (second : M St B) : M St (A * B) :=
  match order with
  | left_to_right => a <- first ;; b <- second ;; ret (a, b)
  | right_to_left => b <- second ;; a <- first ;; ret (a, b)
  end.

(* ------------------------------------------------------------------ *)
(** ** Integer arithmetic of the projection *)

(** The type of an integer expression whose declaration is outside the
    translation unit. *)
Inductive integer_type : Type :=
| type_int
| type_unsigned_int
| type_size_t.

(** The value of an expression, where the language defines one. *)
Definition defined {St A : Type} (v : option A) : M St A :=
  match v with Some a => ret a | None => undefined end.

(** [a + b] on two [int]s: no value on overflow. *)
Definition int_add (a b : Z) : option Z :=
  if in_int (a + b) then Some (a + b) else None.

(** [count / d] in an unsigned type of the given modulus, [d] being an
    [int] that the usual arithmetic conversions turn into that type; the
    quotient is then converted to [int]. *)
Definition unsigned_div (modulus count d : Z) : option Z :=
  let d' := d mod modulus in
  if d' =? 0 then None else Some (to_int (Z.quot count d')).

(** [int q = count / d;] where [count] has type [ty] and [d] is an [int]:
    no value on division by zero or overflow. *)
Definition div_by_int (ty : integer_type) (count d : Z) : option Z :=
  match ty with
  | type_int =>
      if d =? 0 then None
      else if in_int (Z.quot count d) then Some (Z.quot count d)
      else None
  | type_unsigned_int => unsigned_div 4294967296 count d
  | type_size_t => unsigned_div 18446744073709551616 count d
  end.

(* ------------------------------------------------------------------ *)
(** ** External collaborators *)

(** The Orchestra SDK as the translation unit uses it.  Every entry returns
    or throws; entries that return a smart pointer may return null. *)
Class Orchestra : Type := {
  ScanArchive : Type;
  Pfile : Type;
  DownloadData : Type;
  LxDownloadData : Type;
  LxControlSource : Type;
  EpiLxControlSource : Type;
  ProcessingControl : Type;
  ArchiveStorage : Type;
  DicomSeries : Type;
  Series : Type;
  SeriesModule : Type;
  Study : Type;
  StudyModule : Type;
  Patient : Type;
  PatientModule : Type;
  Equipment : Type;
  EquipmentModule : Type;
  SliceInfoTable : Type;
  SliceCorners : Type;
  SliceOrientation : Type;
  ImageCorners : Type;
  GrayscaleImage : Type;
  DicomImage : Type;
  ImageModule : Type;
  (* opening the raw file *)
  ScanArchive_IsArchiveFilePath : string -> result bool;
  ScanArchive_Create : string -> result (ptr ScanArchive);
  ScanArchive_LoadDownloadData : ScanArchive -> result (ptr DownloadData);
  dynamic_pointer_cast_LxDownloadData : ptr DownloadData -> ptr LxDownloadData;
  make_LxControlSource : ptr LxDownloadData -> result LxControlSource;
  LxControlSource_CreateOrchestraProcessingControl :
    LxControlSource -> result (ptr ProcessingControl);
  Pfile_Create : string -> result (ptr Pfile);
  Pfile_DownloadData : Pfile -> result (ptr LxDownloadData);
  Pfile_CreateOrchestraProcessingControl : Pfile -> result (ptr ProcessingControl);
  (* typed lookup by name *)
  Value_bool : ProcessingControl -> string -> result bool;
  Value_int : ProcessingControl -> string -> result Z;
  Value_unsigned_int : ProcessingControl -> string -> result Z;
  ValueStrict_bool : ProcessingControl -> string -> result bool;
  ValueStrict_SliceInfoTable : ProcessingControl -> string -> result SliceInfoTable;
  (* acquisition flags *)
  IsCalibration : LxDownloadData -> result bool;
  IsEpi : LxDownloadData -> result bool;
  (* DICOM identity objects *)
  make_DicomSeries : ptr LxDownloadData -> result DicomSeries;
  DicomSeries_Series : DicomSeries -> result (ptr Series);
  Series_GeneralModule : Series -> result (ptr SeriesModule);
  SeriesModule_UID : SeriesModule -> result string;
  SeriesModule_SeriesDescription : SeriesModule -> result string;
  Series_Study : Series -> result (ptr Study);
  Study_GeneralModule : Study -> result (ptr StudyModule);
  StudyModule_UID : StudyModule -> result string;
  Study_Patient : Study -> result (ptr Patient);
  Patient_GeneralModule : Patient -> result (ptr PatientModule);
  PatientModule_Name : PatientModule -> result string;
  PatientModule_ID : PatientModule -> result string;
  Series_Equipment : Series -> result (ptr Equipment);
  Equipment_GeneralModule : Equipment -> result (ptr EquipmentModule);
  EquipmentModule_Manufacturer : EquipmentModule -> result string;
  (* image module *)
  SliceInfoTable_AcquiredSliceCorners : SliceInfoTable -> Z -> result SliceCorners;
  SliceInfoTable_SliceOrientation : SliceInfoTable -> Z -> result SliceOrientation;
  make_ImageCorners : SliceCorners -> SliceOrientation -> result ImageCorners;
  make_GrayscaleImage : Z -> Z -> result GrayscaleImage;
  make_DicomImage :
    GrayscaleImage -> Z -> ImageCorners -> ptr Series -> LxDownloadData -> result DicomImage;
  DicomImage_ImageModule : DicomImage -> result (ptr ImageModule);
  ImageModule_EchoTime : ImageModule -> result string;
  ImageModule_RepetitionTime : ImageModule -> result string;
  (* EPI *)
  make_EpiLxControlSource : ptr LxDownloadData -> result EpiLxControlSource;
  EpiLxControlSource_CreateOrchestraProcessingControl :
    EpiLxControlSource -> result (ptr ProcessingControl);
  ArchiveStorage_Create : ptr ScanArchive -> result (ptr ArchiveStorage);
  ArchiveStorage_AvailableControlCount : ArchiveStorage -> result Z;
  AvailableControlCount_type : integer_type
}.

(** [XMLWriter] (XMLWriter.h): a document builder with a mutable state. *)
Class XMLWriter : Type := {
  xw_state : Type;
  xw_new : result xw_state;
  xw_step : WriterCall -> xw_state -> result xw_state;
  xw_getXML : xw_state -> result string
}.

(** libxml2 / libxslt.  A C function reports failure by its return value
    (a null pointer, a negative code); the second component is the
    diagnostic text the engine sends to its error handler meanwhile. *)
Class XsltEngine : Type := {
  xmlDoc : Type;
  xsltStylesheet : Type;
  xmlParseMemory : string -> ptr xmlDoc * string;
  xsltParseStylesheetDoc : xmlDoc -> ptr xsltStylesheet * string;
  xsltApplyStylesheet : xsltStylesheet -> xmlDoc -> ptr xmlDoc * string;
  xsltSaveResultToString : xmlDoc -> xsltStylesheet -> (Z * string) * string
}.

(** [SequenceConverter]: one virtual [getAcquisitions] per container kind,
    overridden by each converter class. *)
Class SequenceConverter `{Orchestra} : Type := {
  Acquisition : Type;
  getAcquisitions_pfile :
    ConverterClass -> ptr Pfile -> Z -> result (list Acquisition);
  getAcquisitions_scanArchive :
    ConverterClass -> ptr ScanArchive -> Z -> result (list Acquisition)
}.

(** The file system as [std::ifstream] sees it: the bytes of the files that
    can be opened for reading. *)
Definition FileSystem : Type := string -> option string.

(* ------------------------------------------------------------------ *)
(** ** std::ifstream *)

(** [filebuf] holds the bytes of the open file ([None]: no file is open),
    [gpos] the read position; the exception mask is the default one. *)
Record ifstream : Type := {
  filebuf : option string;
  gpos : nat;
  eofbit : bool;
  failbit : bool;
  badbit : bool
}.

(** [std::ifstream stream(filename, std::ios::binary)]. *)
Definition ifstream_open (fs : FileSystem) (filename : string) : ifstream :=
  match fs filename with
  | Some bytes =>
      {| filebuf := Some bytes; gpos := 0%nat;
         eofbit := false; failbit := false; badbit := false |}
  | None =>
      {| filebuf := None; gpos := 0%nat;
         eofbit := false; failbit := true; badbit := false |}
  end.

(** [stream.seekg(0, std::ios::beg)] ([istream.unformatted]): clears
    [eofbit]; then, when the stream has failed, sets [failbit] and leaves the
    position alone; otherwise repositions the buffer, which fails (and sets
    [failbit]) when no file is open. *)
Definition seekg_beg (st : ifstream) : ifstream :=
  if failbit st || badbit st then
    {| filebuf := filebuf st; gpos := gpos st;
       eofbit := false; failbit := true; badbit := badbit st |}
  else
    match filebuf st with
    | Some _ =>
        {| filebuf := filebuf st; gpos := 0%nat;
           eofbit := false; failbit := false; badbit := false |}
    | None =>
        {| filebuf := None; gpos := gpos st;
           eofbit := false; failbit := true; badbit := false |}
    end.

(** The range [std::istreambuf_iterator<char>(stream)] to the end iterator:
    the bytes of the buffer from the read position on.  The iterators work
    on the stream buffer and look at no state bit. *)
Definition istreambuf_rest (st : ifstream) : string :=
  match filebuf st with
  | Some bytes => String.substring (gpos st) (String.length bytes - gpos st) bytes
  | None => EmptyString
  end.

Definition istreambuf_drain (st : ifstream) : ifstream :=
  match filebuf st with
  | Some bytes =>
      {| filebuf := filebuf st; gpos := Nat.max (gpos st) (String.length bytes);
         eofbit := eofbit st; failbit := failbit st; badbit := badbit st |}
  | None => st
  end.

(* ------------------------------------------------------------------ *)
(** ** The session *)

Inductive RawObjectType : Type :=
| PFILE_RAW_TYPE
| SCAN_ARCHIVE_RAW_TYPE.

Definition RawObjectType_eqb (a b : RawObjectType) : bool :=
  match a, b with
  | PFILE_RAW_TYPE, PFILE_RAW_TYPE => true
  | SCAN_ARCHIVE_RAW_TYPE, SCAN_ARCHIVE_RAW_TYPE => true
  | _, _ => false
  end.

(** The class name each converter class is selected by. *)
Definition class_name (c : ConverterClass) : string :=
  match c with
  | GenericConverter => "GenericConverter"
  | NIH2dfastConverter => "NIH2dfastConverter"
  | NIHepiConverter => "NIHepiConverter"
  end.

Section Session.
Context {compiler_ : Compiler} {sdk_ : Orchestra} {writer_ : XMLWriter}
        {engine_ : XsltEngine} {converters_ : SequenceConverter}.

(** The data members of [GERawConverter] that the translation unit uses. *)
Record GERawConverter : Type := {
  log_ : bool;
  psdname_ : string;
  recon_config_ : string;
  stylesheet_ : string;
  scanArchive_ : ptr ScanArchive;
  pfile_ : ptr Pfile;
  lxData_ : ptr LxDownloadData;
  processingControl_ : ptr ProcessingControl;
  rawObjectType_ : RawObjectType;
  converter_ : ptr ConverterClass
}.

(** *** Constructor *)

(** The branch that opens the raw file; it yields the members it assigns:
    [scanArchive_], [pfile_], [lxData_], [processingControl_],
    [rawObjectType_].  A member a branch does not assign keeps its default
    value, the null pointer. *)
Definition open_raw_file (rawFilePath : string)
  : M unit (ptr ScanArchive * ptr Pfile * ptr LxDownloadData
            * ptr ProcessingControl * RawObjectType) :=
  isArchive <- sdk (call_IsArchiveFilePath rawFilePath)
                   (ScanArchive_IsArchiveFilePath rawFilePath) ;;
  if (isArchive : bool) then
    scanArchive <- sdk (call_ScanArchive_Create rawFilePath)
                       (ScanArchive_Create rawFilePath) ;;
    archive <- deref scanArchive ;;
    downloadData <- sdk call_LoadDownloadData (ScanArchive_LoadDownloadData archive) ;;
    let lxData := dynamic_pointer_cast_LxDownloadData downloadData in
    controlSource <- sdk (call_LxControlSource (is_null lxData))
                         (make_LxControlSource lxData) ;;
    processingControl <- sdk call_CreateOrchestraProcessingControl
                             (LxControlSource_CreateOrchestraProcessingControl controlSource) ;;
    ret (scanArchive, None, lxData, processingControl, SCAN_ARCHIVE_RAW_TYPE)
  else
    pfile <- sdk (call_Pfile_Create rawFilePath) (Pfile_Create rawFilePath) ;;
    pf <- deref pfile ;;
    lxData <- sdk call_Pfile_DownloadData (Pfile_DownloadData pf) ;;
    pf' <- deref pfile ;;
    processingControl <- sdk call_Pfile_CreateOrchestraProcessingControl
                             (Pfile_CreateOrchestraProcessingControl pf') ;;
    ret (None, pfile, lxData, processingControl, PFILE_RAW_TYPE).

(** The [if / else if] chain on [classname.compare(...)]. *)
Definition select_converter (classname : string) : M unit ConverterClass :=
  if compare classname "GenericConverter" =? 0 then ret GenericConverter
  else if compare classname "NIH2dfastConverter" =? 0 then ret NIH2dfastConverter
  else if compare classname "NIHepiConverter" =? 0 then ret NIHepiConverter
  else
    cerr ("Plugin class name: " ++ classname ++ " not implemented. Exiting...") ;;
    exit EXIT_FAILURE.

(** [GERawConverter::GERawConverter(rawFilePath, classname, logging)]. *)
Definition new_GERawConverter (rawFilePath classname : string) (logging : bool)
  : M unit GERawConverter :=
  let psdname := "" in
  log ("PSDName: " ++ psdname) ;;
  opened <- open_raw_file rawFilePath ;;
  let '(scanArchive, pfile, lxData, processingControl, rawObjectType) := opened in
  converter <- select_converter classname ;;
  ret {| log_ := logging;
         psdname_ := psdname;
         recon_config_ := "";
         stylesheet_ := "";
         scanArchive_ := scanArchive;
         pfile_ := pfile;
         lxData_ := lxData;
         processingControl_ := processingControl;
         rawObjectType_ := rawObjectType;
         converter_ := Some converter |}.

(** *** Stylesheet entry points *)

(** [GERawConverter::useStylesheetString]. *)
Definition useStylesheetString (self : GERawConverter) (sheet : string)
  : GERawConverter :=
  {| log_ := log_ self;
     psdname_ := psdname_ self;
     recon_config_ := recon_config_ self;
     stylesheet_ := sheet;
     scanArchive_ := scanArchive_ self;
     pfile_ := pfile_ self;
     lxData_ := lxData_ self;
     processingControl_ := processingControl_ self;
     rawObjectType_ := rawObjectType_ self;
     converter_ := converter_ self |}.

(** [GERawConverter::useStylesheetStream]: the stream is the caller's and
    comes back repositioned and drained. *)
Definition useStylesheetStream (self : GERawConverter) (stream : ifstream)
  : GERawConverter * ifstream :=
  let stream1 := seekg_beg stream in
  let sheet := istreambuf_rest stream1 in
  (useStylesheetString self sheet, istreambuf_drain stream1).

(** [GERawConverter::useStylesheetFilename]. *)
Definition useStylesheetFilename (fs : FileSystem) (self : GERawConverter)
    (filename : string) : trace * GERawConverter :=
  let stream := ifstream_open fs (c_str filename) in
  ([ev_log ("Loading stylesheet: " ++ filename)],
   fst (useStylesheetStream self stream)).

(** *** Header projection *)

Definition writer (c : WriterCall) : M xw_state unit :=
  fun w =>
    match xw_step c w with
    | Ok w' => ([ev_writer c None], Returns (tt, w'))
    | Raise e => ([ev_writer c (Some e)], Throws e)
    end.

Definition writer_getXML : M xw_state string :=
  fun w =>
    match xw_getXML w with
    | Ok text => ([ev_writer_getXML None], Returns (text, w))
    | Raise e => ([ev_writer_getXML (Some e)], Throws e)
    end.

(** The scope of the local [XMLWriter writer;]. *)
Definition with_XMLWriter {A : Type} (body : M xw_state A) : M unit A :=
  fun _ =>
    match xw_new with
    | Raise e => ([ev_writer_new (Some e)], Throws e)
    | Ok w =>
        match body w with
        | (t, Returns (a, _)) => (ev_writer_new None :: t, Returns (a, tt))
        | (t, Throws e) => (ev_writer_new None :: t, Throws e)
        | (t, Exits n) => (ev_writer_new None :: t, Exits n)
        | (t, Undefined) => (ev_writer_new None :: t, Undefined)
        end
    end.

(** [pc->Value<T>(name)] and [pc->ValueStrict<T>(name)]. *)
Definition pc_Value_bool {St : Type} (pc : ptr ProcessingControl) (name : string)
  : M St bool :=
  p <- deref pc ;; sdk (call_Value T_bool name) (Value_bool p name).

Definition pc_Value_int {St : Type} (pc : ptr ProcessingControl) (name : string)
  : M St Z :=
  p <- deref pc ;; sdk (call_Value T_int name) (Value_int p name).

Definition pc_Value_unsigned_int {St : Type} (pc : ptr ProcessingControl)
    (name : string) : M St Z :=
  p <- deref pc ;; sdk (call_Value T_unsigned_int name) (Value_unsigned_int p name).

Definition pc_ValueStrict_bool {St : Type} (pc : ptr ProcessingControl)
    (name : string) : M St bool :=
  p <- deref pc ;; sdk (call_ValueStrict T_bool name) (ValueStrict_bool p name).

Definition pc_ValueStrict_SliceInfoTable {St : Type} (pc : ptr ProcessingControl)
    (name : string) : M St SliceInfoTable :=
  p <- deref pc ;;
  sdk (call_ValueStrict T_SliceInfoTable name) (ValueStrict_SliceInfoTable p name).

Definition seriesModule_SeriesDescription {St : Type} (seriesModule : ptr SeriesModule)
  : M St string :=
  sm <- deref seriesModule ;;
  sdk call_SeriesDescription (SeriesModule_SeriesDescription sm).

(** The block guarded by [if (lxData->IsEpi())].  The two operands of the
    sum that gives [ref_views], and the two operands of the division that
    gives [num_volumes], are evaluated in the order the compiler chooses. *)
Definition epi_block (self : GERawConverter) (lxData : ptr LxDownloadData)
    (processingControl : ptr ProcessingControl) : M xw_state unit :=
  cout "[INFO] EPI data detected, adding EPI-specific parameters." ;;
  controlSource <- sdk (call_EpiLxControlSource (is_null lxData))
                       (make_EpiLxControlSource lxData) ;;
  procCtrlEPI <- sdk call_Epi_CreateOrchestraProcessingControl
                     (EpiLxControlSource_CreateOrchestraProcessingControl controlSource) ;;
  archive_storage_ptr <-
    sdk (call_ArchiveStorage_Create (is_null (scanArchive_ self)))
        (ArchiveStorage_Create (scanArchive_ self)) ;;
  frames <-
    unsequenced operand_order
      (pc_Value_int procCtrlEPI "ExtraFramesTop")
      (pc_Value_int procCtrlEPI "ExtraFramesBottom") ;;
  ref_views <- defined (int_add (fst frames) (snd frames)) ;;
  operands <-
    unsequenced operand_order
      (storage <- deref archive_storage_ptr ;;
       sdk call_AvailableControlCount (ArchiveStorage_AvailableControlCount storage))
      (numSlices <- pc_Value_int processingControl "NumSlices" ;;
       defined (int_add numSlices 1)) ;;
  num_volumes <-
    defined (div_by_int AvailableControlCount_type (fst operands) (snd operands)) ;;
  writer (startElement "epiParameters") ;;
  integrated <- pc_Value_bool procCtrlEPI "IntegratedReferenceScan" ;;
  writer (addBooleanElement "isEpiRefScanIntegrated" integrated) ;;
  multiband <- pc_ValueStrict_bool procCtrlEPI "MultibandEnabled" ;;
  writer (addBooleanElement "MultibandEnabled" multiband) ;;
  extraTop <- pc_Value_int procCtrlEPI "ExtraFramesTop" ;;
  writer (formatElement "ExtraFramesTop" "%d" (arg_int extraTop)) ;;
  yres <- pc_Value_int procCtrlEPI "AcquiredYRes" ;;
  writer (formatElement "AcquiredYRes" "%d" (arg_int yres)) ;;
  extraBottom <- pc_Value_int procCtrlEPI "ExtraFramesBottom" ;;
  writer (formatElement "ExtraFramesBottom" "%d" (arg_int extraBottom)) ;;
  writer (formatElement "NumRefViews" "%d" (arg_int ref_views)) ;;
  writer (formatElement "num_volumes" "%d" (arg_int num_volumes)) ;;
  writer endElement.

(** Steps 1 to 8 of the [try] block, from [writer.startDocument()] to the
    repetition time.  The arguments of [GERecon::ImageCorners(...)] and of
    [GERecon::Legacy::DicomImage(...)] are evaluated in the order the
    compiler chooses. *)
Definition header_fields (lxData : ptr LxDownloadData)
    (processingControl : ptr ProcessingControl) : M xw_state unit :=
  writer startDocument ;;
  writer (startElement "Header") ;;
  cout "[INFO] Adding acquisition flags from processing control and lxData." ;;
  is3D <- pc_Value_bool processingControl "Is3DAcquisition" ;;
  writer (addBooleanElement "is3DAcquisition" is3D) ;;
  lx <- deref lxData ;;
  isCal <- sdk call_IsCalibration (IsCalibration lx) ;;
  writer (addBooleanElement "isCalibration" isCal) ;;
  asset <- pc_Value_bool processingControl "AssetCalibration" ;;
  writer (addBooleanElement "isAssetCalibration" asset) ;;
  cout "[INFO] Adding slice and channel count." ;;
  sliceCount <- pc_Value_int processingControl "NumSlices" ;;
  writer (formatElement "SliceCount" "%d" (arg_int sliceCount)) ;;
  channelCount <- pc_Value_int processingControl "NumChannels" ;;
  writer (formatElement "ChannelCount" "%d" (arg_int channelCount)) ;;
  cout "[INFO] Fetching DICOM series information." ;;
  legacySeries <- sdk (call_DicomSeries (is_null lxData)) (make_DicomSeries lxData) ;;
  series <- sdk call_Series (DicomSeries_Series legacySeries) ;;
  se <- deref series ;;
  seriesModule <- sdk call_Series_GeneralModule (Series_GeneralModule se) ;;
  writer (startElement "Series") ;;
  cout "[INFO] Adding series number and UID." ;;
  seriesNumber <- pc_Value_int processingControl "SeriesNumber" ;;
  writer (formatElement "Number" "%d" (arg_int seriesNumber)) ;;
  sm <- deref seriesModule ;;
  seriesUID <- sdk call_SeriesModule_UID (SeriesModule_UID sm) ;;
  writer (formatElement "UID" "%s" (arg_cstr (c_str seriesUID))) ;;
  cout "[INFO] Adding series description." ;;
  description <- seriesModule_SeriesDescription seriesModule ;;
  (if empty description then cerr "[WARNING] Series description is empty!"
   else ret tt) ;;
  description' <- seriesModule_SeriesDescription seriesModule ;;
  writer (formatElement "Description" "%s" (arg_cstr (c_str description'))) ;;
  cout "[INFO] Fetching DICOM study information." ;;
  se1 <- deref series ;;
  study <- sdk call_Study (Series_Study se1) ;;
  st <- deref study ;;
  studyModule <- sdk call_Study_GeneralModule (Study_GeneralModule st) ;;
  writer (startElement "Study") ;;
  examNumber <- pc_Value_int processingControl "ExamNumber" ;;
  writer (formatElement "Number" "%u" (arg_int examNumber)) ;;
  stm <- deref studyModule ;;
  studyUID <- sdk call_StudyModule_UID (StudyModule_UID stm) ;;
  writer (formatElement "UID" "%s" (arg_cstr (c_str studyUID))) ;;
  cout "[INFO] Adding patient details." ;;
  st1 <- deref study ;;
  patient <- sdk call_Patient (Study_Patient st1) ;;
  pa <- deref patient ;;
  patientModule <- sdk call_Patient_GeneralModule (Patient_GeneralModule pa) ;;
  writer (startElement "Patient") ;;
  pm <- deref patientModule ;;
  patientName <- sdk call_PatientModule_Name (PatientModule_Name pm) ;;
  writer (formatElement "Name" "%s" (arg_cstr (c_str patientName))) ;;
  pm1 <- deref patientModule ;;
  patientID <- sdk call_PatientModule_ID (PatientModule_ID pm1) ;;
  writer (formatElement "ID" "%s" (arg_cstr (c_str patientID))) ;;
  cout "[INFO] Fetching equipment information." ;;
  se2 <- deref series ;;
  equipment <- sdk call_Equipment (Series_Equipment se2) ;;
  eq <- deref equipment ;;
  equipmentModule <- sdk call_Equipment_GeneralModule (Equipment_GeneralModule eq) ;;
  writer (startElement "Equipment") ;;
  em <- deref equipmentModule ;;
  manufacturer <- sdk call_Manufacturer (EquipmentModule_Manufacturer em) ;;
  writer (formatElement "Manufacturer" "%s" (arg_cstr (c_str manufacturer))) ;;
  cout "[INFO] Fetching CoilConfigUID." ;;
  coilConfigUID <- pc_Value_unsigned_int processingControl "CoilConfigUID" ;;
  writer (formatElement "CoilConfigUID" "%u" (arg_unsigned coilConfigUID)) ;;
  cout "[INFO] Fetching image module details." ;;
  sliceTable <- pc_ValueStrict_SliceInfoTable processingControl "SliceTable" ;;
  slice <-
    unsequenced argument_order
      (sdk (call_AcquiredSliceCorners 0)
           (SliceInfoTable_AcquiredSliceCorners sliceTable 0))
      (sdk (call_SliceOrientation 0)
           (SliceInfoTable_SliceOrientation sliceTable 0)) ;;
  imageCorners <- sdk call_ImageCorners (make_ImageCorners (fst slice) (snd slice)) ;;
  image <-
    unsequenced argument_order
      (sdk (call_GrayscaleImage 128 128) (make_GrayscaleImage 128 128))
      (deref lxData) ;;
  dicomImage <- sdk call_DicomImage
                    (make_DicomImage (fst image) 0 imageCorners series (snd image)) ;;
  imageModule <- sdk call_ImageModule (DicomImage_ImageModule dicomImage) ;;
  writer (startElement "Image") ;;
  im <- deref imageModule ;;
  echoTime <- sdk call_EchoTime (ImageModule_EchoTime im) ;;
  writer (formatElement "EchoTime" "%s" (arg_cstr (c_str echoTime))) ;;
  im1 <- deref imageModule ;;
  repetitionTime <- sdk call_RepetitionTime (ImageModule_RepetitionTime im1) ;;
  writer (formatElement "RepetitionTime" "%s" (arg_cstr (c_str repetitionTime))).

(** The statements of the [try] block after [XMLWriter writer;]. *)
Definition header_body (self : GERawConverter) (lxData : ptr LxDownloadData)
    (processingControl : ptr ProcessingControl) : M xw_state string :=
  header_fields lxData processingControl ;;
  lx <- deref lxData ;;
  isEpi <- sdk call_IsEpi (IsEpi lx) ;;
  (if (isEpi : bool) then epi_block self lxData processingControl else ret tt) ;;
  writer endElement ;;
  writer endDocument ;;
  cout "[INFO] Successfully completed XML generation." ;;
  writer_getXML.

(** The two [catch] clauses of [ge_header_to_xml]: report, then [throw;]. *)
Definition header_handler (e : exception) : option (M unit string) :=
  Some match e with
       | std_exception what =>
           cerr ("[ERROR] Exception caught during XML conversion: " ++ what) ;;
           throw e
       | foreign_exception _ =>
           cerr "[ERROR] Unknown error occurred during XML conversion." ;;
           throw e
       end.

(** [GERawConverter::ge_header_to_xml(lxData, processingControl)]. *)
Definition ge_header_to_xml (self : GERawConverter) (lxData : ptr LxDownloadData)
    (processingControl : ptr ProcessingControl) : M unit string :=
  try_catch
    (cout "[INFO] Starting conversion of raw file header to XML string." ;;
     with_XMLWriter (header_body self lxData processingControl))
    header_handler.

(** *** Transform *)

(** A call into the XSLT engine, recorded with whether its return value
    reports a failure and with the engine's diagnostic. *)
Definition engine {St A : Type} (c : engine_call) (failed : A -> bool)
    (r : A * string) : M St A :=
  fun s => ([ev_engine c (failed (fst r)) (snd r)], Returns (fst r, s)).

(** [try { stage } catch (const std::exception& e)
         { throw std::runtime_error(prefix + e.what()); }]. *)
Definition stage {A : Type} (prefix : string) (body : M unit A) : M unit A :=
  try_catch body
    (catch_std_exception (fun what => throw (runtime_error (prefix ++ what)))).

(** A returned pointer that is checked against null. *)
Definition non_null {T : Type} (p : ptr T) (msg : string) : M unit T :=
  match p with
  | Some t => ret t
  | None => throw (runtime_error msg)
  end.

(** The transform stages of [getIsmrmrdXMLHeader]: parser defaults, the
    stylesheet parsed as XML and compiled, the header parsed, the stylesheet
    applied, the result saved to a string.  The release of the parsed
    documents ([xmlFreeDoc], [xsltFreeStylesheet], [xmlFree]) leaves no
    event. *)
Definition transform (stylesheet ge_raw_file_header : string) : M unit string :=
  stage "Failed to set XML parser defaults: "
    (engine call_xmlSubstituteEntitiesDefault (fun _ => false) (tt, "") ;;
     engine set_xmlLoadExtDtdDefaultValue (fun _ => false) (tt, "")) ;;
  stylesheet_doc <-
    stage "Failed to parse stylesheet from memory: "
      (doc <- engine call_xmlParseMemory_stylesheet is_null
                     (xmlParseMemory stylesheet) ;;
       non_null doc "Parsed stylesheet_doc is NULL.") ;;
  sheet <-
    stage "Failed to create shared_ptr for stylesheet: "
      (parsed <- engine call_xsltParseStylesheetDoc is_null
                        (xsltParseStylesheetDoc stylesheet_doc) ;;
       non_null parsed "Failed to parse XSLT stylesheet.") ;;
  pfile_doc <-
    stage "Failed to parse P-File XML: "
      (doc <- engine call_xmlParseMemory_header is_null
                     (xmlParseMemory ge_raw_file_header) ;;
       non_null doc "Failed to parse GE header XML.") ;;
  log "Applying stylesheet..." ;;
  transformed <-
    stage "Error applying stylesheet: "
      (doc <- engine call_xsltApplyStylesheet is_null
                     (xsltApplyStylesheet sheet pfile_doc) ;;
       non_null doc "Failed to apply XSLT stylesheet to the document.") ;;
  output <-
    stage "Error saving result to string: "
      (saved <- engine call_xsltSaveResultToString (fun r => fst r <? 0)
                       (xsltSaveResultToString transformed sheet) ;;
       if fst saved <? 0
       then throw (runtime_error "Failed to save transformed XML to string.")
       else ret (snd saved)) ;;
  ret output.

(** The outermost [catch] clause of [getIsmrmrdXMLHeader]: report, then
    [throw;]. *)
Definition header_error_handler : exception -> option (M unit string) :=
  catch_std_exception
    (fun what =>
       cerr ("Error in getIsmrmrdXMLHeader(): " ++ what) ;;
       throw (std_exception what)).

(** [GERawConverter::getIsmrmrdXMLHeader()]. *)
Definition getIsmrmrdXMLHeader (self : GERawConverter) : M unit string :=
  try_catch
    ((if empty (stylesheet_ self)
      then throw (runtime_error "No stylesheet configured.")
      else ret tt) ;;
     ge_raw_file_header <-
       stage "Failed to generate GE header from lxData and processingControl: "
         (header <- ge_header_to_xml self (lxData_ self) (processingControl_ self) ;;
          (if empty header
           then throw (runtime_error "Generated GE header is empty.")
           else ret tt) ;;
          ret header) ;;
     cout ("Converted header as XML string is: " ++ ge_raw_file_header) ;;
     transform (stylesheet_ self) ge_raw_file_header)
    header_error_handler.

(** *** Acquisitions *)

Definition converter_call {A : Type} (c : ConverterClass) (k : container_kind)
    (null_container : bool) (view_num : Z) (r : result A) : M unit A :=
  fun s => ([ev_converter c k null_container view_num (raised r)],
            match r with Ok a => Returns (a, s) | Raise e => Throws e end).

(** [GERawConverter::getAcquisitions(view_num)]. *)
Definition getAcquisitions (self : GERawConverter) (view_num : Z)
  : M unit (list Acquisition) :=
  if RawObjectType_eqb (rawObjectType_ self) SCAN_ARCHIVE_RAW_TYPE then
    c <- deref (converter_ self) ;;
    converter_call c container_scanArchive (is_null (scanArchive_ self)) view_num
      (getAcquisitions_scanArchive c (scanArchive_ self) view_num)
  else
    c <- deref (converter_ self) ;;
    converter_call c container_pfile (is_null (pfile_ self)) view_num
      (getAcquisitions_pfile c (pfile_ self) view_num).

(** [GERawConverter::getReconConfigName()]. *)
Definition getReconConfigName (self : GERawConverter) : string :=
  recon_config_ self.

(** *** The life of a session *)

(** The member functions a caller may invoke on a constructed session. *)
Inductive operation : Type :=
| op_useStylesheetFilename (filename : string)
| op_useStylesheetStream (stream : ifstream)
| op_useStylesheetString (sheet : string)
| op_getIsmrmrdXMLHeader
| op_getAcquisitions (view_num : Z)
| op_getReconConfigName.

(** The session after one operation.  Only the stylesheet entry points
    assign a data member; an operation that throws leaves the session as it
    found it. *)
Definition step (fs : FileSystem) (self : GERawConverter) (op : operation)
  : GERawConverter :=
  match op with
  | op_useStylesheetFilename filename => snd (useStylesheetFilename fs self filename)
  | op_useStylesheetStream stream => fst (useStylesheetStream self stream)
  | op_useStylesheetString sheet => useStylesheetString self sheet
  | op_getIsmrmrdXMLHeader => self
  | op_getAcquisitions _ => self
  | op_getReconConfigName => self
  end.

Definition run_operations (fs : FileSystem) (self : GERawConverter)
    (ops : list operation) : GERawConverter :=
  fold_left (step fs) ops self.

End Session.

(* ------------------------------------------------------------------ *)
(** ** Vocabulary of the statements *)

(** The writer calls of a trace, in order. *)
Definition writer_calls (t : trace) : list WriterCall :=
  flat_map (fun e => match e with ev_writer c _ => [c] | _ => [] end) t.

(** The engine calls of a trace, in order. *)
Definition engine_calls (t : trace) : list engine_call :=
  flat_map (fun e => match e with ev_engine c _ _ => [c] | _ => [] end) t.

(** An event of header projection or of the transform: a call on the
    writer or into the XSLT engine. *)
Definition is_projection_or_transform (e : event) : bool :=
  match e with
  | ev_writer_new _ | ev_writer _ _ | ev_writer_getXML _ | ev_engine _ _ _ => true
  | _ => false
  end.

(** The event is a call into the XSLT engine. *)
Definition is_engine (e : event) : bool :=
  match e with ev_engine _ _ _ => true | _ => false end.

(** The event is the writer call that opens the [epiParameters] block. *)
Definition opens_epiParameters (e : event) : bool :=
  match e with
  | ev_writer (startElement name) _ => String.eqb name "epiParameters"
  | _ => false
  end.

(** The event is a call of [ArchiveStorage::Create]. *)
Definition creates_ArchiveStorage (e : event) : bool :=
  match e with
  | ev_sdk (call_ArchiveStorage_Create _) _ => true
  | _ => false
  end.

(** The event is no call of [ArchiveStorage::Create], or one whose argument
    is null exactly when [null] says so. *)
Definition passes_archive (null : bool) (e : event) : bool :=
  match e with
  | ev_sdk (call_ArchiveStorage_Create n) _ => Bool.eqb n null
  | _ => true
  end.

(** The event is the console line that announces the EPI block. *)
Definition announces_epi (e : event) : bool :=
  match e with
  | ev_cout line =>
      String.eqb line "[INFO] EPI data detected, adding EPI-specific parameters."
  | _ => false
  end.

(** The [epiParameters] block: the calls that open it, fill it and close
    it. *)
Definition epi_parameters (integrated multiband : bool)
    (top yres bottom refViews volumes : Z) : list WriterCall :=
  [startElement "epiParameters";
   addBooleanElement "isEpiRefScanIntegrated" integrated;
   addBooleanElement "MultibandEnabled" multiband;
   formatElement "ExtraFramesTop" "%d" (arg_int top);
   formatElement "AcquiredYRes" "%d" (arg_int yres);
   formatElement "ExtraFramesBottom" "%d" (arg_int bottom);
   formatElement "NumRefViews" "%d" (arg_int refViews);
   formatElement "num_volumes" "%d" (arg_int volumes);
   endElement].

(** The EPI processing control made from [lxData] holds these values. *)
Definition epi_control_reads {sdk_ : Orchestra} (lxData : ptr LxDownloadData)
    (integrated multiband : bool) (top yres bottom : Z) : Prop :=
  exists controlSource procCtrlEPI,
    make_EpiLxControlSource lxData = Ok controlSource
    /\ EpiLxControlSource_CreateOrchestraProcessingControl controlSource
       = Ok (Some procCtrlEPI)
    /\ Value_bool procCtrlEPI "IntegratedReferenceScan" = Ok integrated
    /\ ValueStrict_bool procCtrlEPI "MultibandEnabled" = Ok multiband
    /\ Value_int procCtrlEPI "ExtraFramesTop" = Ok top
    /\ Value_int procCtrlEPI "AcquiredYRes" = Ok yres
    /\ Value_int procCtrlEPI "ExtraFramesBottom" = Ok bottom.

(** The state of a writer after a sequence of calls; the first call that
    throws ends it. *)
Fixpoint xw_steps {writer_ : XMLWriter} (calls : list WriterCall) (w : xw_state)
  : result xw_state :=
  match calls with
  | [] => Ok w
  | c :: rest =>
      match xw_step c w with
      | Ok w1 => xw_steps rest w1
      | Raise e => Raise e
      end
  end.

(** The text [getXML] gives on a new writer that received exactly [calls]. *)
Definition document_of {writer_ : XMLWriter} (calls : list WriterCall) : result string :=
  match xw_new with
  | Ok w =>
      match xw_steps calls w with
      | Ok w1 => xw_getXML w1
      | Raise e => Raise e
      end
  | Raise e => Raise e
  end.

(** A computation on a writer that returns leaves the writer in the state
    its writer calls lead to. *)
Definition tracks_writer {writer_ : XMLWriter} {A : Type} (m : M xw_state A) : Prop :=
  forall w t a w1,
    m w = (t, Returns (a, w1)) -> xw_steps (writer_calls t) w = Ok w1.

(** The event is the read of the EPI flag of the download data. *)
Definition asks_IsEpi (e : event) : bool :=
  match e with
  | ev_sdk call_IsEpi _ => true
  | _ => false
  end.

(** The line [ge_header_to_xml] sends to [std::cerr] before it rethrows. *)
Definition conversion_error_report (e : exception) : string :=
  match e with
  | std_exception what => "[ERROR] Exception caught during XML conversion: " ++ what
  | foreign_exception _ => "[ERROR] Unknown error occurred during XML conversion."
  end.

(** The line [getIsmrmrdXMLHeader] sends to [std::cerr] before it
    rethrows: only a [std::exception] is caught there. *)
Definition header_error_report (e : exception) : trace :=
  match e with
  | std_exception what => [ev_cerr ("Error in getIsmrmrdXMLHeader(): " ++ what)]
  | foreign_exception _ => []
  end.

(** What [getIsmrmrdXMLHeader] throws when header projection throws [e]. *)
Definition projection_failure (e : exception) : exception :=
  match e with
  | std_exception what =>
      runtime_error
        ("Failed to generate GE header from lxData and processingControl: " ++ what)
  | foreign_exception _ => e
  end.

(** The engine calls of one transform, in program order. *)
Definition transform_pipeline : list engine_call :=
  [call_xmlSubstituteEntitiesDefault;
   set_xmlLoadExtDtdDefaultValue;
   call_xmlParseMemory_stylesheet;
   call_xsltParseStylesheetDoc;
   call_xmlParseMemory_header;
   call_xsltApplyStylesheet;
   call_xsltSaveResultToString].

(** The text of the exception that reports the failure of an engine call. *)
Definition stage_failure (c : engine_call) : string :=
  match c with
  | call_xmlParseMemory_stylesheet =>
      "Failed to parse stylesheet from memory: Parsed stylesheet_doc is NULL."
  | call_xsltParseStylesheetDoc =>
      "Failed to create shared_ptr for stylesheet: Failed to parse XSLT stylesheet."
  | call_xmlParseMemory_header =>
      "Failed to parse P-File XML: Failed to parse GE header XML."
  | call_xsltApplyStylesheet =>
      "Error applying stylesheet: Failed to apply XSLT stylesheet to the document."
  | call_xsltSaveResultToString =>
      "Error saving result to string: Failed to save transformed XML to string."
  | call_xmlSubstituteEntitiesDefault | set_xmlLoadExtDtdDefaultValue => ""
  end.

(** The computation returned. *)
Definition returned {A : Type} (r : outcome A) : bool :=
  match r with Returns _ => true | _ => false end.

(** The text of a document, when there is one. *)
Definition text_of (r : outcome string) : string :=
  match r with Returns text => text | _ => "" end.

(** Every event a computation emits, from any state and whatever its
    outcome, satisfies [P]. *)
Definition always {St A : Type} (P : event -> Prop) (m : M St A) : Prop :=
  forall s, Forall P (fst (m s)).

(** A computation stops at the first SDK call that throws, with the
    exception of that call. *)
Definition fails_fast {St A : Type} (m : M St A) : Prop :=
  forall s c e,
    In (ev_sdk c (Some e)) (fst (m s)) ->
    snd (m s) = Throws e
    /\ exists before, fst (m s) = (before ++ [ev_sdk c (Some e)])%list.

(** *** The shape of a document *)

(** A writer call without the value it carries. *)
Inductive shape : Type :=
| document_start
| document_end
| opens (name : string)
| closes
| boolean (name : string)
| formatted (name format : string).

Definition shape_of (c : WriterCall) : shape :=
  match c with
  | startDocument => document_start
  | endDocument => document_end
  | startElement name => opens name
  | endElement => closes
  | addBooleanElement name _ => boolean name
  | formatElement name format _ => formatted name format
  end.

(** The elements that a sequence of calls leaves open, innermost first,
    when it starts with the elements of [stack] open. *)
Fixpoint open_elements (calls : list shape) (stack : list string) : list string :=
  match calls with
  | [] => stack
  | opens name :: rest => open_elements rest (name :: stack)
  | closes :: rest => open_elements rest (tl stack)
  | _ :: rest => open_elements rest stack
  end.

(** The calls of steps 1 to 8 of [ge_header_to_xml], without their values. *)
Definition header_shape : list shape :=
  [document_start;
   opens "Header";
   boolean "is3DAcquisition";
   boolean "isCalibration";
   boolean "isAssetCalibration";
   formatted "SliceCount" "%d";
   formatted "ChannelCount" "%d";
   opens "Series";
   formatted "Number" "%d";
   formatted "UID" "%s";
   formatted "Description" "%s";
   opens "Study";
   formatted "Number" "%u";
   formatted "UID" "%s";
   opens "Patient";
   formatted "Name" "%s";
   formatted "ID" "%s";
   opens "Equipment";
   formatted "Manufacturer" "%s";
   formatted "CoilConfigUID" "%u";
   opens "Image";
   formatted "EchoTime" "%s";
   formatted "RepetitionTime" "%s"].

(** The calls of the EPI block, without their values. *)
Definition epi_shape : list shape :=
  [opens "epiParameters";
   boolean "isEpiRefScanIntegrated";
   boolean "MultibandEnabled";
   formatted "ExtraFramesTop" "%d";
   formatted "AcquiredYRes" "%d";
   formatted "ExtraFramesBottom" "%d";
   formatted "NumRefViews" "%d";
   formatted "num_volumes" "%d";
   closes].

(** The event is a call into the SDK. *)
Definition is_sdk (e : event) : bool :=
  match e with ev_sdk _ _ => true | _ => false end.

(** *** Where a failure comes from *)

(** The event is a call of a collaborator that threw. *)
Definition raises (ev : event) : bool :=
  match ev with
  | ev_sdk _ (Some _) | ev_writer_new (Some _) | ev_writer _ (Some _)
  | ev_writer_getXML (Some _) | ev_converter _ _ _ _ (Some _) => true
  | _ => false
  end.

(** The event is a call of a collaborator that threw [e]. *)
Definition raised_by (e : exception) (ev : event) : Prop :=
  match ev with
  | ev_sdk _ (Some e') | ev_writer_new (Some e') | ev_writer _ (Some e')
  | ev_writer_getXML (Some e') | ev_converter _ _ _ _ (Some e') => e' = e
  | _ => False
  end.

(** A computation throws nothing of its own and never exits: when it
    throws, the exception is the one that its last event, a call, threw, and
    no call before it threw; when it does not throw, no call threw. *)
Definition throws_from_calls {St A : Type} (m : M St A) : Prop :=
  forall s,
    match snd (m s) with
    | Throws e =>
        exists before ev,
          fst (m s) = (before ++ [ev])%list
          /\ raised_by e ev
          /\ Forall (fun ev => raises ev = false) before
    | Exits _ => False
    | _ => Forall (fun ev => raises ev = false) (fst (m s))
    end.

(** The stylesheet and the header go through the five fallible engine calls
    without a failure, and the text that comes out is [out]. *)
Definition transforms {engine_ : XsltEngine} (sheet header out : string) : Prop :=
  exists stylesheet_doc compiled pfile_doc transformed rc,
    fst (xmlParseMemory sheet) = Some stylesheet_doc
    /\ fst (xsltParseStylesheetDoc stylesheet_doc) = Some compiled
    /\ fst (xmlParseMemory header) = Some pfile_doc
    /\ fst (xsltApplyStylesheet compiled pfile_doc) = Some transformed
    /\ fst (xsltSaveResultToString transformed compiled) = (rc, out)
    /\ 0 <= rc.

(** The event is a line on the error stream. *)
Definition is_cerr (e : event) : bool :=
  match e with ev_cerr _ => true | _ => false end.


(* ------------------------------------------------------------------ *)
(** ** Concrete collaborators

    Small implementations of the four interfaces, to run the session on
    concrete raw headers. *)

(** The content of a raw file, as far as the session reads it. *)
Record raw_header : Type := {
  h_isArchive : bool;
  h_unreadable : list string;      (* names whose typed lookup throws *)
  h_is3D : bool;
  h_isCalibration : bool;
  h_assetCalibration : bool;
  h_numSlices : Z;
  h_numChannels : Z;
  h_seriesNumber : Z;
  h_examNumber : Z;
  h_coilConfigUID : Z;
  h_seriesUID : string;
  h_seriesDescription : string;
  h_studyUID : string;
  h_patientName : string;
  h_patientID : string;
  h_manufacturer : string;
  h_echoTime : string;
  h_repetitionTime : string;
  h_isEpi : bool;
  h_extraFramesTop : Z;
  h_extraFramesBottom : Z;
  h_acquiredYRes : Z;
  h_integratedReferenceScan : bool;
  h_multibandEnabled : bool;
  h_availableControlCount : Z;
  h_countType : integer_type
}.

Definition lookup_failure : exception := std_exception "bad any_cast".

Definition unreadable (h : raw_header) (name : string) : bool :=
  existsb (String.eqb name) (h_unreadable h).

(** Typed lookup in a list of named values. *)
Fixpoint lookup {A : Type} (name : string) (table : list (string * A)) : result A :=
  match table with
  | [] => Raise lookup_failure
  | (key, value) :: rest => if String.eqb name key then Ok value else lookup name rest
  end.

Definition guarded {A : Type} (h : raw_header) (name : string)
    (table : list (string * A)) : result A :=
  if unreadable h name then Raise lookup_failure else lookup name table.

(** Processing controls are told apart by a flag: [false] is the one the
    session holds, [true] the EPI one. *)
Definition header_bools (h : raw_header) (epi : bool) : list (string * bool) :=
  if epi
  then [("IntegratedReferenceScan", h_integratedReferenceScan h);
        ("MultibandEnabled", h_multibandEnabled h)]
  else [("Is3DAcquisition", h_is3D h); ("AssetCalibration", h_assetCalibration h)].

Definition header_ints (h : raw_header) (epi : bool) : list (string * Z) :=
  if epi
  then [("ExtraFramesTop", h_extraFramesTop h);
        ("ExtraFramesBottom", h_extraFramesBottom h);
        ("AcquiredYRes", h_acquiredYRes h)]
  else [("NumSlices", h_numSlices h); ("NumChannels", h_numChannels h);
        ("SeriesNumber", h_seriesNumber h); ("ExamNumber", h_examNumber h)].

Definition header_unsigneds (h : raw_header) (epi : bool) : list (string * Z) :=
  if epi then [] else [("CoilConfigUID", h_coilConfigUID h)].

Definition file_orchestra (h : raw_header) : Orchestra := {|
  ScanArchive := unit;
  Pfile := unit;
  DownloadData := unit;
  LxDownloadData := unit;
  LxControlSource := unit;
  EpiLxControlSource := unit;
  ProcessingControl := bool;
  ArchiveStorage := unit;
  DicomSeries := unit;
  Series := unit;
  SeriesModule := unit;
  Study := unit;
  StudyModule := unit;
  Patient := unit;
  PatientModule := unit;
  Equipment := unit;
  EquipmentModule := unit;
  SliceInfoTable := unit;
  SliceCorners := unit;
  SliceOrientation := unit;
  ImageCorners := unit;
  GrayscaleImage := unit;
  DicomImage := unit;
  ImageModule := unit;
  ScanArchive_IsArchiveFilePath := fun _ => Ok (h_isArchive h);
  ScanArchive_Create := fun _ => Ok (Some tt);
  ScanArchive_LoadDownloadData := fun _ => Ok (Some tt);
  dynamic_pointer_cast_LxDownloadData := fun p => p;
  make_LxControlSource := fun _ => Ok tt;
  LxControlSource_CreateOrchestraProcessingControl := fun _ => Ok (Some false);
  Pfile_Create := fun _ => Ok (Some tt);
  Pfile_DownloadData := fun _ => Ok (Some tt);
  Pfile_CreateOrchestraProcessingControl := fun _ => Ok (Some false);
  Value_bool := fun pc name => guarded h name (header_bools h pc);
  Value_int := fun pc name => guarded h name (header_ints h pc);
  Value_unsigned_int := fun pc name => guarded h name (header_unsigneds h pc);
  ValueStrict_bool := fun pc name => guarded h name (header_bools h pc);
  ValueStrict_SliceInfoTable := fun pc name => guarded h name [("SliceTable", tt)];
  IsCalibration := fun _ => Ok (h_isCalibration h);
  IsEpi := fun _ => Ok (h_isEpi h);
  make_DicomSeries := fun _ => Ok tt;
  DicomSeries_Series := fun _ => Ok (Some tt);
  Series_GeneralModule := fun _ => Ok (Some tt);
  SeriesModule_UID := fun _ => Ok (h_seriesUID h);
  SeriesModule_SeriesDescription := fun _ => Ok (h_seriesDescription h);
  Series_Study := fun _ => Ok (Some tt);
  Study_GeneralModule := fun _ => Ok (Some tt);
  StudyModule_UID := fun _ => Ok (h_studyUID h);
  Study_Patient := fun _ => Ok (Some tt);
  Patient_GeneralModule := fun _ => Ok (Some tt);
  PatientModule_Name := fun _ => Ok (h_patientName h);
  PatientModule_ID := fun _ => Ok (h_patientID h);
  Series_Equipment := fun _ => Ok (Some tt);
  Equipment_GeneralModule := fun _ => Ok (Some tt);
  EquipmentModule_Manufacturer := fun _ => Ok (h_manufacturer h);
  SliceInfoTable_AcquiredSliceCorners := fun _ _ => Ok tt;
  SliceInfoTable_SliceOrientation := fun _ _ => Ok tt;
  make_ImageCorners := fun _ _ => Ok tt;
  make_GrayscaleImage := fun _ _ => Ok tt;
  make_DicomImage := fun _ _ _ _ _ => Ok tt;
  DicomImage_ImageModule := fun _ => Ok (Some tt);
  ImageModule_EchoTime := fun _ => Ok (h_echoTime h);
  ImageModule_RepetitionTime := fun _ => Ok (h_repetitionTime h);
  make_EpiLxControlSource := fun _ => Ok tt;
  EpiLxControlSource_CreateOrchestraProcessingControl := fun _ => Ok (Some true);
  ArchiveStorage_Create := fun archive =>
    match archive with
    | Some _ => Ok (Some tt)
    | None => Raise (std_exception "no scan archive")
    end;
  ArchiveStorage_AvailableControlCount := fun _ => Ok (h_availableControlCount h);
  AvailableControlCount_type := h_countType h
|}.

(** The EPI scan of the end-to-end scenario: 29 slices, 300 control
    packets, two extra frames on top and one at the bottom.  Its container
    kind, the declared type of the control count, the names that cannot be
    read and the series description vary. *)
Definition epi_scan (isArchive : bool) (countType : integer_type)
    (unreadable_names : list string) (description : string) : raw_header := {|
  h_isArchive := isArchive;
  h_unreadable := unreadable_names;
  h_is3D := false;
  h_isCalibration := false;
  h_assetCalibration := false;
  h_numSlices := 29;
  h_numChannels := 8;
  h_seriesNumber := 4;
  h_examNumber := 1207;
  h_coilConfigUID := 3000000000;
  h_seriesUID := "1.2.840.113619.2.1";
  h_seriesDescription := description;
  h_studyUID := "1.2.840.113619.1";
  h_patientName := "PHANTOM";
  h_patientID := "0001";
  h_manufacturer := "GE MEDICAL SYSTEMS";
  h_echoTime := "30";
  h_repetitionTime := "2000";
  h_isEpi := true;
  h_extraFramesTop := 2;
  h_extraFramesBottom := 1;
  h_acquiredYRes := 64;
  h_integratedReferenceScan := false;
  h_multibandEnabled := false;
  h_availableControlCount := 300;
  h_countType := countType
|}.

(** A compiler that evaluates the arguments of a call from the last to the
    first and the operands of an operator from the first to the last. *)
Definition last_argument_first : Compiler := {|
  argument_order := right_to_left;
  operand_order := left_to_right
|}.

(** A writer that keeps the calls it receives (latest first) and never
    throws; its text lists them in order. *)
Definition show_arg (a : printf_arg) : string :=
  match a with
  | arg_int z => NilZero.string_of_int (Z.to_int z)
  | arg_unsigned z => NilZero.string_of_int (Z.to_int z)
  | arg_cstr s => s
  end.

Definition show_call (c : WriterCall) : string :=
  match c with
  | startDocument => "<?xml?>"
  | startElement name => "<" ++ name ++ ">"
  | endElement => "</>"
  | endDocument => "<!---->"
  | addBooleanElement name value =>
      "<" ++ name ++ ">" ++ (if value then "true" else "false") ++ "</>"
  | formatElement name _ arg => "<" ++ name ++ ">" ++ show_arg arg ++ "</>"
  end.

Definition recording_writer : XMLWriter := {|
  xw_state := list WriterCall;
  xw_new := Ok [];
  xw_step := fun c calls => Ok (c :: calls);
  xw_getXML := fun calls => Ok (String.concat "" (map show_call (rev calls)))
|}.

(** An engine that accepts text starting with [<] and transforms a
    document into itself. *)
Definition starts_with_tag (text : string) : bool :=
  match text with
  | String c _ => Ascii.eqb c "<"%char
  | EmptyString => false
  end.

Definition identity_engine : XsltEngine := {|
  xmlDoc := string;
  xsltStylesheet := string;
  xmlParseMemory := fun text =>
    if starts_with_tag text then (Some text, "")
    else (None, "Start tag expected, '<' not found");
  xsltParseStylesheetDoc := fun doc => (Some doc, "");
  xsltApplyStylesheet := fun _ doc => (Some doc, "");
  xsltSaveResultToString := fun doc _ => ((0, doc), "")
|}.

(** A writer that accepts every call and whose text is empty. *)
Definition blank_writer : XMLWriter := {|
  xw_state := unit;
  xw_new := Ok tt;
  xw_step := fun _ _ => Ok tt;
  xw_getXML := fun _ => Ok ""
|}.

(** Converters that find no acquisition. *)
Definition empty_converters (sdk_ : Orchestra) : @SequenceConverter sdk_ := {|
  Acquisition := unit;
  getAcquisitions_pfile := fun _ _ _ => Ok [];
  getAcquisitions_scanArchive := fun _ _ _ => Ok []
|}.

(** A file system that holds one stylesheet. *)
Definition one_stylesheet : FileSystem :=
  fun path => if String.eqb path "epi.xsl" then Some "<xsl:stylesheet/>" else None.

(** The session over [h]: the value the constructor returns, or the null
    session when it does not return. *)
Definition null_session {sdk_ : Orchestra} : GERawConverter := {|
  log_ := false;
  psdname_ := "";
  recon_config_ := "";
  stylesheet_ := "";
  scanArchive_ := None;
  pfile_ := None;
  lxData_ := None;
  processingControl_ := None;
  rawObjectType_ := PFILE_RAW_TYPE;
  converter_ := None
|}.

Definition session_of (h : raw_header) (classname : string)
  : @GERawConverter (file_orchestra h) :=
  match run (@new_GERawConverter (file_orchestra h) "scan.h5" classname false) with
  | (_, Returns self) => self
  | _ => @null_session (file_orchestra h)
  end.

(** The EPI scan stored as a ScanArchive and as a P-File. *)
Definition epi_archive_scan : raw_header := epi_scan true type_size_t [] "epi2".
Definition epi_pfile_scan : raw_header := epi_scan false type_size_t [] "epi2".

(** The archive scan with NumSlices unreadable, and with an empty series
    description. *)
Definition unreadable_scan : raw_header :=
  epi_scan true type_size_t ["NumSlices"] "epi2".
Definition undescribed_scan : raw_header := epi_scan true type_size_t [] "".

(** Header projection on the session over [h], with the recording writer. *)
Definition projection_of (h : raw_header) : trace * outcome string :=
  let self := session_of h "NIHepiConverter" in
  run (@ge_header_to_xml last_argument_first (file_orchestra h) recording_writer self
         (lxData_ self) (processingControl_ self)).

(** Header generation on the session over [h] once [sheet] is stored, with
    the recording writer and the identity engine. *)
Definition header_of (h : raw_header) (sheet : string) : trace * outcome string :=
  run (@getIsmrmrdXMLHeader last_argument_first (file_orchestra h) recording_writer identity_engine
         (useStylesheetString (session_of h "NIHepiConverter") sheet)).

(** A stream on the stylesheet that the caller has read to the end with an
    extraction that failed there, as a [while (std::getline(stream, line))]
    loop leaves it. *)
Definition drained_stream : ifstream := {|
  filebuf := Some "<xsl:stylesheet/>";
  gpos := 17%nat;
  eofbit := true;
  failbit := true;
  badbit := false
|}.

(** A stream on the stylesheet that has met the end of the file without
    failing and was then moved to the middle. *)
Definition midway_stream : ifstream := {|
  filebuf := Some "<xsl:stylesheet/>";
  gpos := 5%nat;
  eofbit := true;
  failbit := false;
  badbit := false
|}.

(** The raw header [h] with another slice count. *)
Definition with_numSlices (h : raw_header) (numSlices : Z) : raw_header := {|
  h_isArchive := h_isArchive h;
  h_unreadable := h_unreadable h;
  h_is3D := h_is3D h;
  h_isCalibration := h_isCalibration h;
  h_assetCalibration := h_assetCalibration h;
  h_numSlices := numSlices;
  h_numChannels := h_numChannels h;
  h_seriesNumber := h_seriesNumber h;
  h_examNumber := h_examNumber h;
  h_coilConfigUID := h_coilConfigUID h;
  h_seriesUID := h_seriesUID h;
  h_seriesDescription := h_seriesDescription h;
  h_studyUID := h_studyUID h;
  h_patientName := h_patientName h;
  h_patientID := h_patientID h;
  h_manufacturer := h_manufacturer h;
  h_echoTime := h_echoTime h;
  h_repetitionTime := h_repetitionTime h;
  h_isEpi := h_isEpi h;
  h_extraFramesTop := h_extraFramesTop h;
  h_extraFramesBottom := h_extraFramesBottom h;
  h_acquiredYRes := h_acquiredYRes h;
  h_integratedReferenceScan := h_integratedReferenceScan h;
  h_multibandEnabled := h_multibandEnabled h;
  h_availableControlCount := h_availableControlCount h;
  h_countType := h_countType h
|}.

(** The archive scan with a header whose NumSlices is -1. *)
Definition sliceless_scan : raw_header := with_numSlices epi_archive_scan (-1).

(** The SDK over a file that is no ScanArchive and that [Pfile::Create]
    refuses; the rest is as for [h]. *)
Definition refused_pfile (h : raw_header) : Orchestra := {|
  ScanArchive := @ScanArchive (file_orchestra h);
  Pfile := @Pfile (file_orchestra h);
  DownloadData := @DownloadData (file_orchestra h);
  LxDownloadData := @LxDownloadData (file_orchestra h);
  LxControlSource := @LxControlSource (file_orchestra h);
  EpiLxControlSource := @EpiLxControlSource (file_orchestra h);
  ProcessingControl := @ProcessingControl (file_orchestra h);
  ArchiveStorage := @ArchiveStorage (file_orchestra h);
  DicomSeries := @DicomSeries (file_orchestra h);
  Series := @Series (file_orchestra h);
  SeriesModule := @SeriesModule (file_orchestra h);
  Study := @Study (file_orchestra h);
  StudyModule := @StudyModule (file_orchestra h);
  Patient := @Patient (file_orchestra h);
  PatientModule := @PatientModule (file_orchestra h);
  Equipment := @Equipment (file_orchestra h);
  EquipmentModule := @EquipmentModule (file_orchestra h);
  SliceInfoTable := @SliceInfoTable (file_orchestra h);
  SliceCorners := @SliceCorners (file_orchestra h);
  SliceOrientation := @SliceOrientation (file_orchestra h);
  ImageCorners := @ImageCorners (file_orchestra h);
  GrayscaleImage := @GrayscaleImage (file_orchestra h);
  DicomImage := @DicomImage (file_orchestra h);
  ImageModule := @ImageModule (file_orchestra h);
  ScanArchive_IsArchiveFilePath := fun _ => Ok false;
  ScanArchive_Create := @ScanArchive_Create (file_orchestra h);
  ScanArchive_LoadDownloadData := @ScanArchive_LoadDownloadData (file_orchestra h);
  dynamic_pointer_cast_LxDownloadData := @dynamic_pointer_cast_LxDownloadData (file_orchestra h);
  make_LxControlSource := @make_LxControlSource (file_orchestra h);
  LxControlSource_CreateOrchestraProcessingControl := @LxControlSource_CreateOrchestraProcessingControl (file_orchestra h);
  Pfile_Create := fun _ => Raise (std_exception "not a P-File");
  Pfile_DownloadData := @Pfile_DownloadData (file_orchestra h);
  Pfile_CreateOrchestraProcessingControl := @Pfile_CreateOrchestraProcessingControl (file_orchestra h);
  Value_bool := @Value_bool (file_orchestra h);
  Value_int := @Value_int (file_orchestra h);
  Value_unsigned_int := @Value_unsigned_int (file_orchestra h);
  ValueStrict_bool := @ValueStrict_bool (file_orchestra h);
  ValueStrict_SliceInfoTable := @ValueStrict_SliceInfoTable (file_orchestra h);
  IsCalibration := @IsCalibration (file_orchestra h);
  IsEpi := @IsEpi (file_orchestra h);
  make_DicomSeries := @make_DicomSeries (file_orchestra h);
  DicomSeries_Series := @DicomSeries_Series (file_orchestra h);
  Series_GeneralModule := @Series_GeneralModule (file_orchestra h);
  SeriesModule_UID := @SeriesModule_UID (file_orchestra h);
  SeriesModule_SeriesDescription := @SeriesModule_SeriesDescription (file_orchestra h);
  Series_Study := @Series_Study (file_orchestra h);
  Study_GeneralModule := @Study_GeneralModule (file_orchestra h);
  StudyModule_UID := @StudyModule_UID (file_orchestra h);
  Study_Patient := @Study_Patient (file_orchestra h);
  Patient_GeneralModule := @Patient_GeneralModule (file_orchestra h);
  PatientModule_Name := @PatientModule_Name (file_orchestra h);
  PatientModule_ID := @PatientModule_ID (file_orchestra h);
  Series_Equipment := @Series_Equipment (file_orchestra h);
  Equipment_GeneralModule := @Equipment_GeneralModule (file_orchestra h);
  EquipmentModule_Manufacturer := @EquipmentModule_Manufacturer (file_orchestra h);
  SliceInfoTable_AcquiredSliceCorners := @SliceInfoTable_AcquiredSliceCorners (file_orchestra h);
  SliceInfoTable_SliceOrientation := @SliceInfoTable_SliceOrientation (file_orchestra h);
  make_ImageCorners := @make_ImageCorners (file_orchestra h);
  make_GrayscaleImage := @make_GrayscaleImage (file_orchestra h);
  make_DicomImage := @make_DicomImage (file_orchestra h);
  DicomImage_ImageModule := @DicomImage_ImageModule (file_orchestra h);
  ImageModule_EchoTime := @ImageModule_EchoTime (file_orchestra h);
  ImageModule_RepetitionTime := @ImageModule_RepetitionTime (file_orchestra h);
  make_EpiLxControlSource := @make_EpiLxControlSource (file_orchestra h);
  EpiLxControlSource_CreateOrchestraProcessingControl := @EpiLxControlSource_CreateOrchestraProcessingControl (file_orchestra h);
  ArchiveStorage_Create := @ArchiveStorage_Create (file_orchestra h);
  ArchiveStorage_AvailableControlCount := @ArchiveStorage_AvailableControlCount (file_orchestra h);
  AvailableControlCount_type := @AvailableControlCount_type (file_orchestra h)
|}.

(** Header generation on the session over [h] once [sheet] is stored, with
    the blank writer and the identity engine. *)
Definition blank_header_of (h : raw_header) (sheet : string) : trace * outcome string :=
  run (@getIsmrmrdXMLHeader last_argument_first (file_orchestra h) blank_writer identity_engine
         (useStylesheetString (session_of h "NIHepiConverter") sheet)).

(** Projection on a session whose two handles are null. *)
Definition projection_of_null_session : trace * outcome string :=
  run (@ge_header_to_xml last_argument_first (file_orchestra epi_archive_scan) recording_writer
         null_session None None).

(* ------------------------------------------------------------------ *)
(** * Properties *)

(** ** Strings *)

Lemma string_compare_refl (a : string) : String.compare a a = Eq.
Proof.
  pose proof (String.compare_antisym a a) as H.
  destruct (String.compare a a); simpl in H; congruence.
Qed.

Lemma compare_zero_iff (a b : string) : (compare a b =? 0) = true <-> a = b.
Proof.
  unfold compare. split.
  - destruct (String.compare a b) eqn:E; simpl; try discriminate.
    intros _. now apply String.compare_eq_iff.
  - intros ->. now rewrite string_compare_refl.
Qed.

Lemma compare_nonzero (a b : string) : a <> b -> (compare a b =? 0) = false.
Proof.
  intros H. destruct (compare a b =? 0) eqn:E; [|reflexivity].
  apply compare_zero_iff in E. contradiction.
Qed.

Lemma empty_true (s : string) : empty s = true -> s = "".
Proof. destruct s; [reflexivity | discriminate]. Qed.

(** ** The monad *)

Section MonadFacts.
Context {St A B : Type}.

Lemma bind_returns (m : M St A) (f : A -> M St B) s t b s2 :
  bind m f s = (t, Returns (b, s2)) ->
  exists t1 a s1 t2,
    m s = (t1, Returns (a, s1)) /\ f a s1 = (t2, Returns (b, s2))
    /\ t = (t1 ++ t2)%list.
Proof.
  unfold bind. destruct (m s) as [t1 [[a s1]|e|n|]]; try discriminate.
  destruct (f a s1) as [t2 r] eqn:E. intros H. inversion H; subst.
  now exists t1, a, s1, t2.
Qed.

Lemma bind_exits (m : M St A) (f : A -> M St B) s t n :
  m s = (t, Exits n) -> bind m f s = (t, Exits n).
Proof. unfold bind. now intros ->. Qed.

Lemma bind_continues (m : M St A) (f : A -> M St B) s t a s1 :
  m s = (t, Returns (a, s1)) ->
  bind m f s = ((t ++ fst (f a s1))%list, snd (f a s1)).
Proof. unfold bind. intros ->. now destruct (f a s1). Qed.

End MonadFacts.

(** ** Trace invariants *)

Section Always.
Context {St : Type} (P : event -> Prop).

Lemma always_ret {A : Type} (a : A) : always P (ret (St:=St) a).
Proof. intros s. constructor. Qed.

Lemma always_bind {A B : Type} (m : M St A) (f : A -> M St B) :
  always P m -> (forall a, always P (f a)) -> always P (bind m f).
Proof.
  intros Hm Hf s. unfold bind. specialize (Hm s).
  destruct (m s) as [t [[a s1]|e|n|]]; simpl in *; auto.
  specialize (Hf a s1). destruct (f a s1) as [t' r]; simpl in *.
  apply Forall_app. now split.
Qed.

Lemma always_unsequenced {A B : Type} (order : evaluation_order)
    (first : M St A) (second : M St B) :
  always P first -> always P second -> always P (unsequenced order first second).
Proof.
  intros H1 H2. destruct order; unfold unsequenced;
    repeat (apply always_bind; [assumption | intros ?]); apply always_ret.
Qed.

Lemma always_emit (e : event) : P e -> always P (emit (St:=St) e).
Proof. intros H s. simpl. now repeat constructor. Qed.

Lemma always_throw {A : Type} (e : exception) : always P (throw (St:=St) (A:=A) e).
Proof. intros s. constructor. Qed.

Lemma always_exit {A : Type} (n : Z) : always P (exit (St:=St) (A:=A) n).
Proof. intros s. constructor. Qed.

Lemma always_undefined {A : Type} : always P (undefined (St:=St) (A:=A)).
Proof. intros s. constructor. Qed.

Lemma always_deref {T : Type} (p : ptr T) : always P (deref (St:=St) p).
Proof. destruct p; [apply always_ret | apply always_undefined]. Qed.

Lemma always_sdk {A : Type} (c : sdk_call) (r : result A) :
  (forall threw, P (ev_sdk c threw)) -> always P (sdk (St:=St) c r).
Proof. intros H s. simpl. now repeat constructor. Qed.

Lemma always_defined {A : Type} (v : option A) : always P (defined (St:=St) v).
Proof. destruct v; [apply always_ret | apply always_undefined]. Qed.

End Always.

Lemma run_trace {A : Type} (m : M unit A) : fst (run m) = fst (m tt).
Proof. unfold run. now destruct (m tt) as [t [[a []]|e|n|]]. Qed.

Lemma run_returns {A : Type} (m : M unit A) t a :
  run m = (t, Returns a) -> m tt = (t, Returns (a, tt)).
Proof.
  unfold run. destruct (m tt) as [t' [[a' []]|e|n|]]; intros H; inversion H; now subst.
Qed.

(* ------------------------------------------------------------------ *)
(** ** The session *)

Section SessionFacts.
Context {compiler_ : Compiler} {sdk_ : Orchestra} {writer_ : XMLWriter}
        {engine_ : XsltEngine} {converters_ : SequenceConverter}.

(** *** Construction *)

Lemma select_converter_known (c : ConverterClass) :
  select_converter (class_name c) tt = ([], Returns (c, tt)).
Proof. destruct c; reflexivity. Qed.

Lemma select_converter_returns classname t c u :
  select_converter classname u = (t, Returns (c, tt)) -> class_name c = classname.
Proof.
  unfold select_converter.
  destruct (compare classname "GenericConverter" =? 0) eqn:E1.
  { apply compare_zero_iff in E1. intros H. inversion H. now subst. }
  destruct (compare classname "NIH2dfastConverter" =? 0) eqn:E2.
  { apply compare_zero_iff in E2. intros H. inversion H. now subst. }
  destruct (compare classname "NIHepiConverter" =? 0) eqn:E3.
  { apply compare_zero_iff in E3. intros H. inversion H. now subst. }
  discriminate.
Qed.

Lemma select_converter_unknown classname u :
  (forall c, class_name c <> classname) ->
  select_converter classname u =
    ([ev_cerr ("Plugin class name: " ++ classname ++ " not implemented. Exiting...")],
     Exits EXIT_FAILURE).
Proof.
  intros H. unfold select_converter.
  rewrite (compare_nonzero classname "GenericConverter")
    by (intros E; exact (H GenericConverter (eq_sym E))).
  rewrite (compare_nonzero classname "NIH2dfastConverter")
    by (intros E; exact (H NIH2dfastConverter (eq_sym E))).
  rewrite (compare_nonzero classname "NIHepiConverter")
    by (intros E; exact (H NIHepiConverter (eq_sym E))).
  reflexivity.
Qed.

Ltac always_step :=
  first
    [ apply always_unsequenced
    | apply always_bind; [| intros ? ]
    | apply always_ret
    | apply always_emit
    | apply always_throw
    | apply always_exit
    | apply always_undefined
    | apply always_deref
    | apply always_defined
    | apply always_sdk; intros ? ].

Lemma open_raw_file_quiet rawFilePath :
  always (fun e => is_projection_or_transform e = false) (open_raw_file rawFilePath).
Proof.
  unfold open_raw_file.
  apply always_bind; [always_step; reflexivity|]. intros [|]; repeat (always_step; try reflexivity).
Qed.

Lemma select_converter_quiet classname :
  always (fun e => is_projection_or_transform e = false) (select_converter classname).
Proof.
  unfold select_converter.
  repeat match goal with |- context [if ?b then _ else _] => destruct b end;
    repeat (always_step; try reflexivity).
Qed.

Lemma new_GERawConverter_quiet rawFilePath classname logging :
  always (fun e => is_projection_or_transform e = false)
         (new_GERawConverter rawFilePath classname logging).
Proof.
  unfold new_GERawConverter, log.
  apply always_bind; [always_step; reflexivity|]. intros _.
  apply always_bind; [apply open_raw_file_quiet|]. intros [[[[a b] c] d] e].
  apply always_bind; [apply select_converter_quiet|]. intros conv.
  apply always_ret.
Qed.

Lemma new_GERawConverter_returns rawFilePath classname logging t self :
  run (new_GERawConverter rawFilePath classname logging) = (t, Returns self) ->
  exists t0 scanArchive pfile lxData processingControl rawObjectType c,
    open_raw_file rawFilePath tt =
      (t0, Returns ((scanArchive, pfile, lxData, processingControl, rawObjectType), tt))
    /\ class_name c = classname
    /\ self = {| log_ := logging; psdname_ := ""; recon_config_ := "";
                 stylesheet_ := ""; scanArchive_ := scanArchive; pfile_ := pfile;
                 lxData_ := lxData; processingControl_ := processingControl;
                 rawObjectType_ := rawObjectType; converter_ := Some c |}.
Proof.
  intros H. apply run_returns in H. unfold new_GERawConverter in H.
  apply bind_returns in H. destruct H as (t1 & [] & [] & t2 & _ & H & _).
  apply bind_returns in H.
  destruct H as (t0 & [[[[sa pf] lx] pc] ty] & [] & t3 & Hopen & H & _).
  apply bind_returns in H. destruct H as (t4 & c & [] & t5 & Hsel & H & _).
  apply select_converter_returns in Hsel.
  inversion H; subst.
  now exists t0, sa, pf, lx, pc, ty, c.
Qed.

(** C3. The constructor selects the converter by exact match of the class
    name against GenericConverter, NIH2dfastConverter and NIHepiConverter:
    a session it returns holds the converter whose name is the configured
    one, and each of the three names yields its converter once the raw file
    is open.  With any other name the constructor returns no session (once
    the raw file is open it reports the name and exits with EXIT_FAILURE),
    and in no case does construction call the XML writer or the XSLT
    engine. *)
Theorem converter_selected_by_exact_class_name :
  forall rawFilePath classname logging t r,
    run (new_GERawConverter rawFilePath classname logging) = (t, r) ->
    (forall self, r = Returns self ->
       exists c, converter_ self = Some c /\ class_name c = classname)
    /\ (forall c t0 opened,
          classname = class_name c ->
          open_raw_file rawFilePath tt = (t0, Returns (opened, tt)) ->
          exists self, r = Returns self /\ converter_ self = Some c)
    /\ ((forall c, class_name c <> classname) ->
        (forall self, r <> Returns self)
        /\ (forall t0 opened,
              open_raw_file rawFilePath tt = (t0, Returns (opened, tt)) ->
              r = Exits EXIT_FAILURE))
    /\ Forall (fun e => is_projection_or_transform e = false) t.
Proof.
  intros rawFilePath classname logging t r Hrun.
  assert (Hret : forall self, r = Returns self ->
            exists c, converter_ self = Some c /\ class_name c = classname).
  { intros self ->. apply new_GERawConverter_returns in Hrun.
    destruct Hrun as (t0 & sa & pf & lx & pc & ty & c & _ & Hc & ->).
    now exists c. }
  split; [exact Hret|]. split; [|split].
  - intros c t0 opened -> Hopen.
    unfold run, new_GERawConverter in Hrun.
    rewrite (bind_continues _ _ tt [ev_log "PSDName: "] tt tt) in Hrun
      by reflexivity.
    rewrite (bind_continues _ _ tt t0 opened tt Hopen) in Hrun.
    destruct opened as [[[[sa pf] lx] pc] ty].
    rewrite (bind_continues _ _ tt [] c tt (select_converter_known c)) in Hrun.
    simpl in Hrun. inversion Hrun. eexists. split; reflexivity.
  - intros Hunknown. split.
    + intros self Hr. destruct (Hret self Hr) as (c & _ & Hc).
      exact (Hunknown c Hc).
    + intros t0 opened Hopen.
      unfold run, new_GERawConverter in Hrun.
      rewrite (bind_continues _ _ tt [ev_log "PSDName: "] tt tt) in Hrun
        by reflexivity.
      rewrite (bind_continues _ _ tt t0 opened tt Hopen) in Hrun.
      destruct opened as [[[[sa pf] lx] pc] ty].
      rewrite (bind_exits _ _ tt _ EXIT_FAILURE (select_converter_unknown classname tt Hunknown))
        in Hrun.
      simpl in Hrun. now inversion Hrun.
  - pose proof (new_GERawConverter_quiet rawFilePath classname logging tt) as Hq.
    rewrite <- run_trace in Hq. now rewrite Hrun in Hq.
Qed.

(** *** Inversion of the primitives *)

Section Primitives.
Context {St : Type}.

Lemma sdk_returns {A : Type} (c : sdk_call) (r : result A) (s s1 : St) t a :
  sdk c r s = (t, Returns (a, s1)) -> r = Ok a /\ t = [ev_sdk c None] /\ s1 = s.
Proof. unfold sdk. destruct r; intros H; inversion H; now subst. Qed.

Lemma deref_returns {T : Type} (p : ptr T) (s s1 : St) t a :
  deref p s = (t, Returns (a, s1)) -> p = Some a /\ t = [] /\ s1 = s.
Proof. destruct p; intros H; inversion H; now subst. Qed.

Lemma emit_returns (e : event) (s s1 : St) t a :
  emit e s = (t, Returns (a, s1)) -> t = [e] /\ s1 = s.
Proof. intros H; inversion H; now subst. Qed.

Lemma defined_returns {A : Type} (v : option A) (s s1 : St) t a :
  defined v s = (t, Returns (a, s1)) -> v = Some a /\ t = [] /\ s1 = s.
Proof. destruct v; intros H; inversion H; now subst. Qed.

Lemma pc_Value_int_returns (pc : ptr ProcessingControl) name (s s1 : St) t z :
  pc_Value_int pc name s = (t, Returns (z, s1)) ->
  exists p, pc = Some p /\ Value_int p name = Ok z
            /\ t = [ev_sdk (call_Value T_int name) None] /\ s1 = s.
Proof.
  unfold pc_Value_int. intros H. apply bind_returns in H.
  destruct H as (t1 & p & s2 & t2 & H1 & H2 & ->).
  apply deref_returns in H1. destruct H1 as (-> & -> & ->).
  apply sdk_returns in H2. destruct H2 as (H2 & -> & ->). now exists p.
Qed.

Lemma pc_Value_bool_returns (pc : ptr ProcessingControl) name (s s1 : St) t b :
  pc_Value_bool pc name s = (t, Returns (b, s1)) ->
  exists p, pc = Some p /\ Value_bool p name = Ok b
            /\ t = [ev_sdk (call_Value T_bool name) None] /\ s1 = s.
Proof.
  unfold pc_Value_bool. intros H. apply bind_returns in H.
  destruct H as (t1 & p & s2 & t2 & H1 & H2 & ->).
  apply deref_returns in H1. destruct H1 as (-> & -> & ->).
  apply sdk_returns in H2. destruct H2 as (H2 & -> & ->). now exists p.
Qed.

Lemma pc_ValueStrict_bool_returns (pc : ptr ProcessingControl) name (s s1 : St) t b :
  pc_ValueStrict_bool pc name s = (t, Returns (b, s1)) ->
  exists p, pc = Some p /\ ValueStrict_bool p name = Ok b
            /\ t = [ev_sdk (call_ValueStrict T_bool name) None] /\ s1 = s.
Proof.
  unfold pc_ValueStrict_bool. intros H. apply bind_returns in H.
  destruct H as (t1 & p & s2 & t2 & H1 & H2 & ->).
  apply deref_returns in H1. destruct H1 as (-> & -> & ->).
  apply sdk_returns in H2. destruct H2 as (H2 & -> & ->). now exists p.
Qed.

End Primitives.

Lemma writer_returns (c : WriterCall) (w w1 : xw_state) t a :
  writer c w = (t, Returns (a, w1)) -> xw_step c w = Ok w1 /\ t = [ev_writer c None].
Proof. unfold writer. destruct (xw_step c w); intros H; inversion H; now subst. Qed.

Lemma writer_getXML_returns (w w1 : xw_state) t text :
  writer_getXML w = (t, Returns (text, w1)) ->
  xw_getXML w = Ok text /\ t = [ev_writer_getXML None] /\ w1 = w.
Proof. unfold writer_getXML. destruct (xw_getXML w); intros H; inversion H; now subst. Qed.

Lemma writer_calls_app (t1 t2 : trace) :
  writer_calls (t1 ++ t2)%list = (writer_calls t1 ++ writer_calls t2)%list.
Proof. unfold writer_calls. apply flat_map_app. Qed.

(** *** Header projection: what a returned document went through *)

Ltac invert_step H :=
  apply bind_returns in H;
  let t1 := fresh "t" in
  let a := fresh "v" in
  let s1 := fresh "w" in
  let t2 := fresh "t" in
  let H1 := fresh "Hstep" in
  destruct H as (t1 & a & s1 & t2 & H1 & H & ->);
  first
    [ apply pc_Value_int_returns in H1; destruct H1 as (? & ? & ? & -> & ->)
    | apply pc_Value_bool_returns in H1; destruct H1 as (? & ? & ? & -> & ->)
    | apply pc_ValueStrict_bool_returns in H1; destruct H1 as (? & ? & ? & -> & ->)
    | apply sdk_returns in H1; destruct H1 as (? & -> & ->)
    | apply writer_returns in H1; destruct H1 as (? & ->)
    | apply emit_returns in H1; destruct H1 as (-> & ->)
    | apply deref_returns in H1; destruct H1 as (? & -> & ->)
    | apply defined_returns in H1; destruct H1 as (? & -> & ->)
    | idtac ].

Lemma ret_returns {St A : Type} (a b : A) (s s1 : St) t :
  ret a s = (t, Returns (b, s1)) -> b = a /\ t = [] /\ s1 = s.
Proof. intros H; inversion H; now subst. Qed.

Ltac invert_leaf H :=
  first
    [ apply pc_Value_int_returns in H; destruct H as (? & ? & ? & -> & ->)
    | apply pc_Value_bool_returns in H; destruct H as (? & ? & ? & -> & ->)
    | apply pc_ValueStrict_bool_returns in H; destruct H as (? & ? & ? & -> & ->)
    | apply sdk_returns in H; destruct H as (? & -> & ->)
    | apply writer_returns in H; destruct H as (? & ->)
    | apply emit_returns in H; destruct H as (-> & ->)
    | apply deref_returns in H; destruct H as (? & -> & ->)
    | apply defined_returns in H; destruct H as (? & -> & ->)
    | apply ret_returns in H; destruct H as (-> & -> & ->) ].

(** One step of the inversion of a sequence that returns; a step that is a
    sequence of its own (the operands of an operator, the arguments of a
    call) is inverted in turn. *)
Ltac invert_nested H :=
  apply bind_returns in H;
  let t1 := fresh "t" in
  let a := fresh "v" in
  let s1 := fresh "w" in
  let t2 := fresh "t" in
  let H1 := fresh "Hstep" in
  destruct H as (t1 & a & s1 & t2 & H1 & H & ->);
  first
    [ invert_leaf H1
    | repeat invert_nested H1; invert_leaf H1
    | idtac ].

Lemma int_add_some (a b z : Z) :
  int_add a b = Some z -> in_int (a + b) = true /\ z = a + b.
Proof.
  unfold int_add. destruct (in_int (a + b)); intros H; inversion H; now subst.
Qed.

Lemma epi_block_returns self lxData pc w t w1 :
  epi_block self lxData pc w = (t, Returns (tt, w1)) ->
  exists storage count p numSlices integrated multiband top yres bottom volumes,
    ArchiveStorage_Create (scanArchive_ self) = Ok (Some storage)
    /\ ArchiveStorage_AvailableControlCount storage = Ok count
    /\ pc = Some p
    /\ Value_int p "NumSlices" = Ok numSlices
    /\ in_int (numSlices + 1) = true
    /\ div_by_int AvailableControlCount_type count (numSlices + 1) = Some volumes
    /\ epi_control_reads lxData integrated multiband top yres bottom
    /\ in_int (top + bottom) = true
    /\ writer_calls t =
         epi_parameters integrated multiband top yres bottom (top + bottom) volumes
    /\ In (ev_sdk (call_ArchiveStorage_Create (is_null (scanArchive_ self))) None) t.
Proof.
  intros H. unfold epi_block, unsequenced in H.
  destruct operand_order; cbv iota in H;
    (repeat invert_nested H;
     apply writer_returns in H; destruct H as (_ & ->);
     cbn [fst snd] in *;
     repeat match goal with
            | E : int_add _ _ = Some _ |- _ =>
                apply int_add_some in E; destruct E as (? & ->)
            end;
     subst;
     repeat match goal with
            | E : Some _ = Some _ |- _ => inversion E; clear E; subst
            end;
     repeat match goal with
            | E1 : ?f = Ok ?a, E2 : ?f = Ok ?b |- _ =>
                assert (a = b) by congruence; subst; clear E2
            end;
     do 10 eexists; unfold epi_control_reads;
     repeat match goal with
            | |- _ /\ _ => split
            | |- exists _, _ => eexists
            end;
     try eassumption; try reflexivity;
     simpl; auto 10).
Qed.

Lemma always_writer (P : event -> Prop) (c : WriterCall) :
  (forall threw, P (ev_writer c threw)) -> always P (writer c).
Proof.
  intros H w. unfold writer. destruct (xw_step c w); simpl; now repeat constructor.
Qed.

Lemma always_writer_getXML (P : event -> Prop) :
  (forall threw, P (ev_writer_getXML threw)) -> always P writer_getXML.
Proof.
  intros H w. unfold writer_getXML. destruct (xw_getXML w); simpl; now repeat constructor.
Qed.

(** One step of the proof that a block emits only events that a decidable
    test accepts. *)
Ltac always_decide :=
  unfold pc_Value_bool, pc_Value_int, pc_Value_unsigned_int, pc_ValueStrict_bool,
    pc_ValueStrict_SliceInfoTable, seriesModule_SeriesDescription, cout, cerr, log;
  repeat first
    [ apply always_unsequenced
    | apply always_bind; [| intros ? ]
    | apply always_ret
    | apply always_emit; reflexivity
    | apply always_throw
    | apply always_undefined
    | apply always_deref
    | apply always_defined
    | apply always_sdk; intros ?; reflexivity
    | apply always_writer; intros ?; reflexivity
    | apply always_writer_getXML; intros ?; reflexivity
    | match goal with |- always _ (if ?b then _ else _) => destruct b end ].

Lemma header_fields_events lxData pc :
  always (fun e => opens_epiParameters e = false /\ creates_ArchiveStorage e = false
                   /\ announces_epi e = false)
         (header_fields lxData pc).
Proof.
  unfold header_fields.
  unfold pc_Value_bool, pc_Value_int, pc_Value_unsigned_int, pc_ValueStrict_bool,
    pc_ValueStrict_SliceInfoTable, seriesModule_SeriesDescription, cout, cerr, log.
  repeat first
    [ apply always_unsequenced
    | apply always_bind; [| intros ? ]
    | apply always_ret
    | apply always_emit; repeat split
    | apply always_deref
    | apply always_sdk; intros ?; repeat split
    | apply always_writer; intros ?; repeat split
    | match goal with |- always _ (if ?b then _ else _) => destruct b end ].
Qed.

Lemma header_body_returns self lxData pc w t xml w1 :
  header_body self lxData pc w = (t, Returns (xml, w1)) ->
  exists lx isEpi t_fields t_epi w2 w3,
    lxData = Some lx
    /\ IsEpi lx = Ok isEpi
    /\ header_fields lxData pc w = (t_fields, Returns (tt, w2))
    /\ (if isEpi then epi_block self lxData pc w2 else ret tt w2)
       = (t_epi, Returns (tt, w3))
    /\ t = (t_fields ++ ev_sdk call_IsEpi None :: t_epi
              ++ [ev_writer endElement None; ev_writer endDocument None;
                  ev_cout "[INFO] Successfully completed XML generation.";
                  ev_writer_getXML None])%list.
Proof.
  intros H. unfold header_body in H.
  apply bind_returns in H. destruct H as (t_fields & [] & w2 & t2 & Hf & H & ->).
  invert_step H. invert_step H.
  apply bind_returns in H. destruct H as (t_epi & [] & w3 & t3 & He & H & ->).
  repeat invert_step H.
  apply writer_getXML_returns in H. destruct H as (_ & -> & _).
  match goal with E : IsEpi ?l = Ok ?b |- _ => exists l, b, t_fields, t_epi, w2, w3 end.
  repeat split; try assumption.
  match goal with |- (if ?b then _ else _) = _ => now destruct b end.
Qed.

Lemma ge_header_to_xml_returns self lxData pc t xml :
  run (ge_header_to_xml self lxData pc) = (t, Returns xml) ->
  exists w t' w1,
    xw_new = Ok w
    /\ header_body self lxData pc w = (t', Returns (xml, w1))
    /\ t = ev_cout "[INFO] Starting conversion of raw file header to XML string."
             :: ev_writer_new None :: t'.
Proof.
  intros H. apply run_returns in H. unfold ge_header_to_xml, try_catch in H.
  match type of H with
  | match ?b tt with _ => _ end = _ => destruct (b tt) as [t0 [[a []]|e|n|]] eqn:E
  end; try discriminate.
  - inversion H; subst. apply bind_returns in E.
    destruct E as (t1 & [] & [] & t2 & E1 & E2 & ->).
    inversion E1; subst. unfold with_XMLWriter in E2.
    destruct xw_new as [w|e]; [|discriminate].
    destruct (header_body self lxData pc w) as [t' [[a w1]|e|n|]] eqn:Hb;
      try discriminate.
    inversion E2; subst. now exists w, t', w1.
  - unfold header_handler in H.
    destruct e; simpl in H; discriminate.
Qed.

Lemma writer_calls_without_epiParameters (t : trace) :
  Forall (fun e => opens_epiParameters e = false) t ->
  ~ In (startElement "epiParameters") (writer_calls t).
Proof.
  induction 1 as [|e t He _ IH]; simpl; [tauto|].
  rewrite in_app_iff. intros [Hin|Hin]; [|tauto].
  destruct e; simpl in Hin; try tauto.
  destruct Hin as [->|[]]. discriminate.
Qed.

(** *** The EPI block *)

Lemma in_int_bounds (z : Z) : in_int z = true <-> INT_MIN <= z <= INT_MAX.
Proof. unfold in_int. rewrite andb_true_iff, !Z.leb_le. tauto. Qed.

Lemma to_int_small (z : Z) : INT_MIN <= z <= INT_MAX -> to_int z = z.
Proof.
  unfold to_int, INT_MIN, INT_MAX. intros H.
  rewrite Z.mod_small by lia. lia.
Qed.

Lemma quot_bounds (count d : Z) :
  0 <= count <= INT_MAX -> 0 < d -> 0 <= Z.quot count d <= INT_MAX.
Proof.
  intros Hc Hd. rewrite Z.quot_div_nonneg by lia. split.
  - apply Z.div_pos; lia.
  - apply Z.le_trans with count; [|lia].
    apply Z.div_le_upper_bound; nia.
Qed.

Lemma div_by_int_counts (ty : integer_type) (count numSlices : Z) :
  0 <= count <= INT_MAX -> 0 <= numSlices -> in_int (numSlices + 1) = true ->
  div_by_int ty count (numSlices + 1) = Some (Z.quot count (numSlices + 1)).
Proof.
  intros Hc Hn Hd. apply in_int_bounds in Hd.
  pose proof (quot_bounds count (numSlices + 1) Hc ltac:(lia)) as Hq.
  assert (Hq' : INT_MIN <= Z.quot count (numSlices + 1) <= INT_MAX)
    by (unfold INT_MIN; lia).
  unfold INT_MIN, INT_MAX in Hd.
  destruct ty; simpl; unfold unsigned_div.
  - replace (numSlices + 1 =? 0) with false by (symmetry; apply Z.eqb_neq; lia).
    now rewrite (proj2 (in_int_bounds _) Hq').
  - rewrite Z.mod_small by lia.
    replace (numSlices + 1 =? 0) with false by (symmetry; apply Z.eqb_neq; lia).
    now rewrite to_int_small.
  - rewrite Z.mod_small by lia.
    replace (numSlices + 1 =? 0) with false by (symmetry; apply Z.eqb_neq; lia).
    now rewrite to_int_small.
Qed.

(** A defined [int] division is the quotient rounded towards zero, at any
    sign of its operands. *)
Lemma div_by_int_signed (count d volumes : Z) :
  div_by_int type_int count d = Some volumes -> volumes = Z.quot count d.
Proof.
  simpl. destruct (d =? 0); [discriminate|].
  destruct (in_int (Z.quot count d)); [|discriminate].
  intros H. now inversion H.
Qed.

(** C1. When the projection of an EPI header returns a document, the
    [num_volumes] element it wrote holds the available control count of the
    archive storage divided by NumSlices + 1, rounded towards zero.  This is
    so at any sign of the operands when the SDK declares the count an
    [int], and for counts and slice numbers that are not negative whatever
    integer type it declares. *)
Theorem num_volumes_is_truncated_quotient :
  forall self lx p t xml storage count numSlices,
    run (ge_header_to_xml self (Some lx) (Some p)) = (t, Returns xml) ->
    IsEpi lx = Ok true ->
    Value_int p "NumSlices" = Ok numSlices ->
    ArchiveStorage_Create (scanArchive_ self) = Ok (Some storage) ->
    ArchiveStorage_AvailableControlCount storage = Ok count ->
    AvailableControlCount_type = type_int
      \/ (0 <= count <= INT_MAX /\ 0 <= numSlices) ->
    In (formatElement "num_volumes" "%d" (arg_int (Z.quot count (numSlices + 1))))
       (writer_calls t).
Proof.
  intros self lx p t xml storage count numSlices Hrun Hepi Hn Hs Hc Hdomain.
  apply ge_header_to_xml_returns in Hrun.
  destruct Hrun as (w & t' & w1 & _ & Hbody & ->).
  apply header_body_returns in Hbody.
  destruct Hbody as (lx' & isEpi & tf & te & w2 & w3 & Hlx & Hepi' & _ & Hblock & ->).
  inversion Hlx; subst lx'. rewrite Hepi in Hepi'. inversion Hepi'; subst isEpi.
  apply epi_block_returns in Hblock.
  destruct Hblock as (storage' & count' & p' & n' & i & m & top & y & bot & v
                      & Hs' & Hc' & Hp & Hn' & Hd & Hv & _ & _ & Hcalls & _).
  inversion Hp; subst p'.
  rewrite Hs in Hs'. inversion Hs'; subst storage'.
  rewrite Hc in Hc'. inversion Hc'; subst count'.
  rewrite Hn in Hn'. inversion Hn'; subst n'.
  assert (Hvalue : v = Z.quot count (numSlices + 1)).
  { destruct Hdomain as [Hty|(Hcount & Hslices)].
    - rewrite Hty in Hv. now apply div_by_int_signed.
    - rewrite (div_by_int_counts _ _ _ Hcount Hslices Hd) in Hv. now inversion Hv. }
  subst v.
  change (ev_cout "[INFO] Starting conversion of raw file header to XML string."
            :: ev_writer_new None :: (tf ++ ev_sdk call_IsEpi None :: te ++ _))%list
    with ([ev_cout "[INFO] Starting conversion of raw file header to XML string.";
           ev_writer_new None] ++ tf ++ [ev_sdk call_IsEpi None] ++ te ++
          [ev_writer endElement None; ev_writer endDocument None;
           ev_cout "[INFO] Successfully completed XML generation.";
           ev_writer_getXML None])%list.
  rewrite !writer_calls_app, Hcalls.
  rewrite !in_app_iff. right. right. right. left.
  unfold epi_parameters. simpl. auto 10.
Qed.

(** *** The document is the text of the writer after its calls *)

Lemma xw_steps_app (calls1 calls2 : list WriterCall) (w : xw_state) :
  xw_steps (calls1 ++ calls2) w
  = match xw_steps calls1 w with
    | Ok w1 => xw_steps calls2 w1
    | Raise e => Raise e
    end.
Proof.
  revert w. induction calls1 as [|c calls1 IH]; intros w; simpl; [reflexivity|].
  destruct (xw_step c w); [apply IH | reflexivity].
Qed.

Lemma tracks_writer_ret {A : Type} (a : A) : tracks_writer (ret a).
Proof. intros w t a' w1 H. inversion H; subst. reflexivity. Qed.

Lemma tracks_writer_bind {A B : Type} (m : M xw_state A) (f : A -> M xw_state B) :
  tracks_writer m -> (forall a, tracks_writer (f a)) -> tracks_writer (bind m f).
Proof.
  intros Hm Hf w t b w2 H. apply bind_returns in H.
  destruct H as (t1 & a & w1 & t2 & H1 & H2 & ->).
  rewrite writer_calls_app, xw_steps_app, (Hm _ _ _ _ H1). exact (Hf a _ _ _ _ H2).
Qed.

Lemma tracks_writer_unsequenced {A B : Type} (order : evaluation_order)
    (first : M xw_state A) (second : M xw_state B) :
  tracks_writer first -> tracks_writer second ->
  tracks_writer (unsequenced order first second).
Proof.
  intros H1 H2. destruct order; unfold unsequenced;
    repeat (apply tracks_writer_bind; [assumption | intros ?]);
    apply tracks_writer_ret.
Qed.

Lemma tracks_writer_emit (e : event) : writer_calls [e] = [] -> tracks_writer (emit e).
Proof. intros He w t a w1 H. inversion H; subst. now rewrite He. Qed.

Lemma tracks_writer_sdk {A : Type} (c : sdk_call) (r : result A) :
  tracks_writer (sdk c r).
Proof. intros w t a w1 H. apply sdk_returns in H. now destruct H as (_ & -> & ->). Qed.

Lemma tracks_writer_deref {T : Type} (p : ptr T) : tracks_writer (deref p).
Proof. intros w t a w1 H. apply deref_returns in H. now destruct H as (_ & -> & ->). Qed.

Lemma tracks_writer_defined {A : Type} (v : option A) : tracks_writer (defined v).
Proof. intros w t a w1 H. apply defined_returns in H. now destruct H as (_ & -> & ->). Qed.

Lemma tracks_writer_call (c : WriterCall) : tracks_writer (writer c).
Proof.
  intros w t a w1 H. apply writer_returns in H. destruct H as (H & ->).
  simpl. now rewrite H.
Qed.

Lemma tracks_writer_getXML : tracks_writer writer_getXML.
Proof.
  intros w t a w1 H. apply writer_getXML_returns in H. now destruct H as (_ & -> & ->).
Qed.

Ltac tracks_writer_steps :=
  unfold pc_Value_bool, pc_Value_int, pc_Value_unsigned_int, pc_ValueStrict_bool,
    pc_ValueStrict_SliceInfoTable, seriesModule_SeriesDescription, cout, cerr, log;
  repeat first
    [ apply tracks_writer_unsequenced
    | apply tracks_writer_bind; [| intros ? ]
    | apply tracks_writer_ret
    | apply tracks_writer_emit; reflexivity
    | apply tracks_writer_deref
    | apply tracks_writer_defined
    | apply tracks_writer_sdk
    | apply tracks_writer_call
    | apply tracks_writer_getXML
    | match goal with |- tracks_writer (if ?b then _ else _) => destruct b end ].

Lemma header_body_tracks_writer self lxData pc :
  tracks_writer (header_body self lxData pc).
Proof. unfold header_body, header_fields, epi_block. tracks_writer_steps. Qed.

(** What [header_body] returns is the text of the writer it leaves. *)
Lemma header_body_text self lxData pc w t xml w1 :
  header_body self lxData pc w = (t, Returns (xml, w1)) -> xw_getXML w1 = Ok xml.
Proof.
  intros H. unfold header_body in H.
  apply bind_returns in H. destruct H as (t_fields & [] & w2 & t2 & Hf & H & ->).
  invert_step H. invert_step H.
  apply bind_returns in H. destruct H as (t_epi & [] & w3 & t3 & He & H & ->).
  repeat invert_step H.
  apply writer_getXML_returns in H. destruct H as (Hx & _ & ->). exact Hx.
Qed.

(** The document that projection returns is the text of a new writer that
    received exactly the writer calls of the trace. *)
Lemma ge_header_to_xml_document self lxData pc t xml :
  run (ge_header_to_xml self lxData pc) = (t, Returns xml) ->
  document_of (writer_calls t) = Ok xml.
Proof.
  intros Hrun. apply ge_header_to_xml_returns in Hrun.
  destruct Hrun as (w & t' & w1 & Hnew & Hbody & ->).
  change (writer_calls (?a :: ?b :: t')) with (writer_calls t').
  unfold document_of. rewrite Hnew.
  rewrite (header_body_tracks_writer self lxData pc _ _ _ _ Hbody).
  exact (header_body_text _ _ _ _ _ _ _ Hbody).
Qed.

(** C2. The document that projection returns is the text that [getXML]
    gives on a new writer that received exactly the writer calls of the
    trace, and among these calls is the one that opens [epiParameters]
    exactly when the header reports an EPI acquisition.  The block then
    holds, in this order, the integrated-reference-scan flag, the multiband
    flag, ExtraFramesTop, AcquiredYRes, ExtraFramesBottom, NumRefViews and
    num_volumes, where the flags and counts are the values of the EPI
    processing control and NumRefViews is ExtraFramesTop +
    ExtraFramesBottom; it is the last block of the document. *)
Theorem epiParameters_iff_epi :
  forall self lxData pc t xml,
    run (ge_header_to_xml self lxData pc) = (t, Returns xml) ->
    document_of (writer_calls t) = Ok xml
    /\ exists lx isEpi,
      lxData = Some lx
      /\ IsEpi lx = Ok isEpi
      /\ (In (startElement "epiParameters") (writer_calls t) <-> isEpi = true)
      /\ (isEpi = true ->
          exists before integrated multiband top yres bottom volumes,
            epi_control_reads lxData integrated multiband top yres bottom
            /\ writer_calls t =
                 (before
                    ++ epi_parameters integrated multiband top yres bottom
                         (top + bottom) volumes
                    ++ [endElement; endDocument])%list).
Proof.
  intros self lxData pc t xml Hrun.
  split; [exact (ge_header_to_xml_document _ _ _ _ _ Hrun)|].
  apply ge_header_to_xml_returns in Hrun.
  destruct Hrun as (w & t' & w1 & _ & Hbody & ->).
  apply header_body_returns in Hbody.
  destruct Hbody as (lx & isEpi & tf & te & w2 & w3 & Hlx & Hepi & Hf & Hblock & ->).
  exists lx, isEpi. split; [assumption|]. split; [assumption|].
  assert (Hcalls : forall calls, writer_calls te = calls ->
            writer_calls
              (ev_cout "[INFO] Starting conversion of raw file header to XML string."
                 :: ev_writer_new None
                 :: tf ++ ev_sdk call_IsEpi None :: te
                      ++ [ev_writer endElement None; ev_writer endDocument None;
                          ev_cout "[INFO] Successfully completed XML generation.";
                          ev_writer_getXML None])%list
            = (writer_calls tf ++ calls ++ [endElement; endDocument])%list).
  { intros calls <-.
    change (writer_calls ([ev_cout "[INFO] Starting conversion of raw file header to XML string.";
                           ev_writer_new None] ++ tf ++ [ev_sdk call_IsEpi None] ++ te ++
                          [ev_writer endElement None; ev_writer endDocument None;
                           ev_cout "[INFO] Successfully completed XML generation.";
                           ev_writer_getXML None])%list
            = (writer_calls tf ++ writer_calls te ++ [endElement; endDocument])%list).
    now rewrite !writer_calls_app. }
  assert (Hquiet : ~ In (startElement "epiParameters") (writer_calls tf)).
  { apply writer_calls_without_epiParameters.
    pose proof (header_fields_events lxData pc w) as Ha. rewrite Hf in Ha. simpl in Ha.
    eapply Forall_impl; [|exact Ha]. now intros e (He & _). }
  destruct isEpi.
  - apply epi_block_returns in Hblock.
    destruct Hblock as (storage & count & p & n & i & m & top & y & bot & v
                        & _ & _ & _ & _ & _ & _ & Hreads & _ & Hte & _).
    rewrite (Hcalls _ Hte). split.
    + split; [reflexivity|]. intros _. rewrite !in_app_iff. right. left. now left.
    + intros _. now exists (writer_calls tf), i, m, top, y, bot, v.
  - inversion Hblock; subst. rewrite (Hcalls [] eq_refl). split.
    + split; [|discriminate]. rewrite !in_app_iff. simpl.
      intros [Hin|[[]|[H|[H|[]]]]]; try discriminate. contradiction.
    + discriminate.
Qed.

(** *** Running forward *)

Section Forward.
Context {St A B : Type}.

Lemma bind_emit (e : event) (f : unit -> M St B) (s : St) :
  bind (emit e) f s = (e :: fst (f tt s), snd (f tt s)).
Proof. unfold bind, emit. now destruct (f tt s). Qed.

Lemma bind_sdk_ok (c : sdk_call) (a : A) (f : A -> M St B) (s : St) :
  bind (sdk c (Ok a)) f s = (ev_sdk c None :: fst (f a s), snd (f a s)).
Proof. unfold bind, sdk. now destruct (f a s). Qed.

Lemma bind_sdk_raise (c : sdk_call) (e : exception) (f : A -> M St B) (s : St) :
  bind (sdk c (Raise e)) f s = ([ev_sdk c (Some e)], Throws e).
Proof. reflexivity. Qed.

Lemma bind_deref_some (a : A) (f : A -> M St B) (s : St) :
  bind (deref (Some a)) f s = f a s.
Proof. unfold bind, deref, defined, ret. now destruct (f a s). Qed.

Lemma bind_outcome (m : M St A) (f : A -> M St B) (s : St) :
  bind m f s =
    match m s with
    | (t, Returns (a, s1)) => ((t ++ fst (f a s1))%list, snd (f a s1))
    | (t, Throws e) => (t, Throws e)
    | (t, Exits n) => (t, Exits n)
    | (t, Undefined) => (t, Undefined)
    end.
Proof.
  unfold bind. destruct (m s) as [t [[a s1]|e|n|]]; try reflexivity.
  now destruct (f a s1).
Qed.

End Forward.

Lemma epi_block_reaches_Create self lxData pc w :
  (exists threw,
     In (ev_sdk (call_ArchiveStorage_Create (is_null (scanArchive_ self))) threw)
        (fst (epi_block self lxData pc w)))
  \/ (exists e,
        snd (epi_block self lxData pc w) = Throws e
        /\ (In (ev_sdk (call_EpiLxControlSource (is_null lxData)) (Some e))
               (fst (epi_block self lxData pc w))
            \/ In (ev_sdk call_Epi_CreateOrchestraProcessingControl (Some e))
                  (fst (epi_block self lxData pc w)))).
Proof.
  unfold epi_block, cout. rewrite bind_emit. cbv beta.
  destruct (make_EpiLxControlSource lxData) as [cs|e].
  2:{ rewrite bind_sdk_raise. right. exists e. simpl. auto 6. }
  rewrite bind_sdk_ok.
  destruct (EpiLxControlSource_CreateOrchestraProcessingControl cs) as [epi|e].
  2:{ rewrite bind_sdk_raise. right. exists e. simpl. auto 6. }
  rewrite bind_sdk_ok.
  left. destruct (ArchiveStorage_Create (scanArchive_ self)) as [st|e].
  - rewrite bind_sdk_ok. exists None. simpl. auto.
  - rewrite bind_sdk_raise. exists (Some e). simpl. auto.
Qed.

(** [ge_header_to_xml] in terms of the body of its [try] block. *)
Lemma ge_header_to_xml_run self lxData pc :
  run (ge_header_to_xml self lxData pc) =
    match xw_new with
    | Raise e =>
        ([ev_cout "[INFO] Starting conversion of raw file header to XML string.";
          ev_writer_new (Some e); ev_cerr (conversion_error_report e)],
         Throws e)
    | Ok w =>
        (ev_cout "[INFO] Starting conversion of raw file header to XML string."
           :: ev_writer_new None
           :: (fst (header_body self lxData pc w)
                 ++ match snd (header_body self lxData pc w) with
                    | Throws e => [ev_cerr (conversion_error_report e)]
                    | _ => []
                    end)%list,
         match snd (header_body self lxData pc w) with
         | Returns (xml, _) => Returns xml
         | Throws e => Throws e
         | Exits n => Exits n
         | Undefined => Undefined
         end)
    end.
Proof.
  unfold run, ge_header_to_xml, try_catch, cout. rewrite bind_emit.
  unfold with_XMLWriter.
  destruct xw_new as [w|e]; simpl.
  - destruct (header_body self lxData pc w) as [t [[xml w1]|e|n|]]; simpl;
      rewrite ?app_nil_r; try reflexivity.
    now destruct e.
  - now destruct e.
Qed.

Lemma not_announced (t : trace) :
  Forall (fun e => announces_epi e = false) t ->
  ~ In (ev_cout "[INFO] EPI data detected, adding EPI-specific parameters.") t.
Proof.
  intros H Hin. rewrite Forall_forall in H. specialize (H _ Hin). discriminate.
Qed.

(** The announcement of the EPI block is in the trace only when the block
    was run. *)
Lemma header_body_announces_epi self lxData pc w :
  In (ev_cout "[INFO] EPI data detected, adding EPI-specific parameters.")
     (fst (header_body self lxData pc w)) ->
  exists w2,
    incl (fst (epi_block self lxData pc w2)) (fst (header_body self lxData pc w))
    /\ (forall e, snd (epi_block self lxData pc w2) = Throws e ->
                  snd (header_body self lxData pc w) = Throws e).
Proof.
  unfold header_body. rewrite bind_outcome.
  pose proof (header_fields_events lxData pc w) as Hf.
  assert (Hq : ~ In (ev_cout "[INFO] EPI data detected, adding EPI-specific parameters.")
                    (fst (header_fields lxData pc w))).
  { apply not_announced. eapply Forall_impl; [|exact Hf]. now intros e (_ & _ & He). }
  destruct (header_fields lxData pc w) as [tf [[[] w2]|e|n|]]; simpl in *;
    try contradiction.
  rewrite in_app_iff. intros [Hin|Hin]; [contradiction|].
  destruct lxData as [lx|]; [|destruct Hin].
  rewrite bind_deref_some in *.
  destruct (IsEpi lx) as [[|]|e].
  - rewrite bind_sdk_ok in *. exists w2. rewrite bind_outcome.
    destruct (epi_block self (Some lx) pc w2) as [te [[[] w3]|e|n|]]; simpl; split;
      try discriminate;
      try (intros x Hx; rewrite in_app_iff; right; right;
           rewrite ?in_app_iff; auto).
    intros e' H. now inversion H.
  - rewrite bind_sdk_ok in Hin. simpl in Hin. destruct Hin as [Hin|Hin]; [discriminate|].
    exfalso. revert Hin. apply not_announced.
    match goal with
    | |- Forall _ (fst (?m w2)) =>
        assert (Ha : always (fun e => announces_epi e = false) m) by always_decide
    end.
    apply Ha.
  - rewrite bind_sdk_raise in Hin. simpl in Hin. destruct Hin as [Hin|[]]. discriminate.
Qed.

Lemma open_raw_file_returns rawFilePath t sa pf lx pc ty :
  open_raw_file rawFilePath tt = (t, Returns ((sa, pf, lx, pc, ty), tt)) ->
  exists isArchive,
    ScanArchive_IsArchiveFilePath rawFilePath = Ok isArchive
    /\ if isArchive
       then ty = SCAN_ARCHIVE_RAW_TYPE /\ pf = None
            /\ exists archive,
                 sa = Some archive /\ ScanArchive_Create rawFilePath = Ok (Some archive)
       else ty = PFILE_RAW_TYPE /\ sa = None
            /\ exists file, pf = Some file /\ Pfile_Create rawFilePath = Ok (Some file).
Proof.
  intros H. unfold open_raw_file in H.
  invert_step H. match goal with v : bool |- _ => exists v; destruct v end.
  - repeat invert_step H. inversion H; subst. split; [assumption|].
    repeat split. eexists; split; [reflexivity|assumption].
  - repeat invert_step H. inversion H; subst. split; [assumption|].
    repeat split. eexists; split; [reflexivity|assumption].
Qed.

Lemma header_body_passes_archive self lxData pc :
  always (fun e => passes_archive (is_null (scanArchive_ self)) e = true)
         (header_body self lxData pc).
Proof.
  unfold header_body.
  apply always_bind.
  { intros w. eapply Forall_impl; [|apply header_fields_events].
    intros e (_ & He & _). destruct e; try reflexivity.
    destruct c; try reflexivity. discriminate. }
  intros _. unfold epi_block.
  unfold pc_Value_bool, pc_Value_int, pc_Value_unsigned_int, pc_ValueStrict_bool,
    cout, cerr, log.
  repeat first
    [ apply always_unsequenced
    | apply always_bind; [| intros ? ]
    | apply always_ret
    | apply always_emit; reflexivity
    | apply always_deref
    | apply always_defined
    | apply always_sdk; intros ?; first [reflexivity | apply eqb_reflx]
    | apply always_writer; intros ?; reflexivity
    | apply always_writer_getXML; intros ?; reflexivity
    | match goal with |- always _ (if ?b then _ else _) => destruct b end ].
Qed.

Lemma header_fields_asks_no_IsEpi lxData pc :
  always (fun e => asks_IsEpi e = false) (header_fields lxData pc).
Proof. unfold header_fields. always_decide. Qed.

(** Once the EPI flag has been read from a header that reports EPI, the EPI
    block is run. *)
Lemma header_body_enters_epi self lx pc w :
  IsEpi lx = Ok true ->
  In (ev_sdk call_IsEpi None) (fst (header_body self (Some lx) pc w)) ->
  exists w2,
    incl (fst (epi_block self (Some lx) pc w2)) (fst (header_body self (Some lx) pc w))
    /\ (forall e, snd (epi_block self (Some lx) pc w2) = Throws e ->
                  snd (header_body self (Some lx) pc w) = Throws e).
Proof.
  intros Hepi. unfold header_body. rewrite bind_outcome.
  pose proof (header_fields_asks_no_IsEpi (Some lx) pc w) as Hf.
  rewrite Forall_forall in Hf.
  destruct (header_fields (Some lx) pc w) as [tf [[[] w2]|e|n|]]; cbn [fst snd] in *;
    try (intros Hin; specialize (Hf _ Hin); discriminate).
  intros _. rewrite bind_deref_some, Hepi, bind_sdk_ok. exists w2. rewrite bind_outcome.
  destruct (epi_block self (Some lx) pc w2) as [te [[[] w3]|e|n|]]; cbn [fst snd]; split;
    try discriminate;
    try (intros x Hx; rewrite in_app_iff; right; right;
         rewrite ?in_app_iff; auto).
  intros e' H. now inversion H.
Qed.

(** With a header that does not report EPI, projection never calls
    [ArchiveStorage::Create]. *)
Lemma header_body_not_epi self lx pc w :
  IsEpi lx = Ok false ->
  Forall (fun e => creates_ArchiveStorage e = false)
         (fst (header_body self (Some lx) pc w)).
Proof.
  intros Hepi. unfold header_body. rewrite bind_outcome.
  assert (Hf : Forall (fun e => creates_ArchiveStorage e = false)
                      (fst (header_fields (Some lx) pc w))).
  { eapply Forall_impl; [|apply header_fields_events]. now intros e (_ & He & _). }
  destruct (header_fields (Some lx) pc w) as [tf [[[] w2]|e|n|]]; cbn [fst snd] in *;
    try assumption.
  apply Forall_app. split; [assumption|].
  rewrite bind_deref_some, Hepi, bind_sdk_ok. cbn [fst].
  constructor; [reflexivity|].
  match goal with
  | |- Forall _ (fst (?m w2)) =>
      assert (Ha : always (fun e => creates_ArchiveStorage e = false) m)
        by always_decide
  end.
  apply Ha.
Qed.

(** Projection on a header that reports EPI hands the member
    [scanArchive_] to [ArchiveStorage::Create]; on one that does not, it
    makes no such call. *)
Lemma ge_header_to_xml_epi self lx pc t r :
  run (ge_header_to_xml self (Some lx) pc) = (t, r) ->
  (IsEpi lx = Ok true ->
     (In (ev_sdk call_IsEpi None) t ->
        (exists threw,
           In (ev_sdk (call_ArchiveStorage_Create (is_null (scanArchive_ self))) threw) t)
        \/ (exists e,
              r = Throws e
              /\ (In (ev_sdk (call_EpiLxControlSource false) (Some e)) t
                  \/ In (ev_sdk call_Epi_CreateOrchestraProcessingControl (Some e)) t)))
     /\ (forall xml,
           r = Returns xml ->
           In (ev_sdk (call_ArchiveStorage_Create (is_null (scanArchive_ self))) None) t))
  /\ (IsEpi lx = Ok false ->
      Forall (fun e => creates_ArchiveStorage e = false) t).
Proof.
  intros Hrun. split; [intros Hepi; split|intros Hepi].
  - rewrite ge_header_to_xml_run in Hrun. destruct xw_new as [w|e0].
    + inversion Hrun; subst t r; clear Hrun.
      intros Hin. destruct Hin as [Hin|[Hin|Hin]]; try discriminate.
      rewrite in_app_iff in Hin. destruct Hin as [Hin|Hin].
      2:{ destruct (snd (header_body self (Some lx) pc w)); simpl in Hin;
            try contradiction. destruct Hin as [Hin|[]]. discriminate. }
      apply (header_body_enters_epi self lx pc w Hepi) in Hin.
      destruct Hin as (w2 & Hincl & Hthrows).
      destruct (epi_block_reaches_Create self (Some lx) pc w2)
        as [(threw & Hc)|(e & He & Hc)].
      * left. exists threw. right. right. apply in_or_app. left. now apply Hincl.
      * right. exists e. rewrite (Hthrows e He). split; [reflexivity|].
        destruct Hc as [Hc|Hc]; [left|right]; right; right; apply in_or_app; left;
          now apply Hincl.
    + inversion Hrun; subst t r. intros [Hin|[Hin|[Hin|[]]]]; discriminate.
  - intros xml ->. apply ge_header_to_xml_returns in Hrun.
    destruct Hrun as (w & t' & w1 & _ & Hbody & ->).
    apply header_body_returns in Hbody.
    destruct Hbody as (lx' & isEpi & tf & te & w2 & w3 & Hlx & Hepi' & _ & Hblock & ->).
    inversion Hlx; subst lx'. rewrite Hepi in Hepi'. inversion Hepi'; subst isEpi.
    apply epi_block_returns in Hblock.
    destruct Hblock as (storage & count & p & n & i & m & top & y & bot & v
                        & _ & _ & _ & _ & _ & _ & _ & _ & _ & Hcreate).
    right. right. apply in_or_app. right. right. apply in_or_app. now left.
  - rewrite ge_header_to_xml_run in Hrun. destruct xw_new as [w|e0].
    + inversion Hrun; subst t r; clear Hrun.
      do 2 (constructor; [reflexivity|]). apply Forall_app. split.
      * now apply header_body_not_epi.
      * destruct (snd (header_body self (Some lx) pc w)); repeat constructor.
    + inversion Hrun; subst t r. repeat constructor.
Qed.

(** C4. In a session built from a file that is not a ScanArchive the
    member [scanArchive_] is never assigned (it is null exactly in P-File
    sessions).  When the header reports an EPI acquisition, header
    projection hands that member to [ArchiveStorage::Create]: in every
    projection that returns a document, and as soon as the EPI flag has been
    read unless making the EPI processing control throws first.  So for a
    P-File session with an EPI header the call receives a null archive, and
    the call receives an archive only in a ScanArchive session.  When the
    header does not report EPI, projection makes no such call. *)
Theorem epi_projection_uses_scanArchive_member :
  forall rawFilePath classname logging t self,
    run (new_GERawConverter rawFilePath classname logging) = (t, Returns self) ->
    (ScanArchive_IsArchiveFilePath rawFilePath = Ok false ->
       rawObjectType_ self = PFILE_RAW_TYPE /\ scanArchive_ self = None)
    /\ (rawObjectType_ self = SCAN_ARCHIVE_RAW_TYPE <-> scanArchive_ self <> None)
    /\ forall t' r,
         run (ge_header_to_xml self (lxData_ self) (processingControl_ self)) = (t', r) ->
         (forall null threw,
            In (ev_sdk (call_ArchiveStorage_Create null) threw) t' ->
            null = is_null (scanArchive_ self))
         /\ (forall lx,
               lxData_ self = Some lx ->
               IsEpi lx = Ok true ->
               (In (ev_sdk call_IsEpi None) t' ->
                  (exists threw,
                     In (ev_sdk (call_ArchiveStorage_Create (is_null (scanArchive_ self)))
                           threw) t')
                  \/ (exists e,
                        r = Throws e
                        /\ (In (ev_sdk (call_EpiLxControlSource false) (Some e)) t'
                            \/ In (ev_sdk call_Epi_CreateOrchestraProcessingControl
                                     (Some e)) t')))
               /\ (forall xml,
                     r = Returns xml ->
                     In (ev_sdk (call_ArchiveStorage_Create (is_null (scanArchive_ self)))
                           None) t'))
         /\ (forall lx,
               lxData_ self = Some lx ->
               IsEpi lx = Ok false ->
               forall null threw,
                 ~ In (ev_sdk (call_ArchiveStorage_Create null) threw) t')
         /\ (In (ev_cout "[INFO] EPI data detected, adding EPI-specific parameters.") t' ->
             (exists threw,
                In (ev_sdk (call_ArchiveStorage_Create (is_null (scanArchive_ self))) threw) t')
             \/ (exists e,
                   r = Throws e
                   /\ (In (ev_sdk (call_EpiLxControlSource (is_null (lxData_ self))) (Some e)) t'
                       \/ In (ev_sdk call_Epi_CreateOrchestraProcessingControl (Some e)) t'))).
Proof.
  intros rawFilePath classname logging t self Hnew.
  apply new_GERawConverter_returns in Hnew.
  destruct Hnew as (t0 & sa & pf & lx & pc & ty & c & Hopen & _ & ->). simpl.
  apply open_raw_file_returns in Hopen. destruct Hopen as (isArchive & Hfile & Hkind).
  split; [|split].
  - intros Hno. rewrite Hno in Hfile. inversion Hfile; subst isArchive. tauto.
  - destruct isArchive.
    + destruct Hkind as (-> & _ & archive & -> & _). split; [discriminate|reflexivity].
    + destruct Hkind as (-> & -> & _). split; [discriminate|congruence].
  - intros t' r Hrun.
    match type of Hrun with
    | context [header_body ?s lx pc] => set (self := s) in *
    | context [ge_header_to_xml ?s lx pc] => set (self := s) in *
    end.
    change sa with (scanArchive_ self).
    split; [|split; [|split]].
    + rewrite ge_header_to_xml_run in Hrun. destruct xw_new as [w|e].
      * pose proof (header_body_passes_archive self lx pc w) as Hpass.
        inversion Hrun; subst t' r; clear Hrun.
        intros null threw Hin. simpl in Hin.
        destruct Hin as [Hin|[Hin|Hin]]; try discriminate.
        rewrite in_app_iff in Hin. destruct Hin as [Hin|Hin].
        -- rewrite Forall_forall in Hpass. specialize (Hpass _ Hin). simpl in Hpass.
           now apply eqb_prop in Hpass.
        -- destruct (snd (header_body self lx pc w)); simpl in Hin;
             try contradiction. destruct Hin as [Hin|[]]. discriminate.
      * inversion Hrun; subst t' r.
        intros null threw [Hin|[Hin|[Hin|[]]]]; discriminate.
    + intros lx0 Hlx Hepi. subst lx.
      exact (proj1 (ge_header_to_xml_epi self lx0 pc t' r Hrun) Hepi).
    + intros lx0 Hlx Hepi null threw Hin. subst lx.
      pose proof (proj2 (ge_header_to_xml_epi self lx0 pc t' r Hrun) Hepi) as Hnone.
      rewrite Forall_forall in Hnone. specialize (Hnone _ Hin). discriminate.
    + rewrite ge_header_to_xml_run in Hrun. destruct xw_new as [w|e].
      * inversion Hrun; subst t' r; clear Hrun.
        intros Hin. simpl in Hin. destruct Hin as [Hin|[Hin|Hin]]; try discriminate.
        rewrite in_app_iff in Hin. destruct Hin as [Hin|Hin].
        2:{ destruct (snd (header_body self lx pc w)); simpl in Hin;
              try contradiction. destruct Hin as [Hin|[]]. discriminate. }
        apply header_body_announces_epi in Hin. destruct Hin as (w2 & Hincl & Hthrows).
        destruct (epi_block_reaches_Create self lx pc w2) as [(threw & Hc)|(e & He & Hc)].
        -- left. exists threw. right. right. apply in_or_app. left. now apply Hincl.
        -- right. exists e. rewrite (Hthrows e He). split; [reflexivity|].
           destruct Hc as [Hc|Hc]; [left|right]; right; right; apply in_or_app; left;
             now apply Hincl.
      * inversion Hrun; subst t' r. intros [Hin|[Hin|[Hin|[]]]]; discriminate.
Qed.

(** *** Header generation in terms of its two stages *)

Lemma projection_stage_run self :
  stage "Failed to generate GE header from lxData and processingControl: "
    (header <- ge_header_to_xml self (lxData_ self) (processingControl_ self) ;;
     (if empty header
      then throw (runtime_error "Generated GE header is empty.")
      else ret tt) ;;
     ret header) tt =
  match ge_header_to_xml self (lxData_ self) (processingControl_ self) tt with
  | (t, Returns (header, _)) =>
      if empty header
      then (t, Throws (projection_failure (runtime_error "Generated GE header is empty.")))
      else (t, Returns (header, tt))
  | (t, Throws e) => (t, Throws (projection_failure e))
  | (t, Exits n) => (t, Exits n)
  | (t, Undefined) => (t, Undefined)
  end.
Proof.
  unfold stage, try_catch. rewrite bind_outcome.
  destruct (ge_header_to_xml self (lxData_ self) (processingControl_ self) tt)
    as [t [[header []]|e|n|]]; try reflexivity.
  - destruct (empty header); cbn; now rewrite !app_nil_r.
  - destruct e; cbn; now rewrite ?app_nil_r.
Qed.

Lemma getIsmrmrdXMLHeader_run self :
  run (getIsmrmrdXMLHeader self) =
    if empty (stylesheet_ self) then
      ([ev_cerr "Error in getIsmrmrdXMLHeader(): No stylesheet configured."],
       Throws (runtime_error "No stylesheet configured."))
    else
      match run (ge_header_to_xml self (lxData_ self) (processingControl_ self)) with
      | (t, Returns header) =>
          if empty header then
            ((t ++ header_error_report
                     (projection_failure (runtime_error "Generated GE header is empty.")))%list,
             Throws (projection_failure (runtime_error "Generated GE header is empty.")))
          else
            ((t ++ ev_cout ("Converted header as XML string is: " ++ header)
                :: fst (run (transform (stylesheet_ self) header))
                ++ match snd (run (transform (stylesheet_ self) header)) with
                   | Throws e => header_error_report e
                   | _ => []
                   end)%list,
             snd (run (transform (stylesheet_ self) header)))
      | (t, Throws e) =>
          ((t ++ header_error_report (projection_failure e))%list,
           Throws (projection_failure e))
      | (t, Exits n) => (t, Exits n)
      | (t, Undefined) => (t, Undefined)
      end.
Proof.
  unfold getIsmrmrdXMLHeader.
  destruct (empty (stylesheet_ self)); [reflexivity|].
  unfold run at 1. unfold try_catch at 1.
  rewrite bind_outcome. cbn [ret fst snd]. rewrite bind_outcome.
  rewrite projection_stage_run. unfold run at 1.
  destruct (ge_header_to_xml self (lxData_ self) (processingControl_ self) tt)
    as [t [[header []]|e|n|]]; try reflexivity.
  - destruct (empty header).
    + reflexivity.
    + unfold cout. rewrite bind_emit. cbv beta. unfold run.
      destruct (transform (stylesheet_ self) header tt) as [t2 [[out []]|e|n|]];
        cbn [fst snd app]; rewrite ?app_nil_r; try reflexivity.
      destruct e; cbn; rewrite ?app_nil_r; try reflexivity.
      now rewrite <- app_assoc.
  - destruct e; cbn; rewrite ?app_nil_r; reflexivity.
Qed.

(** C7. With an empty stored stylesheet [getIsmrmrdXMLHeader] throws the
    runtime error "No stylesheet configured." and does nothing else than
    report it on the error stream: no SDK call, no writer call, no engine
    call. *)
Theorem empty_stylesheet_is_rejected :
  forall self,
    stylesheet_ self = "" ->
    run (getIsmrmrdXMLHeader self) =
      ([ev_cerr "Error in getIsmrmrdXMLHeader(): No stylesheet configured."],
       Throws (runtime_error "No stylesheet configured.")).
Proof.
  intros self H. rewrite getIsmrmrdXMLHeader_run, H. reflexivity.
Qed.

(** *** Failing fast *)

Section FailsFast.
Context {St : Type}.

Lemma fails_fast_ret {A : Type} (a : A) : fails_fast (ret (St:=St) a).
Proof. intros s c e []. Qed.

Lemma fails_fast_emit (ev : event) :
  (forall c e, ev <> ev_sdk c (Some e)) -> fails_fast (emit (St:=St) ev).
Proof. intros H s c e [Hin|[]]. now destruct (H c e). Qed.

Lemma fails_fast_deref {T : Type} (p : ptr T) : fails_fast (deref (St:=St) p).
Proof. destruct p; intros s c e []. Qed.

Lemma fails_fast_defined {A : Type} (v : option A) : fails_fast (defined (St:=St) v).
Proof. destruct v; intros s c e []. Qed.

Lemma fails_fast_sdk {A : Type} (c : sdk_call) (r : result A) :
  fails_fast (sdk (St:=St) c r).
Proof.
  intros s c' e [Hin|[]]. destruct r as [a|e']; inversion Hin; subst.
  split; [reflexivity|]. now exists [].
Qed.

Lemma fails_fast_bind {A B : Type} (m : M St A) (f : A -> M St B) :
  fails_fast m -> (forall a, fails_fast (f a)) -> fails_fast (bind m f).
Proof.
  intros Hm Hf s c e. rewrite bind_outcome. specialize (Hm s c e).
  destruct (m s) as [t [[a s1]|e'|n|]]; simpl in *;
    try (intros Hin; destruct (Hm Hin) as (Hr & Hb);
         first [ discriminate Hr
               | inversion Hr; subst; split; [reflexivity | exact Hb] ]).
  rewrite in_app_iff. intros [Hin|Hin].
  - destruct (Hm Hin) as (Habs & _). discriminate.
  - destruct (Hf a s1 c e Hin) as (Hr & before & Ht). split; [assumption|].
    exists (t ++ before)%list. now rewrite Ht, app_assoc.
Qed.

Lemma fails_fast_unsequenced {A B : Type} (order : evaluation_order)
    (first : M St A) (second : M St B) :
  fails_fast first -> fails_fast second -> fails_fast (unsequenced order first second).
Proof.
  intros H1 H2. destruct order; unfold unsequenced;
    repeat (apply fails_fast_bind; [assumption | intros ?]); apply fails_fast_ret.
Qed.

End FailsFast.

Lemma fails_fast_writer (c : WriterCall) : fails_fast (writer c).
Proof.
  intros w c' e. unfold writer. destruct (xw_step c w); intros [Hin|[]]; discriminate.
Qed.

Lemma fails_fast_writer_getXML : fails_fast writer_getXML.
Proof.
  intros w c' e. unfold writer_getXML.
  destruct (xw_getXML w); intros [Hin|[]]; discriminate.
Qed.

Ltac fails_fast_steps :=
  unfold pc_Value_bool, pc_Value_int, pc_Value_unsigned_int, pc_ValueStrict_bool,
    pc_ValueStrict_SliceInfoTable, seriesModule_SeriesDescription, cout, cerr, log;
  repeat first
    [ apply fails_fast_unsequenced
    | apply fails_fast_bind; [| intros ? ]
    | apply fails_fast_ret
    | apply fails_fast_emit; intros ? ?; discriminate
    | apply fails_fast_deref
    | apply fails_fast_defined
    | apply fails_fast_sdk
    | apply fails_fast_writer
    | apply fails_fast_writer_getXML
    | match goal with |- fails_fast (if ?b then _ else _) => destruct b end ].

Lemma header_body_fails_fast self lxData pc : fails_fast (header_body self lxData pc).
Proof. unfold header_body, header_fields, epi_block. fails_fast_steps. Qed.

(** C5. If a read of the raw header throws during projection, projection
    stops there: it reports the exception on the error stream and rethrows
    it unchanged, and returns no document.  [getIsmrmrdXMLHeader] then
    throws: for a [std::exception], a runtime error whose text is the fixed
    prefix "Failed to generate GE header from lxData and processingControl: "
    followed by the text of that exception; for an exception of any other
    type, that exception itself, not wrapped. *)
Theorem projection_fails_fast :
  forall self t r c e,
    run (ge_header_to_xml self (lxData_ self) (processingControl_ self)) = (t, r) ->
    In (ev_sdk c (Some e)) t ->
    r = Throws e
    /\ (exists before,
          t = (before ++ [ev_sdk c (Some e); ev_cerr (conversion_error_report e)])%list)
    /\ (stylesheet_ self <> "" ->
        snd (run (getIsmrmrdXMLHeader self))
        = Throws
            match e with
            | std_exception what =>
                runtime_error
                  ("Failed to generate GE header from lxData and processingControl: "
                     ++ what)
            | foreign_exception _ => e
            end).
Proof.
  intros self t r c e Hrun Hin.
  assert (Hproj : r = Throws e
                  /\ exists before,
                       t = (before ++ [ev_sdk c (Some e);
                                       ev_cerr (conversion_error_report e)])%list).
  { rewrite ge_header_to_xml_run in Hrun. destruct xw_new as [w|e0].
    - inversion Hrun; subst t r; clear Hrun.
      pose proof (header_body_fails_fast self (lxData_ self) (processingControl_ self)
                    w c e) as Hff.
      destruct Hin as [Hin|[Hin|Hin]]; try discriminate.
      rewrite in_app_iff in Hin.
      assert (Hbody : In (ev_sdk c (Some e))
                         (fst (header_body self (lxData_ self) (processingControl_ self) w))).
      { destruct Hin as [Hin|Hin]; [assumption|].
        destruct (snd (header_body self (lxData_ self) (processingControl_ self) w));
          simpl in Hin; try contradiction.
        destruct Hin as [Hin|[]]. discriminate. }
      destruct (Hff Hbody) as (Hr & before & Ht). rewrite Hr, Ht. split; [reflexivity|].
      exists (ev_cout "[INFO] Starting conversion of raw file header to XML string."
                :: ev_writer_new None :: before).
      simpl. now rewrite <- app_assoc.
    - inversion Hrun; subst t r. destruct Hin as [Hin|[Hin|[Hin|[]]]]; discriminate. }
  destruct Hproj as (Hr & Ht). split; [assumption|]. split; [assumption|].
  intros Hsheet. rewrite getIsmrmrdXMLHeader_run.
  destruct (empty (stylesheet_ self)) eqn:E.
  - apply empty_true in E. contradiction.
  - rewrite Hrun, Hr. reflexivity.
Qed.

(** *** The transform stages *)

Ltac ends_with_last_event :=
  first [ exists []; reflexivity
        | eexists [_]; reflexivity
        | eexists [_; _]; reflexivity
        | eexists [_; _; _]; reflexivity
        | eexists [_; _; _; _]; reflexivity
        | eexists [_; _; _; _; _]; reflexivity
        | eexists [_; _; _; _; _; _]; reflexivity
        | eexists [_; _; _; _; _; _; _]; reflexivity ].

Ltac transform_leaf n :=
  let H := fresh "H" in
  intros H; inversion H; subst; clear H; split;
  [ exists n; reflexivity
  | let c := fresh "c" in
    let diag := fresh "diag" in
    let Hin := fresh "Hin" in
    intros c diag Hin; simpl in Hin;
    repeat (destruct Hin as [Hin|Hin];
            [ first [ discriminate Hin
                    | inversion Hin; subst;
                      split; [reflexivity | ends_with_last_event] ] | ]);
    contradiction ].

Lemma transform_run sheet header t r :
  run (transform sheet header) = (t, r) ->
  (exists n, engine_calls t = firstn n transform_pipeline)
  /\ (forall c diag,
        In (ev_engine c true diag) t ->
        r = Throws (runtime_error (stage_failure c))
        /\ exists before, t = (before ++ [ev_engine c true diag])%list).
Proof.
  unfold transform, run, stage, try_catch, bind, engine, non_null, log, emit, ret, throw,
    catch_std_exception.
  cbn [fst snd].
  destruct (xmlParseMemory sheet) as [[doc|] d1]; cbn; [|transform_leaf 3%nat].
  destruct (xsltParseStylesheetDoc doc) as [[compiled|] d2]; cbn; [|transform_leaf 4%nat].
  destruct (xmlParseMemory header) as [[hdoc|] d3]; cbn; [|transform_leaf 5%nat].
  destruct (xsltApplyStylesheet compiled hdoc) as [[res|] d4]; cbn;
    [|transform_leaf 6%nat].
  destruct (xsltSaveResultToString res compiled) as [[rc out] d5]; cbn.
  destruct (rc <? 0); cbn; transform_leaf 7%nat.
Qed.

Lemma engine_calls_app (t1 t2 : trace) :
  engine_calls (t1 ++ t2)%list = (engine_calls t1 ++ engine_calls t2)%list.
Proof. unfold engine_calls. apply flat_map_app. Qed.

Lemma engine_calls_quiet (t : trace) :
  Forall (fun e => is_engine e = false) t ->
  engine_calls t = [] /\ forall c failed d, ~ In (ev_engine c failed d) t.
Proof.
  induction 1 as [|e t He _ [IH1 IH2]]; [split; [reflexivity | intros c f d []]|].
  split.
  - destruct e; try discriminate; exact IH1.
  - intros c f d [Hin|Hin]; [subst; discriminate | exact (IH2 c f d Hin)].
Qed.

Lemma header_error_report_no_engine (e : exception) :
  Forall (fun ev => is_engine ev = false) (header_error_report e).
Proof. destruct e; repeat constructor. Qed.

Lemma header_body_no_engine self lxData pc :
  always (fun e => is_engine e = false) (header_body self lxData pc).
Proof. unfold header_body, header_fields, epi_block. always_decide. Qed.

Lemma ge_header_to_xml_no_engine self lxData pc :
  Forall (fun e => is_engine e = false) (fst (run (ge_header_to_xml self lxData pc))).
Proof.
  rewrite ge_header_to_xml_run. destruct xw_new as [w|e]; simpl.
  - do 2 (constructor; [reflexivity|]). apply Forall_app. split.
    + apply header_body_no_engine.
    + destruct (snd (header_body self lxData pc w)); repeat constructor.
  - repeat constructor.
Qed.

(** C6. Each engine call of the transform is made at most once per call of
    [getIsmrmrdXMLHeader], in program order, and the first one whose return
    value reports a failure ends the call: the exception thrown is a runtime
    error whose text is fixed by the failing stage alone (a stage prefix and
    a stage message), whatever the diagnostic of the engine, and nothing
    follows the failing call but the report of that text on the error
    stream. *)
Theorem transform_stage_failures :
  forall self t r,
    run (getIsmrmrdXMLHeader self) = (t, r) ->
    (exists n, engine_calls t = firstn n transform_pipeline)
    /\ (forall c diagnostic,
          In (ev_engine c true diagnostic) t ->
          r = Throws (runtime_error (stage_failure c))
          /\ exists before,
               t = (before
                      ++ [ev_engine c true diagnostic;
                          ev_cerr ("Error in getIsmrmrdXMLHeader(): " ++ stage_failure c)])%list).
Proof.
  intros self t r Hrun. rewrite getIsmrmrdXMLHeader_run in Hrun.
  assert (Hnone : forall (t0 : trace) (r0 : outcome string),
            Forall (fun e => is_engine e = false) t0 ->
            (exists n, engine_calls t0 = firstn n transform_pipeline)
            /\ (forall c diagnostic,
                  In (ev_engine c true diagnostic) t0 ->
                  r0 = Throws (runtime_error (stage_failure c))
                  /\ exists before,
                       t0 = (before
                               ++ [ev_engine c true diagnostic;
                                   ev_cerr ("Error in getIsmrmrdXMLHeader(): "
                                            ++ stage_failure c)])%list)).
  { intros t0 r0 H0. apply engine_calls_quiet in H0. destruct H0 as (H0 & H1). split.
    - exists 0%nat. now rewrite H0.
    - intros c d Hin. now destruct (H1 c true d). }
  destruct (empty (stylesheet_ self)).
  { inversion Hrun; subst t r. apply Hnone. repeat constructor. }
  pose proof (ge_header_to_xml_no_engine self (lxData_ self) (processingControl_ self))
    as Hproj.
  destruct (run (ge_header_to_xml self (lxData_ self) (processingControl_ self)))
    as [tp [header|e|n|]]; simpl in Hproj.
  - destruct (empty header).
    { inversion Hrun; subst t r. apply Hnone. apply Forall_app. split; [assumption|].
      repeat constructor. }
    destruct (run (transform (stylesheet_ self) header)) as [t2 r2] eqn:Et.
    apply transform_run in Et. destruct Et as ((n & Hn) & Hfail).
    cbn [fst snd] in Hrun. inversion Hrun; subst t r; clear Hrun Hnone.
    pose proof (engine_calls_quiet tp Hproj) as (Hp1 & Hp2).
    match goal with
    | |- context [(t2 ++ ?x)%list] => remember x as rep eqn:Erep
    end.
    assert (Hrep : engine_calls rep = []
                   /\ forall c d, ~ In (ev_engine c true d) rep).
    { destruct r2 as [out|e|k|]; subst rep; try (split; [reflexivity | intros c d []]).
      destruct (engine_calls_quiet _ (header_error_report_no_engine e)) as (Q1 & Q2).
      split; [exact Q1 | intros c d; apply Q2]. }
    destruct Hrep as (Hr1 & Hr2). split.
    + exists n. rewrite engine_calls_app, Hp1. cbn [app].
      match goal with
      | |- engine_calls (ev_cout ?l :: ?x) = _ =>
          change (engine_calls (ev_cout l :: x)) with (engine_calls x)
      end.
      rewrite engine_calls_app, Hr1, app_nil_r. exact Hn.
    + intros c d Hin. rewrite in_app_iff in Hin. destruct Hin as [Hin|Hin].
      { now destruct (Hp2 c true d). }
      destruct Hin as [Hin|Hin]; [discriminate|].
      rewrite in_app_iff in Hin. destruct Hin as [Hin|Hin].
      2:{ now destruct (Hr2 c d). }
      destruct (Hfail c d Hin) as (-> & before & ->). subst rep.
      split; [reflexivity|].
      exists (tp ++ ev_cout ("Converted header as XML string is: " ++ header) :: before)%list.
      simpl. rewrite <- !app_assoc. reflexivity.
  - inversion Hrun; subst t r. apply Hnone. apply Forall_app. split; [assumption|].
    apply header_error_report_no_engine.
  - inversion Hrun; subst t r. now apply Hnone.
  - inversion Hrun; subst t r. now apply Hnone.
Qed.

(** *** Stylesheet entry points *)

Lemma substring_all (s : string) : String.substring 0 (String.length s) s = s.
Proof. induction s as [|c s IH]; simpl; [reflexivity | now rewrite IH]. Qed.

Lemma rewound_stream_reads_all (stream : ifstream) (bytes : string) :
  filebuf stream = Some bytes -> failbit stream = false -> badbit stream = false ->
  istreambuf_rest (seekg_beg stream) = bytes.
Proof.
  intros Hbuf Hfail Hbad. unfold seekg_beg, istreambuf_rest.
  rewrite Hfail, Hbad, Hbuf. simpl. rewrite Nat.sub_0_r. apply substring_all.
Qed.

(** C8. For a file that can be opened, the three entry points leave the
    same session: the path, a stream on the file that is open and has not
    failed (wherever its read position is, and whether or not it has met
    the end of the file), and the bytes of the file all store those bytes
    as the stylesheet. *)
Theorem stylesheet_entry_points_agree :
  forall fs self filename bytes stream,
    fs (c_str filename) = Some bytes ->
    filebuf stream = Some bytes ->
    failbit stream = false ->
    badbit stream = false ->
    snd (useStylesheetFilename fs self filename) = useStylesheetString self bytes
    /\ fst (useStylesheetStream self stream) = useStylesheetString self bytes
    /\ stylesheet_ (useStylesheetString self bytes) = bytes.
Proof.
  intros fs self filename bytes stream Hfile Hbuf Hfail Hbad. split; [|split].
  - unfold useStylesheetFilename, useStylesheetStream. simpl.
    rewrite (rewound_stream_reads_all _ bytes); [reflexivity| | |];
      unfold ifstream_open; now rewrite Hfile.
  - unfold useStylesheetStream. simpl.
    now rewrite (rewound_stream_reads_all _ bytes).
  - reflexivity.
Qed.

(** *** What operations leave alone *)

Lemma step_frame fs self op :
  rawObjectType_ (step fs self op) = rawObjectType_ self
  /\ converter_ (step fs self op) = converter_ self
  /\ scanArchive_ (step fs self op) = scanArchive_ self
  /\ pfile_ (step fs self op) = pfile_ self
  /\ lxData_ (step fs self op) = lxData_ self
  /\ processingControl_ (step fs self op) = processingControl_ self.
Proof. destruct op; repeat split. Qed.

Lemma run_operations_frame fs ops : forall self,
  rawObjectType_ (run_operations fs self ops) = rawObjectType_ self
  /\ converter_ (run_operations fs self ops) = converter_ self
  /\ scanArchive_ (run_operations fs self ops) = scanArchive_ self
  /\ pfile_ (run_operations fs self ops) = pfile_ self
  /\ lxData_ (run_operations fs self ops) = lxData_ self
  /\ processingControl_ (run_operations fs self ops) = processingControl_ self.
Proof.
  induction ops as [|op ops IH]; intros self; [repeat split|].
  change (run_operations fs self (op :: ops))
    with (run_operations fs (step fs self op) ops).
  destruct (IH (step fs self op)) as (H1 & H2 & H3 & H4 & H5 & H6).
  destruct (step_frame fs self op) as (S1 & S2 & S3 & S4 & S5 & S6).
  repeat split; congruence.
Qed.


(* ------------------------------------------------------------------ *)
(** ** Further properties of the session *)

(** *** The shape of the projected document *)

Lemma pc_Value_unsigned_int_returns {St : Type} (pc : ptr ProcessingControl) name
    (s s1 : St) t z :
  pc_Value_unsigned_int pc name s = (t, Returns (z, s1)) ->
  exists p, pc = Some p /\ Value_unsigned_int p name = Ok z
            /\ t = [ev_sdk (call_Value T_unsigned_int name) None] /\ s1 = s.
Proof.
  unfold pc_Value_unsigned_int. intros H. apply bind_returns in H.
  destruct H as (t1 & p & s2 & t2 & H1 & H2 & ->).
  apply deref_returns in H1. destruct H1 as (-> & -> & ->).
  apply sdk_returns in H2. destruct H2 as (H2 & -> & ->). now exists p.
Qed.

Lemma pc_ValueStrict_SliceInfoTable_returns {St : Type} (pc : ptr ProcessingControl)
    name (s s1 : St) t z :
  pc_ValueStrict_SliceInfoTable pc name s = (t, Returns (z, s1)) ->
  exists p, pc = Some p /\ ValueStrict_SliceInfoTable p name = Ok z
            /\ t = [ev_sdk (call_ValueStrict T_SliceInfoTable name) None] /\ s1 = s.
Proof.
  unfold pc_ValueStrict_SliceInfoTable. intros H. apply bind_returns in H.
  destruct H as (t1 & p & s2 & t2 & H1 & H2 & ->).
  apply deref_returns in H1. destruct H1 as (-> & -> & ->).
  apply sdk_returns in H2. destruct H2 as (H2 & -> & ->). now exists p.
Qed.

Lemma seriesModule_SeriesDescription_returns {St : Type} (m : ptr SeriesModule)
    (s s1 : St) t text :
  seriesModule_SeriesDescription m s = (t, Returns (text, s1)) ->
  exists sm, m = Some sm /\ SeriesModule_SeriesDescription sm = Ok text
             /\ t = [ev_sdk call_SeriesDescription None] /\ s1 = s.
Proof.
  unfold seriesModule_SeriesDescription. intros H. apply bind_returns in H.
  destruct H as (t1 & p & s2 & t2 & H1 & H2 & ->).
  apply deref_returns in H1. destruct H1 as (-> & -> & ->).
  apply sdk_returns in H2. destruct H2 as (H2 & -> & ->). now exists p.
Qed.

(** The warning about an empty series description changes neither the
    writer nor the outcome. *)
Lemma description_warning_returns {St : Type} (description : string) (s s1 : St) t u :
  (if empty description then cerr "[WARNING] Series description is empty!"
   else ret tt) s = (t, Returns (u, s1)) ->
  t = (if empty description
       then [ev_cerr "[WARNING] Series description is empty!"] else [])
  /\ s1 = s.
Proof. destruct (empty description); intros H; inversion H; now subst. Qed.

Ltac invert_field_leaf H :=
  first
    [ apply pc_Value_unsigned_int_returns in H; destruct H as (? & ? & ? & -> & ->)
    | apply pc_ValueStrict_SliceInfoTable_returns in H;
      destruct H as (? & ? & ? & -> & ->)
    | apply seriesModule_SeriesDescription_returns in H;
      destruct H as (? & ? & ? & -> & ->)
    | apply description_warning_returns in H; destruct H as (-> & ->)
    | invert_leaf H ].

Ltac invert_field H :=
  apply bind_returns in H;
  let t1 := fresh "t" in
  let a := fresh "v" in
  let s1 := fresh "w" in
  let t2 := fresh "t" in
  let H1 := fresh "Hstep" in
  destruct H as (t1 & a & s1 & t2 & H1 & H & ->);
  first
    [ invert_field_leaf H1
    | repeat invert_field H1; invert_field_leaf H1 ].

Lemma header_fields_returns lxData pc w t w1 :
  header_fields lxData pc w = (t, Returns (tt, w1)) ->
  map shape_of (writer_calls t) = header_shape
  /\ (exists lx, lxData = Some lx)
  /\ (exists p, pc = Some p)
  /\ (filter is_cerr t = []
      \/ filter is_cerr t = [ev_cerr "[WARNING] Series description is empty!"]).
Proof.
  intros H. unfold header_fields, unsequenced in H.
  destruct argument_order; cbv iota in H;
    (repeat invert_field H;
     apply writer_returns in H; destruct H as (_ & ->);
     split; [ destruct (empty _); reflexivity |];
     split; [eauto|]; split; [eauto|];
     destruct (empty _); [right | left]; reflexivity).
Qed.

Lemma epi_parameters_shape integrated multiband top yres bottom refViews volumes :
  map shape_of (epi_parameters integrated multiband top yres bottom refViews volumes)
  = epi_shape.
Proof. reflexivity. Qed.

(** A returned document went through the calls of the fixed steps, then
    those of the EPI block when the header is an EPI one, then the two
    closing calls; both handles were not null. *)
Lemma header_body_shape self lxData pc w t xml w1 :
  header_body self lxData pc w = (t, Returns (xml, w1)) ->
  exists lx p isEpi,
    lxData = Some lx /\ pc = Some p /\ IsEpi lx = Ok isEpi
    /\ map shape_of (writer_calls t)
       = (header_shape ++ (if isEpi then epi_shape else [])
            ++ [closes; document_end])%list.
Proof.
  intros H. apply header_body_returns in H.
  destruct H as (lx & isEpi & tf & te & w2 & w3 & Hlx & Hepi & Hf & Hblock & ->).
  apply header_fields_returns in Hf. destruct Hf as (Hshape & _ & (p & Hp) & _).
  exists lx, p, isEpi. repeat (split; [assumption|]).
  change (tf ++ ev_sdk call_IsEpi None :: te ++ ?x)%list
    with (tf ++ [ev_sdk call_IsEpi None] ++ te ++ x)%list.
  rewrite !writer_calls_app, !map_app, Hshape. f_equal.
  destruct isEpi.
  - apply epi_block_returns in Hblock.
    destruct Hblock as (storage & count & p' & n & i & m & top & y & bot & v
                        & _ & _ & _ & _ & _ & _ & _ & _ & Hte & _).
    rewrite Hte, epi_parameters_shape. reflexivity.
  - inversion Hblock; subst. reflexivity.
Qed.

(** X1. Every document that projection returns went through the same
    writer calls up to their values: the 23 calls of the fixed steps (the
    start of the document, the elements Header, Series, Study, Patient,
    Equipment and Image with their fields), then the nine calls of the
    [epiParameters] block exactly when the header reports an EPI
    acquisition, then one [endElement] and [endDocument]. *)
Theorem projected_document_has_a_fixed_shape :
  forall self lxData pc t xml,
    run (ge_header_to_xml self lxData pc) = (t, Returns xml) ->
    exists lx isEpi,
      lxData = Some lx /\ IsEpi lx = Ok isEpi
      /\ map shape_of (writer_calls t)
         = (header_shape ++ (if isEpi then epi_shape else [])
              ++ [closes; document_end])%list.
Proof.
  intros self lxData pc t xml Hrun.
  apply ge_header_to_xml_returns in Hrun.
  destruct Hrun as (w & t' & w1 & _ & Hbody & ->).
  apply header_body_shape in Hbody.
  destruct Hbody as (lx & p & isEpi & Hlx & _ & Hepi & Hshape).
  now exists lx, isEpi.
Qed.

(** X2. Projection closes only [epiParameters] and Image: when it calls
    [endDocument], the elements Equipment, Patient, Study, Series and Header
    (innermost first) have been opened and not closed, for every document it
    returns. *)
Theorem document_is_ended_with_five_elements_open :
  forall self lxData pc t xml,
    run (ge_header_to_xml self lxData pc) = (t, Returns xml) ->
    exists before,
      map shape_of (writer_calls t) = (before ++ [document_end])%list
      /\ open_elements before []
         = ["Equipment"; "Patient"; "Study"; "Series"; "Header"].
Proof.
  intros self lxData pc t xml Hrun.
  apply ge_header_to_xml_returns in Hrun.
  destruct Hrun as (w & t' & w1 & _ & Hbody & ->).
  apply header_body_shape in Hbody.
  destruct Hbody as (lx & p & isEpi & _ & _ & _ & Hshape).
  exists (header_shape ++ (if isEpi then epi_shape else []) ++ [closes])%list.
  split.
  - change (writer_calls (?a :: ?b :: t')) with (writer_calls t').
    rewrite Hshape, <- !app_assoc. reflexivity.
  - now destruct isEpi.
Qed.

(** *** The values of the fixed elements *)

Lemma header_fields_values lxData pc w t w1 :
  header_fields lxData pc w = (t, Returns (tt, w1)) ->
  exists lx p is3D isCal asset slices channels series exam coil rest,
    lxData = Some lx /\ pc = Some p
    /\ Value_bool p "Is3DAcquisition" = Ok is3D
    /\ IsCalibration lx = Ok isCal
    /\ Value_bool p "AssetCalibration" = Ok asset
    /\ Value_int p "NumSlices" = Ok slices
    /\ Value_int p "NumChannels" = Ok channels
    /\ Value_int p "SeriesNumber" = Ok series
    /\ Value_int p "ExamNumber" = Ok exam
    /\ Value_unsigned_int p "CoilConfigUID" = Ok coil
    /\ writer_calls t
       = ([startDocument; startElement "Header";
           addBooleanElement "is3DAcquisition" is3D;
           addBooleanElement "isCalibration" isCal;
           addBooleanElement "isAssetCalibration" asset;
           formatElement "SliceCount" "%d" (arg_int slices);
           formatElement "ChannelCount" "%d" (arg_int channels)] ++ rest)%list
    /\ In (formatElement "Number" "%d" (arg_int series)) rest
    /\ In (formatElement "Number" "%u" (arg_int exam)) rest
    /\ In (formatElement "CoilConfigUID" "%u" (arg_unsigned coil)) rest.
Proof.
  intros H. unfold header_fields, unsequenced in H.
  destruct argument_order; cbv iota in H;
  repeat invert_field H;
  apply writer_returns in H; destruct H as (_ & ->);
  repeat match goal with
         | E : xw_step _ _ = _ |- _ => clear E
         end;
  subst;
  repeat match goal with
         | E : Some _ = Some _ |- _ => inversion E; clear E; subst
         end;
  match goal with
  | H1 : Value_bool ?p "Is3DAcquisition" = Ok ?a,
    H2 : IsCalibration ?lx = Ok ?b,
    H3 : Value_bool ?p "AssetCalibration" = Ok ?c,
    H4 : Value_int ?p "NumSlices" = Ok ?d,
    H5 : Value_int ?p "NumChannels" = Ok ?e,
    H6 : Value_int ?p "SeriesNumber" = Ok ?f,
    H7 : Value_int ?p "ExamNumber" = Ok ?g,
    H8 : Value_unsigned_int ?p "CoilConfigUID" = Ok ?h |- _ =>
      exists lx, p, a, b, c, d, e, f, g, h
  end;
  match goal with |- context [empty ?d] => destruct (empty d) end;
    (eexists; repeat (split; [first [eassumption | reflexivity]|]);
     split; [|split]; repeat (first [left; reflexivity | right])).
Qed.

(** X3. In a returned document the first seven writer calls carry, in
    this order, Is3DAcquisition, the calibration flag of the download data,
    AssetCalibration, NumSlices as SliceCount and NumChannels as
    ChannelCount; the series Number holds SeriesNumber, the study Number
    holds ExamNumber (an [int] written with the format %u) and CoilConfigUID
    holds the unsigned CoilConfigUID, all read from the processing control
    that was passed in. *)
Theorem header_elements_hold_the_control_values :
  forall self lxData pc t xml,
    run (ge_header_to_xml self lxData pc) = (t, Returns xml) ->
    exists lx p is3D isCal asset slices channels series exam coil,
      lxData = Some lx /\ pc = Some p
      /\ Value_bool p "Is3DAcquisition" = Ok is3D
      /\ IsCalibration lx = Ok isCal
      /\ Value_bool p "AssetCalibration" = Ok asset
      /\ Value_int p "NumSlices" = Ok slices
      /\ Value_int p "NumChannels" = Ok channels
      /\ Value_int p "SeriesNumber" = Ok series
      /\ Value_int p "ExamNumber" = Ok exam
      /\ Value_unsigned_int p "CoilConfigUID" = Ok coil
      /\ firstn 7 (writer_calls t)
         = [startDocument; startElement "Header";
            addBooleanElement "is3DAcquisition" is3D;
            addBooleanElement "isCalibration" isCal;
            addBooleanElement "isAssetCalibration" asset;
            formatElement "SliceCount" "%d" (arg_int slices);
            formatElement "ChannelCount" "%d" (arg_int channels)]
      /\ In (formatElement "Number" "%d" (arg_int series)) (writer_calls t)
      /\ In (formatElement "Number" "%u" (arg_int exam)) (writer_calls t)
      /\ In (formatElement "CoilConfigUID" "%u" (arg_unsigned coil)) (writer_calls t).
Proof.
  intros self lxData pc t xml Hrun.
  apply ge_header_to_xml_returns in Hrun.
  destruct Hrun as (w & t' & w1 & _ & Hbody & ->).
  apply header_body_returns in Hbody.
  destruct Hbody as (lx0 & isEpi & tf & te & w2 & w3 & _ & _ & Hf & _ & ->).
  apply header_fields_values in Hf.
  destruct Hf as (lx & p & is3D & isCal & asset & slices & channels & series & exam
                  & coil & rest & Hlx & Hp & H1 & H2 & H3 & H4 & H5 & H6 & H7 & H8
                  & Hcalls & I1 & I2 & I3).
  exists lx, p, is3D, isCal, asset, slices, channels, series, exam, coil.
  repeat (split; [assumption|]).
  change (writer_calls (?a :: ?b :: ?x)) with (writer_calls x).
  rewrite writer_calls_app, Hcalls.
  split; [reflexivity|].
  repeat split; apply in_or_app; left; do 7 right; assumption.
Qed.

(** *** Where the failures of projection come from *)

Section ThrowsFromCalls.
Context {St : Type}.

Lemma throws_from_calls_ret {A : Type} (a : A) : throws_from_calls (ret (St:=St) a).
Proof. intros s. constructor. Qed.

Lemma throws_from_calls_emit (ev : event) :
  raises ev = false -> throws_from_calls (emit (St:=St) ev).
Proof. intros H s. simpl. now repeat constructor. Qed.

Lemma throws_from_calls_deref {T : Type} (p : ptr T) :
  throws_from_calls (deref (St:=St) p).
Proof. destruct p; intros s; constructor. Qed.

Lemma throws_from_calls_defined {A : Type} (v : option A) :
  throws_from_calls (defined (St:=St) v).
Proof. destruct v; intros s; constructor. Qed.

Lemma throws_from_calls_sdk {A : Type} (c : sdk_call) (r : result A) :
  throws_from_calls (sdk (St:=St) c r).
Proof.
  intros s. destruct r as [a|e]; simpl.
  - now repeat constructor.
  - exists [], (ev_sdk c (Some e)). repeat split. constructor.
Qed.

Lemma throws_from_calls_bind {A B : Type} (m : M St A) (f : A -> M St B) :
  throws_from_calls m -> (forall a, throws_from_calls (f a)) ->
  throws_from_calls (bind m f).
Proof.
  intros Hm Hf s. rewrite bind_outcome. specialize (Hm s).
  destruct (m s) as [t [[a s1]|e|n|]]; simpl in *; try assumption.
  specialize (Hf a s1). destruct (snd (f a s1)) as [b|e|n|].
  - apply Forall_app. now split.
  - destruct Hf as (before & ev & -> & Hev & Hbefore).
    exists (t ++ before)%list, ev. rewrite app_assoc. repeat split; try assumption.
    apply Forall_app. now split.
  - assumption.
  - apply Forall_app. now split.
Qed.

Lemma throws_from_calls_unsequenced {A B : Type} (order : evaluation_order)
    (first : M St A) (second : M St B) :
  throws_from_calls first -> throws_from_calls second ->
  throws_from_calls (unsequenced order first second).
Proof.
  intros H1 H2. destruct order; unfold unsequenced;
    repeat (apply throws_from_calls_bind; [assumption | intros ?]);
    apply throws_from_calls_ret.
Qed.

End ThrowsFromCalls.

Lemma throws_from_calls_writer (c : WriterCall) : throws_from_calls (writer c).
Proof.
  intros w. unfold writer. destruct (xw_step c w) as [w1|e]; simpl.
  - now repeat constructor.
  - exists [], (ev_writer c (Some e)). repeat split. constructor.
Qed.

Lemma throws_from_calls_writer_getXML : throws_from_calls writer_getXML.
Proof.
  intros w. unfold writer_getXML. destruct (xw_getXML w) as [text|e]; simpl.
  - now repeat constructor.
  - exists [], (ev_writer_getXML (Some e)). repeat split. constructor.
Qed.

Ltac throws_from_calls_steps :=
  unfold pc_Value_bool, pc_Value_int, pc_Value_unsigned_int, pc_ValueStrict_bool,
    pc_ValueStrict_SliceInfoTable, seriesModule_SeriesDescription, cout, cerr, log;
  repeat first
    [ apply throws_from_calls_unsequenced
    | apply throws_from_calls_bind; [| intros ? ]
    | apply throws_from_calls_ret
    | apply throws_from_calls_emit; reflexivity
    | apply throws_from_calls_deref
    | apply throws_from_calls_defined
    | apply throws_from_calls_sdk
    | apply throws_from_calls_writer
    | apply throws_from_calls_writer_getXML
    | match goal with |- throws_from_calls (if ?b then _ else _) => destruct b end ].

Lemma header_body_throws_from_calls self lxData pc :
  throws_from_calls (header_body self lxData pc).
Proof. unfold header_body, header_fields, epi_block. throws_from_calls_steps. Qed.

Lemma raised_by_raises (e : exception) (ev : event) : raised_by e ev -> raises ev = true.
Proof.
  destruct ev as [| | |c [x|]|[x|]|c [x|]|[x|]| |c k n v [x|]]; simpl;
    intros H; try contradiction; reflexivity.
Qed.

(** [ge_header_to_xml] throws what a call threw, reports it and stops;
    it never exits. *)
Lemma ge_header_to_xml_throws_from_calls self lxData pc t r :
  run (ge_header_to_xml self lxData pc) = (t, r) ->
  match r with
  | Throws e =>
      exists before ev,
        t = (before ++ [ev; ev_cerr (conversion_error_report e)])%list
        /\ raised_by e ev
        /\ Forall (fun ev => raises ev = false) before
  | Exits _ => False
  | _ => Forall (fun ev => raises ev = false) t
  end.
Proof.
  rewrite ge_header_to_xml_run. destruct xw_new as [w|e0].
  - pose proof (header_body_throws_from_calls self lxData pc w) as H.
    destruct (header_body self lxData pc w) as [tb [[xml w1]|e|n|]]; simpl in H;
      intros Heq; inversion Heq; subst t r; clear Heq; cbn [fst snd].
    + rewrite app_nil_r. now repeat constructor.
    + destruct H as (before & ev & -> & Hev & Hbefore).
      exists (ev_cout "[INFO] Starting conversion of raw file header to XML string."
                :: ev_writer_new None :: before), ev.
      split; [simpl; now rewrite <- app_assoc|]. split; [assumption|].
      now repeat constructor.
    + assumption.
    + rewrite app_nil_r. now repeat constructor.
  - intros Heq; inversion Heq; subst t r; clear Heq.
    exists [ev_cout "[INFO] Starting conversion of raw file header to XML string."],
      (ev_writer_new (Some e0)).
    repeat split. now repeat constructor.
Qed.

(** Projection that neither returns nor sees a call throw ran into
    undefined behaviour. *)
Lemma quiet_failure_is_undefined self lxData pc t r :
  run (ge_header_to_xml self lxData pc) = (t, r) ->
  returned r = false ->
  Forall (fun ev => raises ev = false) t ->
  r = Undefined.
Proof.
  intros Hrun Hr Hquiet. apply ge_header_to_xml_throws_from_calls in Hrun.
  destruct r as [xml|e|n|]; try discriminate; [|contradiction|reflexivity].
  destruct Hrun as (before & ev & -> & Hev & _).
  apply raised_by_raises in Hev.
  rewrite Forall_forall in Hquiet.
  rewrite (Hquiet ev) in Hev; [discriminate|].
  apply in_or_app. right. now left.
Qed.

(** X4. Projection throws nothing of its own and never exits: an exception
    that leaves [ge_header_to_xml] is the one that a call of the writer or
    of the SDK threw, that call is the only one that threw and the last
    thing done before the report on the error stream, which ends the trace.
    When projection does not throw, no call threw. *)
Theorem projection_throws_only_what_a_call_threw :
  forall self lxData pc t r,
    run (ge_header_to_xml self lxData pc) = (t, r) ->
    (forall e, r = Throws e ->
       exists before ev,
         t = (before ++ [ev; ev_cerr (conversion_error_report e)])%list
         /\ raised_by e ev
         /\ Forall (fun ev => raises ev = false) before)
    /\ (forall status, r <> Exits status)
    /\ ((forall e, r <> Throws e) -> Forall (fun ev => raises ev = false) t).
Proof.
  intros self lxData pc t r Hrun.
  apply ge_header_to_xml_throws_from_calls in Hrun.
  split; [|split].
  - intros e ->. exact Hrun.
  - intros status ->. exact Hrun.
  - intros Hno. destruct r as [xml|e|n|]; try assumption; [|contradiction].
    now destruct (Hno e).
Qed.

Lemma ge_header_to_xml_handles self lxData pc t xml :
  run (ge_header_to_xml self lxData pc) = (t, Returns xml) ->
  exists lx p, lxData = Some lx /\ pc = Some p.
Proof.
  intros Hrun. apply ge_header_to_xml_returns in Hrun.
  destruct Hrun as (w & t' & w1 & _ & Hbody & ->).
  apply header_body_shape in Hbody.
  destruct Hbody as (lx & p & isEpi & Hlx & Hp & _). now exists lx, p.
Qed.

(** X5. [ge_header_to_xml] checks neither of its handles.  With a null
    [lxData] or a null [processingControl] it returns no document, and
    unless a call throws before the handle is used, the behaviour is
    undefined. *)
Theorem null_handle_is_dereferenced :
  forall self lxData pc t r,
    lxData = None \/ pc = None ->
    run (ge_header_to_xml self lxData pc) = (t, r) ->
    returned r = false
    /\ (Forall (fun ev => raises ev = false) t -> r = Undefined).
Proof.
  intros self lxData pc t r Hnull Hrun.
  assert (Hr : returned r = false).
  { destruct r as [xml|e|n|]; try reflexivity.
    apply ge_header_to_xml_handles in Hrun. destruct Hrun as (lx & p & -> & ->).
    destruct Hnull; discriminate. }
  split; [exact Hr|]. intros Hquiet.
  now apply (quiet_failure_is_undefined self lxData pc t r).
Qed.

Lemma div_by_int_zero (ty : integer_type) (count : Z) : div_by_int ty count 0 = None.
Proof. now destruct ty. Qed.

(** X6. The divisor NumSlices + 1 of [num_volumes] is not guarded against
    zero.  For an EPI header whose NumSlices is -1, projection returns no
    document, and unless a call throws before, the behaviour is undefined
    (an integer division by zero). *)
Theorem epi_divisor_is_not_guarded :
  forall self lx p t r,
    IsEpi lx = Ok true ->
    Value_int p "NumSlices" = Ok (-1) ->
    run (ge_header_to_xml self (Some lx) (Some p)) = (t, r) ->
    returned r = false
    /\ (Forall (fun ev => raises ev = false) t -> r = Undefined).
Proof.
  intros self lx p t r Hepi Hn Hrun.
  assert (Hr : returned r = false).
  { destruct r as [xml|e|n|]; try reflexivity. exfalso.
    apply ge_header_to_xml_returns in Hrun.
    destruct Hrun as (w & t' & w1 & _ & Hbody & ->).
    apply header_body_returns in Hbody.
    destruct Hbody as (lx' & isEpi & tf & te & w2 & w3 & Hlx & Hepi' & _ & Hblock & _).
    inversion Hlx; subst lx'. rewrite Hepi in Hepi'. inversion Hepi'; subst isEpi.
    apply epi_block_returns in Hblock.
    destruct Hblock as (storage & count & p' & n' & i & m & top & y & bot & v
                        & _ & _ & Hp & Hn' & Hd & Hv & _).
    inversion Hp; subst p'. rewrite Hn in Hn'. inversion Hn'; subst n'.
    change (-1 + 1) with 0 in Hv. rewrite div_by_int_zero in Hv. discriminate. }
  split; [exact Hr|]. intros Hquiet.
  now apply (quiet_failure_is_undefined self (Some lx) (Some p) t r).
Qed.

(** *** Header generation: how it ends *)

Lemma transform_returns_iff sheet header out :
  snd (run (transform sheet header)) = Returns out <-> transforms sheet header out.
Proof.
  split.
  - unfold transforms, transform, run, stage, try_catch, bind, engine, non_null, log,
      emit, ret, throw, catch_std_exception.
    cbn [fst snd].
    destruct (xmlParseMemory sheet) as [[doc|] d1]; cbn; [|discriminate].
    destruct (xsltParseStylesheetDoc doc) as [[compiled|] d2] eqn:E2; cbn;
      [|discriminate].
    destruct (xmlParseMemory header) as [[hdoc|] d3]; cbn; [|discriminate].
    destruct (xsltApplyStylesheet compiled hdoc) as [[res|] d4] eqn:E4; cbn;
      [|discriminate].
    destruct (xsltSaveResultToString res compiled) as [[rc text] d5] eqn:E5; cbn.
    destruct (rc <? 0) eqn:Erc; cbn; [discriminate|].
    intros H. inversion H; subst text.
    exists doc, compiled, hdoc, res, rc. rewrite E2, E4, E5.
    repeat split. now apply Z.ltb_ge.
  - intros (doc & compiled & hdoc & res & rc & H1 & H2 & H3 & H4 & H5 & Hrc).
    unfold transform, run, stage, try_catch, bind, engine, non_null, log,
      emit, ret, throw, catch_std_exception.
    cbn [fst snd].
    destruct (xmlParseMemory sheet) as [p1 d1]. simpl in H1. subst p1. cbn.
    destruct (xsltParseStylesheetDoc doc) as [p2 d2]. simpl in H2. subst p2. cbn.
    destruct (xmlParseMemory header) as [p3 d3]. simpl in H3. subst p3. cbn.
    destruct (xsltApplyStylesheet compiled hdoc) as [p4 d4]. simpl in H4. subst p4. cbn.
    destruct (xsltSaveResultToString res compiled) as [p5 d5]. simpl in H5. subst p5. cbn.
    replace (rc <? 0) with false by (symmetry; now apply Z.ltb_ge).
    reflexivity.
Qed.

(** The transform throws only the error of a stage whose engine call
    failed, right after that call; it neither exits nor runs into undefined
    behaviour, and writes nothing on the error stream. *)
Lemma transform_ends sheet header t r :
  run (transform sheet header) = (t, r) ->
  Forall (fun ev => is_cerr ev = false) t
  /\ match r with
     | Returns _ => True
     | Throws e =>
         exists c diagnostic,
           e = runtime_error (stage_failure c)
           /\ exists before, t = (before ++ [ev_engine c true diagnostic])%list
     | _ => False
     end.
Proof.
  unfold transform, run, stage, try_catch, bind, engine, non_null, log, emit, ret, throw,
    catch_std_exception.
  cbn [fst snd].
  destruct (xmlParseMemory sheet) as [[doc|] d1]; cbn.
  2:{ intros H; inversion H; subst; clear H. split; [now repeat constructor|].
      exists call_xmlParseMemory_stylesheet, d1. split; [reflexivity|].
      ends_with_last_event. }
  destruct (xsltParseStylesheetDoc doc) as [[compiled|] d2]; cbn.
  2:{ intros H; inversion H; subst; clear H. split; [now repeat constructor|].
      exists call_xsltParseStylesheetDoc, d2. split; [reflexivity|].
      ends_with_last_event. }
  destruct (xmlParseMemory header) as [[hdoc|] d3]; cbn.
  2:{ intros H; inversion H; subst; clear H. split; [now repeat constructor|].
      exists call_xmlParseMemory_header, d3. split; [reflexivity|].
      ends_with_last_event. }
  destruct (xsltApplyStylesheet compiled hdoc) as [[res|] d4]; cbn.
  2:{ intros H; inversion H; subst; clear H. split; [now repeat constructor|].
      exists call_xsltApplyStylesheet, d4. split; [reflexivity|].
      ends_with_last_event. }
  destruct (xsltSaveResultToString res compiled) as [[rc text] d5]; cbn.
  destruct (rc <? 0); cbn.
  - intros H; inversion H; subst; clear H. split; [now repeat constructor|].
    exists call_xsltSaveResultToString, d5. split; [reflexivity|].
    ends_with_last_event.
  - intros H; inversion H; subst; clear H. split; [now repeat constructor|exact I].
Qed.

Lemma empty_false (s : string) : empty s = false -> s <> "".
Proof. intros H ->. discriminate. Qed.

(** X7. An exception that leaves [getIsmrmrdXMLHeader] has one of four
    causes: no stylesheet is stored; projection threw (the exception is then
    wrapped, or passed through when it is no [std::exception]); projection
    returned the empty text; or an engine call of the transform failed (the
    error of that stage).  The trace ends with the report of the exception
    on the error stream when it is a [std::exception]. *)
Theorem header_generation_failures :
  forall self t e,
    run (getIsmrmrdXMLHeader self) = (t, Throws e) ->
    ((stylesheet_ self = "" /\ e = runtime_error "No stylesheet configured.")
     \/ (exists tp e0,
           run (ge_header_to_xml self (lxData_ self) (processingControl_ self))
             = (tp, Throws e0)
           /\ e = projection_failure e0)
     \/ (exists tp,
           run (ge_header_to_xml self (lxData_ self) (processingControl_ self))
             = (tp, Returns "")
           /\ e = runtime_error
                    "Failed to generate GE header from lxData and processingControl: Generated GE header is empty.")
     \/ (exists c diagnostic,
           In (ev_engine c true diagnostic) t
           /\ e = runtime_error (stage_failure c)))
    /\ exists before, t = (before ++ header_error_report e)%list.
Proof.
  intros self t e Hrun. rewrite getIsmrmrdXMLHeader_run in Hrun.
  destruct (empty (stylesheet_ self)) eqn:Esheet.
  { inversion Hrun; subst t e. apply empty_true in Esheet. split; [now left|].
    now exists []. }
  destruct (run (ge_header_to_xml self (lxData_ self) (processingControl_ self)))
    as [tp [header|e0|n|]]; try discriminate.
  - destruct (empty header) eqn:Eheader.
    { inversion Hrun; subst t e. apply empty_true in Eheader. subst header. split.
      - right. right. left. now exists tp.
      - now exists tp. }
    destruct (run (transform (stylesheet_ self) header)) as [t2 r2] eqn:Et.
    apply transform_ends in Et. destruct Et as (_ & Hend).
    cbn [fst snd] in Hrun. inversion Hrun; subst t r2; clear Hrun.
    destruct Hend as (c & d & -> & before & ->). split.
    + right. right. right. exists c, d. split; [|reflexivity].
      apply in_or_app. right. right. apply in_or_app. left. apply in_or_app. right.
      now left.
    + exists (tp ++ ev_cout ("Converted header as XML string is: " ++ header)
                 :: before ++ [ev_engine c true d])%list.
      rewrite <- !app_assoc, <- !app_comm_cons, <- !app_assoc. reflexivity.
  - inversion Hrun; subst t e. split.
    + right. left. now exists tp, e0.
    + now exists tp.
Qed.

(** X8. [getIsmrmrdXMLHeader] returns [out] exactly when a stylesheet is
    stored, projection returns a text that is not empty, and the five
    fallible engine calls succeed on the stylesheet and that text (no null
    document, no negative code from the save), [out] being the string that
    [xsltSaveResultToString] produced. *)
Theorem header_is_returned_iff_every_stage_succeeds :
  forall self out,
    snd (run (getIsmrmrdXMLHeader self)) = Returns out
    <-> (stylesheet_ self <> ""
         /\ exists header,
              snd (run (ge_header_to_xml self (lxData_ self) (processingControl_ self)))
                = Returns header
              /\ header <> ""
              /\ transforms (stylesheet_ self) header out).
Proof.
  intros self out. rewrite getIsmrmrdXMLHeader_run.
  destruct (empty (stylesheet_ self)) eqn:Esheet.
  { apply empty_true in Esheet. split; [discriminate|]. now intros (H & _). }
  apply empty_false in Esheet.
  destruct (run (ge_header_to_xml self (lxData_ self) (processingControl_ self)))
    as [tp [header|e0|n|]]; cbn [fst snd];
    try (split; [discriminate | intros (_ & h & H & _); discriminate]).
  destruct (empty header) eqn:Eheader.
  - apply empty_true in Eheader. subst header. split; [discriminate|].
    intros (_ & h & H & Hne & _). inversion H; subst h. now destruct Hne.
  - apply empty_false in Eheader. cbn [fst snd]. rewrite transform_returns_iff. split.
    + intros H. split; [assumption|]. now exists header.
    + intros (_ & h & H & _ & Ht). now inversion H; subst h.
Qed.

(** X9. The engine is called only after projection has returned a text
    that is not empty, with a stylesheet stored, and after that text has been
    written in full to the output stream: the trace of a call that reaches
    the engine is the trace of projection, then the line "Converted header
    as XML string is: " with the text, then the rest; projection itself
    calls no engine. *)
Theorem header_is_printed_before_it_is_transformed :
  forall self t r c failed diagnostic,
    run (getIsmrmrdXMLHeader self) = (t, r) ->
    In (ev_engine c failed diagnostic) t ->
    exists tp header rest,
      run (ge_header_to_xml self (lxData_ self) (processingControl_ self))
        = (tp, Returns header)
      /\ header <> ""
      /\ stylesheet_ self <> ""
      /\ t = (tp ++ ev_cout ("Converted header as XML string is: " ++ header)
                 :: rest)%list
      /\ engine_calls tp = [].
Proof.
  intros self t r c failed d Hrun Hin. rewrite getIsmrmrdXMLHeader_run in Hrun.
  assert (Hnone : forall t0 : trace,
            Forall (fun e => is_engine e = false) t0 -> t = t0 -> False).
  { intros t0 H0 ->. apply engine_calls_quiet in H0. destruct H0 as (_ & H0).
    exact (H0 c failed d Hin). }
  destruct (empty (stylesheet_ self)) eqn:Esheet.
  { inversion Hrun; subst. exfalso. eapply Hnone; [|reflexivity]. repeat constructor. }
  apply empty_false in Esheet.
  pose proof (ge_header_to_xml_no_engine self (lxData_ self) (processingControl_ self))
    as Hproj.
  destruct (run (ge_header_to_xml self (lxData_ self) (processingControl_ self)))
    as [tp [header|e0|n|]]; simpl in Hproj.
  - destruct (empty header) eqn:Eheader.
    { inversion Hrun; subst. exfalso. eapply Hnone; [|reflexivity].
      apply Forall_app. split; [assumption|]. repeat constructor. }
    apply empty_false in Eheader. cbn [fst snd] in Hrun.
    inversion Hrun; subst t r; clear Hrun.
    eexists tp, header, _. repeat split; try assumption; try reflexivity.
    now apply engine_calls_quiet.
  - inversion Hrun; subst. exfalso. eapply Hnone; [|reflexivity].
    apply Forall_app. split; [assumption|]. apply header_error_report_no_engine.
  - inversion Hrun; subst. exfalso. exact (Hnone _ Hproj eq_refl).
  - inversion Hrun; subst. exfalso. exact (Hnone _ Hproj eq_refl).
Qed.

Lemma filter_quiet (t : trace) :
  Forall (fun ev => is_cerr ev = false) t -> filter is_cerr t = [].
Proof.
  induction 1 as [|ev t Hev _ IH]; [reflexivity|]. simpl. now rewrite Hev.
Qed.

Lemma epi_block_no_cerr self lxData pc :
  always (fun ev => is_cerr ev = false) (epi_block self lxData pc).
Proof. unfold epi_block. always_decide. Qed.

(** X10. A call of [getIsmrmrdXMLHeader] that returns a header has
    written nothing to the error stream, or the one warning that the series
    description is empty. *)
Theorem returned_header_warns_at_most_about_the_description :
  forall self t out,
    run (getIsmrmrdXMLHeader self) = (t, Returns out) ->
    filter is_cerr t = []
    \/ filter is_cerr t = [ev_cerr "[WARNING] Series description is empty!"].
Proof.
  intros self t out Hrun. rewrite getIsmrmrdXMLHeader_run in Hrun.
  destruct (empty (stylesheet_ self)); [discriminate|].
  destruct (run (ge_header_to_xml self (lxData_ self) (processingControl_ self)))
    as [tp [header|e|n|]] eqn:Eproj; try discriminate.
  destruct (empty header); [discriminate|].
  destruct (run (transform (stylesheet_ self) header)) as [t2 r2] eqn:Et.
  apply transform_ends in Et. destruct Et as (Hquiet & _).
  cbn [fst snd] in Hrun. inversion Hrun; subst t r2; clear Hrun.
  apply ge_header_to_xml_returns in Eproj.
  destruct Eproj as (w & t' & w1 & _ & Hbody & ->).
  apply header_body_returns in Hbody.
  destruct Hbody as (lx & isEpi & tf & te & w2 & w3 & _ & _ & Hf & Hblock & ->).
  apply header_fields_returns in Hf. destruct Hf as (_ & _ & _ & Hwarn).
  assert (Hepi : Forall (fun ev => is_cerr ev = false) te).
  { destruct isEpi.
    - pose proof (epi_block_no_cerr self (lxData_ self) (processingControl_ self) w2)
        as Ha.
      now rewrite Hblock in Ha.
    - inversion Hblock. constructor. }
  assert (Hall : forall l : string,
            filter is_cerr
              ((ev_cout "[INFO] Starting conversion of raw file header to XML string."
                  :: ev_writer_new None
                  :: tf ++ ev_sdk call_IsEpi None :: te
                       ++ [ev_writer endElement None; ev_writer endDocument None;
                           ev_cout "[INFO] Successfully completed XML generation.";
                           ev_writer_getXML None])
                 ++ ev_cout l :: t2 ++ [])%list
            = filter is_cerr tf).
  { intros l. rewrite filter_app. cbn [filter is_cerr]. rewrite !filter_app.
    cbn [filter is_cerr]. rewrite !filter_app.
    rewrite (filter_quiet te Hepi), (filter_quiet t2 Hquiet). cbn [filter is_cerr app].
    now rewrite !app_nil_r. }
  rewrite Hall. exact Hwarn.
Qed.

(** *** Loading a stylesheet *)

(** X11. [useStylesheetFilename] on a path that cannot be opened, or on an
    empty file, reports nothing: it logs the path and stores the empty
    stylesheet in place of the one stored before, and the next
    [getIsmrmrdXMLHeader] throws "No stylesheet configured.". *)
Theorem missing_stylesheet_file_is_not_reported :
  forall fs self filename,
    fs (c_str filename) = None \/ fs (c_str filename) = Some "" ->
    useStylesheetFilename fs self filename
      = ([ev_log ("Loading stylesheet: " ++ filename)], useStylesheetString self "")
    /\ run (getIsmrmrdXMLHeader (snd (useStylesheetFilename fs self filename)))
       = ([ev_cerr "Error in getIsmrmrdXMLHeader(): No stylesheet configured."],
          Throws (runtime_error "No stylesheet configured.")).
Proof.
  intros fs self filename Hfile.
  assert (Hload : useStylesheetFilename fs self filename
                  = ([ev_log ("Loading stylesheet: " ++ filename)],
                     useStylesheetString self "")).
  { unfold useStylesheetFilename, useStylesheetStream, ifstream_open.
    destruct Hfile as [-> | ->]; reflexivity. }
  split; [exact Hload|].
  rewrite Hload, getIsmrmrdXMLHeader_run. reflexivity.
Qed.

Lemma substring_empty (s : string) : forall n, String.substring n 0 s = "".
Proof.
  induction s as [|c s IH]; intros [|n]; simpl; try reflexivity. apply IH.
Qed.

(** X12. [useStylesheetStream] on an open stream that has not failed
    stores the whole file and leaves the caller's stream at the end of the
    file with no state bit set and nothing left to read; a second call with
    the stream as it was left stores the same stylesheet and leaves the
    stream the same. *)
Theorem stylesheet_stream_is_left_at_its_end :
  forall self stream bytes,
    filebuf stream = Some bytes ->
    failbit stream = false ->
    badbit stream = false ->
    stylesheet_ (fst (useStylesheetStream self stream)) = bytes
    /\ snd (useStylesheetStream self stream)
       = {| filebuf := Some bytes; gpos := String.length bytes;
            eofbit := false; failbit := false; badbit := false |}
    /\ istreambuf_rest (snd (useStylesheetStream self stream)) = ""
    /\ useStylesheetStream (fst (useStylesheetStream self stream))
         (snd (useStylesheetStream self stream))
       = useStylesheetStream self stream.
Proof.
  intros self stream bytes Hbuf Hfail Hbad.
  assert (Hafter : snd (useStylesheetStream self stream)
                   = {| filebuf := Some bytes; gpos := String.length bytes;
                        eofbit := false; failbit := false; badbit := false |}).
  { unfold useStylesheetStream, seekg_beg, istreambuf_drain.
    rewrite Hfail, Hbad, Hbuf. reflexivity. }
  assert (Hsheet : fst (useStylesheetStream self stream) = useStylesheetString self bytes).
  { unfold useStylesheetStream. cbn [fst].
    now rewrite (rewound_stream_reads_all stream bytes). }
  split; [now rewrite Hsheet|]. split; [exact Hafter|]. split.
  - rewrite Hafter. unfold istreambuf_rest. cbn [filebuf gpos].
    rewrite Nat.sub_diag. apply substring_empty.
  - rewrite (surjective_pairing (useStylesheetStream self stream)) at 3.
    rewrite Hafter, Hsheet. unfold useStylesheetStream at 1.
    rewrite (rewound_stream_reads_all _ bytes) by reflexivity.
    unfold seekg_beg, istreambuf_drain. reflexivity.
Qed.

(** *** Construction: the order of its two steps *)

Lemma open_raw_file_throws_from_calls rawFilePath :
  throws_from_calls (open_raw_file rawFilePath).
Proof.
  unfold open_raw_file.
  apply throws_from_calls_bind; [apply throws_from_calls_sdk|].
  intros [|]; throws_from_calls_steps.
Qed.

Lemma select_converter_cases classname :
  (exists c, class_name c = classname
             /\ select_converter classname tt = ([], Returns (c, tt)))
  \/ ((forall c, class_name c <> classname)
      /\ select_converter classname tt
         = ([ev_cerr ("Plugin class name: " ++ classname ++ " not implemented. Exiting...")],
            Exits EXIT_FAILURE)).
Proof.
  destruct (string_dec classname "GenericConverter") as [->|H1].
  { left. now exists GenericConverter. }
  destruct (string_dec classname "NIH2dfastConverter") as [->|H2].
  { left. now exists NIH2dfastConverter. }
  destruct (string_dec classname "NIHepiConverter") as [->|H3].
  { left. now exists NIHepiConverter. }
  right.
  assert (Hunknown : forall c, class_name c <> classname).
  { intros [] E; simpl in E; congruence. }
  split; [exact Hunknown|]. now apply select_converter_unknown.
Qed.

(** X13. The constructor opens the raw file before it looks at the class
    name.  It throws exactly when opening the file throws, with that
    exception and whatever the class name; it exits only with EXIT_FAILURE,
    only for a class name that is none of the three, and only after the file
    has been opened and its header loaded, the last event being the line on
    the error stream that names the class. *)
Theorem raw_file_is_opened_before_the_class_name_is_examined :
  forall rawFilePath classname logging t r,
    run (new_GERawConverter rawFilePath classname logging) = (t, r) ->
    (forall e, r = Throws e <-> snd (open_raw_file rawFilePath tt) = Throws e)
    /\ (forall e, r = Throws e -> t = ev_log "PSDName: " :: fst (open_raw_file rawFilePath tt))
    /\ (forall status,
          r = Exits status ->
          status = EXIT_FAILURE
          /\ (forall c, class_name c <> classname)
          /\ returned (snd (open_raw_file rawFilePath tt)) = true
          /\ t = (ev_log "PSDName: " :: fst (open_raw_file rawFilePath tt)
                    ++ [ev_cerr ("Plugin class name: " ++ classname
                                   ++ " not implemented. Exiting...")])%list).
Proof.
  intros rawFilePath classname logging t r Hrun.
  unfold run, new_GERawConverter, log in Hrun.
  rewrite bind_emit, bind_outcome in Hrun. cbn [fst snd] in Hrun.
  pose proof (open_raw_file_throws_from_calls rawFilePath tt) as Hopen.
  destruct (open_raw_file rawFilePath tt)
    as [t0 [[[[[[sa pf] lx] pc] ty] []]|e0|n|]]; cbn [fst snd] in *.
  - destruct (select_converter_cases classname) as [(c & Hc & Hsel)|(Hunknown & Hsel)].
    + rewrite (bind_continues _ _ tt [] c tt Hsel) in Hrun. cbn in Hrun.
      inversion Hrun; subst t r. split; [|split]; try discriminate.
      intros e. split; discriminate.
    + rewrite (bind_exits _ _ tt _ EXIT_FAILURE Hsel) in Hrun. cbn in Hrun.
      inversion Hrun; subst t r. split; [|split]; try discriminate.
      * intros e. split; discriminate.
      * intros status H. inversion H. repeat split. exact Hunknown.
  - inversion Hrun; subst t r. split; [|split]; try discriminate.
    + intros e. split; intros H; inversion H; reflexivity.
    + reflexivity.
  - contradiction.
  - inversion Hrun; subst t r. split; [|split]; try discriminate.
    intros e. split; discriminate.
Qed.

(** X14. The constructor stores no stylesheet: on the session it returns,
    [getIsmrmrdXMLHeader] throws "No stylesheet configured." and does
    nothing else, and once a stylesheet that is not empty has been stored
    the call starts projection. *)
Theorem fresh_session_refuses_header_generation :
  forall rawFilePath classname logging t self,
    run (new_GERawConverter rawFilePath classname logging) = (t, Returns self) ->
    run (getIsmrmrdXMLHeader self)
      = ([ev_cerr "Error in getIsmrmrdXMLHeader(): No stylesheet configured."],
         Throws (runtime_error "No stylesheet configured."))
    /\ forall sheet,
         sheet <> "" ->
         exists rest,
           fst (run (getIsmrmrdXMLHeader (useStylesheetString self sheet)))
           = ev_cout "[INFO] Starting conversion of raw file header to XML string."
               :: rest.
Proof.
  intros rawFilePath classname logging t self Hnew.
  apply new_GERawConverter_returns in Hnew.
  destruct Hnew as (t0 & sa & pf & lx & pc & ty & c & _ & _ & ->).
  split; [now rewrite getIsmrmrdXMLHeader_run|].
  intros sheet Hsheet. rewrite getIsmrmrdXMLHeader_run.
  cbn [stylesheet_ useStylesheetString lxData_ processingControl_].
  destruct (empty sheet) eqn:E; [apply empty_true in E; contradiction|].
  rewrite ge_header_to_xml_run.
  destruct xw_new as [w|e]; [|eexists; reflexivity].
  match goal with
  | |- context [snd (header_body ?s ?l ?p w)] =>
      destruct (snd (header_body s l p w)) as [[header w1]|e|n|]
  end; try (eexists; reflexivity).
  destruct (empty header); eexists; reflexivity.
Qed.

End SessionFacts.

(* ------------------------------------------------------------------ *)
(** * The end-to-end scenario *)

(** C1, on the EPI scan: 300 control packets over 29 slices give
    [num_volumes] 10. *)
Lemma num_volumes_of_epi_scan :
  In (formatElement "num_volumes" "%d" (arg_int 10))
     (writer_calls (fst (projection_of epi_archive_scan))).
Proof.
  apply (@num_volumes_is_truncated_quotient last_argument_first
           (file_orchestra epi_archive_scan) recording_writer
           (session_of epi_archive_scan "NIHepiConverter") tt false
           (fst (projection_of epi_archive_scan))
           (text_of (snd (projection_of epi_archive_scan))) tt 300 29).
  - vm_compute. reflexivity.
  - reflexivity.
  - reflexivity.
  - reflexivity.
  - reflexivity.
  - right. unfold INT_MAX. lia.
Defined.

(** C2, on the EPI scan: the block is there, two extra frames on top and
    one at the bottom give [NumRefViews] 3, and the document returned is the
    text of the recording writer after these calls, with the block in it. *)
Lemma epiParameters_of_epi_scan :
  In (startElement "epiParameters")
     (writer_calls (fst (projection_of epi_archive_scan)))
  /\ In (formatElement "NumRefViews" "%d" (arg_int 3))
        (writer_calls (fst (projection_of epi_archive_scan)))
  /\ @document_of recording_writer
       (writer_calls (fst (projection_of epi_archive_scan)))
     = Ok (text_of (snd (projection_of epi_archive_scan)))
  /\ contains "<epiParameters>" (text_of (snd (projection_of epi_archive_scan)))
     = true
  /\ contains "<NumRefViews>3</>" (text_of (snd (projection_of epi_archive_scan)))
     = true.
Proof.
  destruct (@epiParameters_iff_epi last_argument_first
              (file_orchestra epi_archive_scan) recording_writer
              (session_of epi_archive_scan "NIHepiConverter") (Some tt) (Some false)
              (fst (projection_of epi_archive_scan))
              (text_of (snd (projection_of epi_archive_scan)))
              ltac:(vm_compute; reflexivity))
    as (Hdoc & lx & isEpi & _ & Hepi & Hiff & Hblock).
  vm_compute in Hepi. inversion Hepi; subst isEpi.
  split; [now apply Hiff|].
  split; [|split; [exact Hdoc | split; vm_compute; reflexivity]].
  destruct (Hblock eq_refl)
    as (before & i & m & top & y & bot & v & Hreads & Hcalls).
  destruct Hreads as (cs & epi & _ & Hc & _ & _ & Htop & _ & Hbot).
  vm_compute in Hc. inversion Hc; subst epi.
  vm_compute in Htop. inversion Htop; subst top.
  vm_compute in Hbot. inversion Hbot; subst bot.
  rewrite Hcalls. apply in_or_app. right. apply in_or_app. left.
  unfold epi_parameters. simpl. auto 10.
Defined.

(** C3, on the class name NoSuchConverter: the constructor exits. *)
Lemma unknown_class_name_exits :
  snd (run (@new_GERawConverter (file_orchestra epi_archive_scan)
              "scan.h5" "NoSuchConverter" false)) = Exits EXIT_FAILURE
  /\ Forall (fun e => is_projection_or_transform e = false)
            (fst (run (@new_GERawConverter (file_orchestra epi_archive_scan)
                         "scan.h5" "NoSuchConverter" false))).
Proof.
  destruct (@converter_selected_by_exact_class_name
              (file_orchestra epi_archive_scan) "scan.h5" "NoSuchConverter" false
              _ _ eq_refl) as (_ & _ & Hunknown & Hquiet).
  split; [|exact Hquiet].
  destruct Hunknown as (_ & Hexit); [intros []; discriminate|].
  eapply Hexit. vm_compute. reflexivity.
Defined.

(** C4, on the EPI scan stored as a P-File: the session holds no scan
    archive, the header reports EPI, and projection, once it has read the
    EPI flag, calls [ArchiveStorage::Create] on null. *)
Lemma pfile_epi_scan_creates_storage_from_null :
  scanArchive_ (session_of epi_pfile_scan "NIHepiConverter") = None
  /\ exists threw,
       In (ev_sdk (call_ArchiveStorage_Create true) threw)
          (fst (projection_of epi_pfile_scan)).
Proof.
  destruct (@epi_projection_uses_scanArchive_member last_argument_first
              (file_orchestra epi_pfile_scan) recording_writer
              "scan.h5" "NIHepiConverter" false
              (fst (run (@new_GERawConverter (file_orchestra epi_pfile_scan)
                           "scan.h5" "NIHepiConverter" false)))
              (session_of epi_pfile_scan "NIHepiConverter")
              ltac:(vm_compute; reflexivity))
    as (Hpfile & _ & Hproj).
  destruct (Hpfile eq_refl) as (_ & Hnull). split; [exact Hnull|].
  destruct (Hproj (fst (projection_of epi_pfile_scan)) (snd (projection_of epi_pfile_scan))
              ltac:(vm_compute; reflexivity)) as (_ & Hepi & _).
  destruct (Hepi tt eq_refl eq_refl) as (Hasked & _).
  destruct Hasked as [(threw & Hin)|(e & _ & Hin)].
  - vm_compute. repeat (first [left; reflexivity | right]).
  - exists threw. exact Hin.
  - exfalso. destruct Hin as [Hin|Hin]; vm_compute in Hin;
      repeat (destruct Hin as [Hin|Hin]; [discriminate Hin|]); exact Hin.
Defined.

(** C5, on the EPI scan with NumSlices unreadable: projection and header
    generation fail with the exception of the lookup. *)
Lemma unreadable_NumSlices_fails_projection :
  snd (projection_of unreadable_scan)
    = Throws lookup_failure
  /\ snd (header_of unreadable_scan "<xsl:stylesheet/>")
     = Throws (projection_failure lookup_failure).
Proof.
  destruct (@projection_fails_fast last_argument_first
              (file_orchestra unreadable_scan)
              recording_writer identity_engine
              (useStylesheetString
                 (session_of unreadable_scan
                    "NIHepiConverter")
                 "<xsl:stylesheet/>")
              (fst (projection_of unreadable_scan))
              (snd (projection_of unreadable_scan))
              (call_Value T_int "NumSlices") lookup_failure
              ltac:(vm_compute; reflexivity)
              ltac:(vm_compute; repeat (first [left; reflexivity | right])))
    as (Hr & _ & Hheader).
  split; [exact Hr|]. apply Hheader. discriminate.
Defined.

(** The read of NumSlices throws, and neither the exception of projection
    nor the one of header generation names NumSlices; a series description
    that comes back empty is warned about and projected as it is. *)
Lemma unreadable_field_is_not_named :
  In (ev_sdk (call_Value T_int "NumSlices") (Some (std_exception "bad any_cast")))
     (fst (projection_of unreadable_scan))
  /\ snd (projection_of unreadable_scan) = Throws (std_exception "bad any_cast")
  /\ contains "NumSlices" "bad any_cast" = false
  /\ snd (header_of unreadable_scan "<xsl:stylesheet/>")
     = Throws (runtime_error
                 "Failed to generate GE header from lxData and processingControl: bad any_cast")
  /\ contains "NumSlices"
       "Failed to generate GE header from lxData and processingControl: bad any_cast"
     = false
  /\ In (ev_cerr "[WARNING] Series description is empty!")
        (fst (projection_of undescribed_scan))
  /\ In (formatElement "Description" "%s" (arg_cstr ""))
        (writer_calls (fst (projection_of undescribed_scan)))
  /\ returned (snd (projection_of undescribed_scan)) = true.
Proof.
  split; [vm_compute; repeat (first [left; reflexivity | right])|].
  do 4 (split; [vm_compute; reflexivity|]).
  split; [vm_compute; repeat (first [left; reflexivity | right])|].
  split; [vm_compute; repeat (first [left; reflexivity | right])|].
  vm_compute. reflexivity.
Qed.

(** C6, on a stylesheet that is no XML: the first parse fails. *)
Lemma non_xml_stylesheet_fails_first_parse :
  snd (header_of epi_archive_scan "body { color: red }")
    = Throws (runtime_error (stage_failure call_xmlParseMemory_stylesheet))
  /\ engine_calls (fst (header_of epi_archive_scan "body { color: red }"))
     = firstn 3 transform_pipeline.
Proof.
  destruct (@transform_stage_failures last_argument_first
              (file_orchestra epi_archive_scan) recording_writer identity_engine
              (useStylesheetString (session_of epi_archive_scan "NIHepiConverter")
                 "body { color: red }")
              (fst (header_of epi_archive_scan "body { color: red }"))
              (snd (header_of epi_archive_scan "body { color: red }"))
              ltac:(vm_compute; reflexivity))
    as (_ & Hfail).
  destruct (Hfail call_xmlParseMemory_stylesheet "Start tag expected, '<' not found"
              ltac:(vm_compute; repeat (first [left; reflexivity | right])))
    as (Hr & _).
  split; [exact Hr|]. vm_compute. reflexivity.
Defined.

(** The engine reports "Start tag expected, '<' not found"; the exception
    names the stage and holds nothing of that diagnostic. *)
Lemma engine_diagnostic_is_dropped :
  In (ev_engine call_xmlParseMemory_stylesheet true "Start tag expected, '<' not found")
     (fst (header_of epi_archive_scan "body { color: red }"))
  /\ snd (header_of epi_archive_scan "body { color: red }")
     = Throws (runtime_error
                 "Failed to parse stylesheet from memory: Parsed stylesheet_doc is NULL.")
  /\ contains "Start tag expected, '<' not found"
       "Failed to parse stylesheet from memory: Parsed stylesheet_doc is NULL."
     = false.
Proof.
  split; [vm_compute; repeat (first [left; reflexivity | right])|].
  split; vm_compute; reflexivity.
Qed.

(** C7, on a session fresh from the constructor: no stylesheet is stored
    and header generation is refused. *)
Lemma fresh_session_has_no_stylesheet :
  stylesheet_ (session_of epi_archive_scan "NIHepiConverter") = ""
  /\ run (@getIsmrmrdXMLHeader last_argument_first (file_orchestra epi_archive_scan) recording_writer
            identity_engine (session_of epi_archive_scan "NIHepiConverter"))
     = ([ev_cerr "Error in getIsmrmrdXMLHeader(): No stylesheet configured."],
        Throws (runtime_error "No stylesheet configured.")).
Proof.
  split; [reflexivity|].
  apply (@empty_stylesheet_is_rejected last_argument_first (file_orchestra epi_archive_scan)
           recording_writer identity_engine
           (session_of epi_archive_scan "NIHepiConverter")).
  reflexivity.
Defined.

(** C8, on the stylesheet file and a stream on it that stands in the
    middle after having met the end of the file. *)
Lemma stylesheet_entry_points_on_file :
  snd (useStylesheetFilename one_stylesheet
         (session_of epi_archive_scan "NIHepiConverter") "epi.xsl")
    = useStylesheetString (session_of epi_archive_scan "NIHepiConverter")
        "<xsl:stylesheet/>"
  /\ fst (useStylesheetStream (session_of epi_archive_scan "NIHepiConverter")
            midway_stream)
     = useStylesheetString (session_of epi_archive_scan "NIHepiConverter")
         "<xsl:stylesheet/>"
  /\ stylesheet_ (useStylesheetString (session_of epi_archive_scan "NIHepiConverter")
                    "<xsl:stylesheet/>")
     = "<xsl:stylesheet/>".
Proof.
  apply (@stylesheet_entry_points_agree (file_orchestra epi_archive_scan)
           one_stylesheet (session_of epi_archive_scan "NIHepiConverter")
           "epi.xsl" "<xsl:stylesheet/>" midway_stream);
    reflexivity.
Defined.

(** A stream on the stylesheet file that has failed is not rewound: the
    stream entry point stores the empty text, the string entry point the
    text of the file. *)
Lemma failed_stream_is_not_rewound :
  filebuf drained_stream = Some "<xsl:stylesheet/>"
  /\ stylesheet_ (fst (useStylesheetStream
                         (session_of epi_archive_scan "NIHepiConverter")
                         drained_stream))
     = ""
  /\ stylesheet_ (useStylesheetString
                    (session_of epi_archive_scan "NIHepiConverter")
                    "<xsl:stylesheet/>")
     = "<xsl:stylesheet/>".
Proof. repeat split. Qed.


(* ------------------------------------------------------------------ *)
(** * Further properties, on the end-to-end scenario *)

(** X1, on the EPI scan: the fixed elements, the EPI block, the two
    closing calls. *)
Lemma shape_of_the_epi_document :
  map shape_of (writer_calls (fst (projection_of epi_archive_scan)))
  = (header_shape ++ epi_shape ++ [closes; document_end])%list.
Proof.
  destruct (@projected_document_has_a_fixed_shape last_argument_first
              (file_orchestra epi_archive_scan) recording_writer
              (session_of epi_archive_scan "NIHepiConverter") (Some tt) (Some false)
              (fst (projection_of epi_archive_scan))
              (text_of (snd (projection_of epi_archive_scan)))
              ltac:(vm_compute; reflexivity))
    as (lx & isEpi & _ & Hepi & Hshape).
  vm_compute in Hepi. inversion Hepi; subst isEpi. exact Hshape.
Defined.

(** X2, on the EPI scan: five elements are open when the document is
    ended. *)
Lemma epi_document_is_ended_with_five_elements_open :
  exists before,
    map shape_of (writer_calls (fst (projection_of epi_archive_scan)))
    = (before ++ [document_end])%list
    /\ open_elements before [] = ["Equipment"; "Patient"; "Study"; "Series"; "Header"].
Proof.
  exact (@document_is_ended_with_five_elements_open last_argument_first
           (file_orchestra epi_archive_scan) recording_writer
           (session_of epi_archive_scan "NIHepiConverter") (Some tt) (Some false)
           (fst (projection_of epi_archive_scan))
           (text_of (snd (projection_of epi_archive_scan)))
           ltac:(vm_compute; reflexivity)).
Defined.

(** X3, on the EPI scan: the slice count 29 and the exam number 1207. *)
Lemma control_values_of_the_epi_scan :
  In (formatElement "SliceCount" "%d" (arg_int 29))
     (firstn 7 (writer_calls (fst (projection_of epi_archive_scan))))
  /\ In (formatElement "Number" "%u" (arg_int 1207))
        (writer_calls (fst (projection_of epi_archive_scan))).
Proof.
  destruct (@header_elements_hold_the_control_values last_argument_first
              (file_orchestra epi_archive_scan) recording_writer
              (session_of epi_archive_scan "NIHepiConverter") (Some tt) (Some false)
              (fst (projection_of epi_archive_scan))
              (text_of (snd (projection_of epi_archive_scan)))
              ltac:(vm_compute; reflexivity))
    as (lx & p & is3D & isCal & asset & slices & channels & series & exam & coil
        & _ & Hp & _ & _ & _ & Hslices & _ & _ & Hexam & _ & Hfirst & _ & Hnumber & _).
  inversion Hp; subst p.
  vm_compute in Hslices. inversion Hslices; subst slices.
  vm_compute in Hexam. inversion Hexam; subst exam.
  split; [|exact Hnumber].
  rewrite Hfirst. simpl. auto 10.
Defined.

(** X4, on the EPI scan with NumSlices unreadable: what projection throws
    is what the lookup threw, reported once. *)
Lemma unreadable_NumSlices_is_the_last_call :
  exists before ev,
    fst (projection_of unreadable_scan)
    = (before ++ [ev; ev_cerr "[ERROR] Exception caught during XML conversion: bad any_cast"])%list
    /\ raised_by lookup_failure ev
    /\ Forall (fun ev => raises ev = false) before.
Proof.
  destruct (@projection_throws_only_what_a_call_threw last_argument_first
              (file_orchestra unreadable_scan) recording_writer
              (session_of unreadable_scan "NIHepiConverter") (Some tt) (Some false)
              (fst (projection_of unreadable_scan))
              (snd (projection_of unreadable_scan))
              ltac:(vm_compute; reflexivity))
    as (Hthrows & _ & _).
  exact (Hthrows lookup_failure ltac:(vm_compute; reflexivity)).
Defined.

(** X5, on a session whose handles are null: projection is undefined. *)
Lemma null_session_projection_is_undefined :
  snd projection_of_null_session = Undefined.
Proof.
  destruct (@null_handle_is_dereferenced last_argument_first
              (file_orchestra epi_archive_scan) recording_writer
              null_session None None
              (fst projection_of_null_session) (snd projection_of_null_session)
              (or_introl eq_refl) ltac:(vm_compute; reflexivity))
    as (_ & Hquiet).
  apply Hquiet. vm_compute. repeat constructor.
Defined.

(** X6, on the EPI scan with NumSlices -1: the division by zero. *)
Lemma sliceless_scan_projection_is_undefined :
  snd (projection_of sliceless_scan) = Undefined.
Proof.
  destruct (@epi_divisor_is_not_guarded last_argument_first
              (file_orchestra sliceless_scan) recording_writer
              (session_of sliceless_scan "NIHepiConverter") tt false
              (fst (projection_of sliceless_scan)) (snd (projection_of sliceless_scan))
              eq_refl eq_refl
              ltac:(vm_compute; reflexivity))
    as (_ & Hquiet).
  apply Hquiet. vm_compute. repeat constructor.
Defined.

(** X7, on a writer whose text is empty: header generation reports the
    empty header. *)
Lemma blank_header_is_reported :
  exists before,
    fst (blank_header_of epi_archive_scan "<xsl:stylesheet/>")
    = (before
         ++ [ev_cerr "Error in getIsmrmrdXMLHeader(): Failed to generate GE header from lxData and processingControl: Generated GE header is empty."])%list.
Proof.
  destruct (@header_generation_failures last_argument_first
              (file_orchestra epi_archive_scan) blank_writer identity_engine
              (useStylesheetString (session_of epi_archive_scan "NIHepiConverter")
                 "<xsl:stylesheet/>")
              (fst (blank_header_of epi_archive_scan "<xsl:stylesheet/>"))
              (runtime_error
                 "Failed to generate GE header from lxData and processingControl: Generated GE header is empty.")
              ltac:(vm_compute; reflexivity))
    as (_ & Hreport).
  exact Hreport.
Defined.

(** X8, on the EPI scan and the identity engine: the header returned is
    the projected document. *)
Lemma epi_header_is_the_projected_document :
  snd (header_of epi_archive_scan "<xsl:stylesheet/>")
  = Returns (text_of (snd (projection_of epi_archive_scan))).
Proof.
  apply (proj2 (@header_is_returned_iff_every_stage_succeeds last_argument_first
                  (file_orchestra epi_archive_scan) recording_writer identity_engine
                  (useStylesheetString (session_of epi_archive_scan "NIHepiConverter")
                     "<xsl:stylesheet/>")
                  (text_of (snd (projection_of epi_archive_scan))))).
  split; [discriminate|].
  exists (text_of (snd (projection_of epi_archive_scan))).
  split; [vm_compute; reflexivity|]. split; [vm_compute; discriminate|].
  exists "<xsl:stylesheet/>", "<xsl:stylesheet/>",
    (text_of (snd (projection_of epi_archive_scan))),
    (text_of (snd (projection_of epi_archive_scan))), 0.
  repeat split; try (vm_compute; reflexivity). vm_compute. discriminate.
Defined.

(** X9, on the EPI scan: the projected document is on the output stream
    before the engine sees it. *)
Lemma epi_header_is_printed :
  exists rest,
    fst (header_of epi_archive_scan "<xsl:stylesheet/>")
    = (fst (projection_of epi_archive_scan)
         ++ ev_cout ("Converted header as XML string is: "
                       ++ text_of (snd (projection_of epi_archive_scan)))
         :: rest)%list.
Proof.
  destruct (@header_is_printed_before_it_is_transformed last_argument_first
              (file_orchestra epi_archive_scan) recording_writer identity_engine
              (useStylesheetString (session_of epi_archive_scan "NIHepiConverter")
                 "<xsl:stylesheet/>")
              (fst (header_of epi_archive_scan "<xsl:stylesheet/>"))
              (snd (header_of epi_archive_scan "<xsl:stylesheet/>"))
              call_xmlParseMemory_header false ""
              ltac:(vm_compute; reflexivity)
              ltac:(vm_compute; repeat (first [left; reflexivity | right])))
    as (tp & header & rest & Hproj & _ & _ & Ht & _).
  assert (Htp : tp = fst (projection_of epi_archive_scan)).
  { change tp with (fst (tp, Returns header)). rewrite <- Hproj. reflexivity. }
  assert (Hheader : header = text_of (snd (projection_of epi_archive_scan))).
  { change header with (text_of (snd (tp, Returns header))). rewrite <- Hproj.
    reflexivity. }
  exists rest. rewrite Ht, Htp, Hheader. reflexivity.
Defined.

(** X10, on the EPI scan with an empty series description: the one
    warning. *)
Lemma undescribed_scan_warns_once :
  filter is_cerr (fst (header_of undescribed_scan "<xsl:stylesheet/>"))
  = [ev_cerr "[WARNING] Series description is empty!"].
Proof.
  destruct (@returned_header_warns_at_most_about_the_description last_argument_first
              (file_orchestra undescribed_scan) recording_writer identity_engine
              (useStylesheetString (session_of undescribed_scan "NIHepiConverter")
                 "<xsl:stylesheet/>")
              (fst (header_of undescribed_scan "<xsl:stylesheet/>"))
              (text_of (snd (header_of undescribed_scan "<xsl:stylesheet/>")))
              ltac:(vm_compute; reflexivity))
    as [Hnone|Hone].
  - vm_compute in Hnone. discriminate Hnone.
  - exact Hone.
Defined.

(** X11, on a path that is not in the file system: the stylesheet loaded
    before is gone, and header generation is refused. *)
Lemma missing_stylesheet_erases_the_loaded_one :
  useStylesheetFilename one_stylesheet
    (useStylesheetString (session_of epi_archive_scan "NIHepiConverter")
       "<xsl:stylesheet/>")
    "missing.xsl"
  = ([ev_log "Loading stylesheet: missing.xsl"],
     useStylesheetString
       (useStylesheetString (session_of epi_archive_scan "NIHepiConverter")
          "<xsl:stylesheet/>")
       "")
  /\ run (@getIsmrmrdXMLHeader last_argument_first (file_orchestra epi_archive_scan) recording_writer
            identity_engine
            (snd (useStylesheetFilename one_stylesheet
                    (useStylesheetString
                       (session_of epi_archive_scan "NIHepiConverter")
                       "<xsl:stylesheet/>")
                    "missing.xsl")))
     = ([ev_cerr "Error in getIsmrmrdXMLHeader(): No stylesheet configured."],
        Throws (runtime_error "No stylesheet configured.")).
Proof.
  apply (@missing_stylesheet_file_is_not_reported last_argument_first
           (file_orchestra epi_archive_scan) recording_writer identity_engine
           one_stylesheet
           (useStylesheetString (session_of epi_archive_scan "NIHepiConverter")
              "<xsl:stylesheet/>")
           "missing.xsl").
  left. reflexivity.
Defined.

(** X12, on a stream that stands in the middle of the stylesheet: it is
    left at the end, and a second load stores the same text. *)
Lemma midway_stream_is_left_at_its_end :
  stylesheet_ (fst (useStylesheetStream
                      (session_of epi_archive_scan "NIHepiConverter") midway_stream))
    = "<xsl:stylesheet/>"
  /\ snd (useStylesheetStream
            (session_of epi_archive_scan "NIHepiConverter") midway_stream)
     = {| filebuf := Some "<xsl:stylesheet/>"; gpos := 17%nat;
          eofbit := false; failbit := false; badbit := false |}
  /\ istreambuf_rest
       (snd (useStylesheetStream
               (session_of epi_archive_scan "NIHepiConverter") midway_stream))
     = ""
  /\ useStylesheetStream
       (fst (useStylesheetStream
               (session_of epi_archive_scan "NIHepiConverter") midway_stream))
       (snd (useStylesheetStream
               (session_of epi_archive_scan "NIHepiConverter") midway_stream))
     = useStylesheetStream (session_of epi_archive_scan "NIHepiConverter") midway_stream.
Proof.
  apply (@stylesheet_stream_is_left_at_its_end (file_orchestra epi_archive_scan)
           (session_of epi_archive_scan "NIHepiConverter") midway_stream
           "<xsl:stylesheet/>");
    reflexivity.
Defined.

(** X13, on a file that [Pfile::Create] refuses and a class name that does
    not exist: the constructor throws what [Pfile::Create] threw, and the
    class name is not reported. *)
Lemma refused_file_hides_the_unknown_class_name :
  run (@new_GERawConverter (refused_pfile epi_pfile_scan)
         "scan.7" "NoSuchConverter" false)
  = ([ev_log "PSDName: ";
      ev_sdk (call_IsArchiveFilePath "scan.7") None;
      ev_sdk (call_Pfile_Create "scan.7") (Some (std_exception "not a P-File"))],
     Throws (std_exception "not a P-File")).
Proof.
  destruct (@raw_file_is_opened_before_the_class_name_is_examined
              (refused_pfile epi_pfile_scan) "scan.7" "NoSuchConverter" false
              (fst (run (@new_GERawConverter (refused_pfile epi_pfile_scan)
                           "scan.7" "NoSuchConverter" false)))
              (snd (run (@new_GERawConverter (refused_pfile epi_pfile_scan)
                           "scan.7" "NoSuchConverter" false)))
              ltac:(vm_compute; reflexivity))
    as (Hthrows & Htrace & _).
  rewrite (surjective_pairing
             (run (@new_GERawConverter (refused_pfile epi_pfile_scan)
                     "scan.7" "NoSuchConverter" false))).
  rewrite (proj2 (Hthrows (std_exception "not a P-File")) eq_refl).
  rewrite (Htrace (std_exception "not a P-File")
             (proj2 (Hthrows (std_exception "not a P-File")) eq_refl)).
  reflexivity.
Defined.

(** X14, on the session over the EPI scan: no header before a stylesheet
    is loaded, projection once one is. *)
Lemma epi_session_needs_a_stylesheet :
  run (@getIsmrmrdXMLHeader last_argument_first (file_orchestra epi_archive_scan) recording_writer
         identity_engine (session_of epi_archive_scan "NIHepiConverter"))
  = ([ev_cerr "Error in getIsmrmrdXMLHeader(): No stylesheet configured."],
     Throws (runtime_error "No stylesheet configured."))
  /\ exists rest,
       fst (header_of epi_archive_scan "<xsl:stylesheet/>")
       = ev_cout "[INFO] Starting conversion of raw file header to XML string." :: rest.
Proof.
  destruct (@fresh_session_refuses_header_generation last_argument_first
              (file_orchestra epi_archive_scan) recording_writer identity_engine
              "scan.h5" "NIHepiConverter" false
              (fst (run (@new_GERawConverter (file_orchestra epi_archive_scan)
                           "scan.h5" "NIHepiConverter" false)))
              (session_of epi_archive_scan "NIHepiConverter")
              ltac:(vm_compute; reflexivity))
    as (Hrefuse & Hsheet).
  split; [exact Hrefuse|].
  apply Hsheet. discriminate.
Defined.
